(** * DNSASM: the portable C reference implementation, embedded in Rocq

    Source: [dnsasm/src/dnsasm.c] and [dnsasm/include/dnsasm.h].

    The embedding is shallow.  C integers are [Z] with the wrap-around of
    their width written out ([u8], [u16], [u32], [sz]); a buffer handed over
    as a pointer is a [list byte] together with the length argument the C
    function receives; every access through a pointer is bounds checked
    against the real extent of the buffer and an access outside of it (which
    is undefined behaviour in C) stops the computation with a [Fault]. *)

From Stdlib Require Import ZArith Lia Bool.
From Stdlib Require Import Strings.Byte.
From stdpp Require Import base list.

Local Open Scope Z_scope.

(* ------------------------------------------------------------------ *)
(** ** Computations *)

Inductive fault : Type :=
| OobRead    (* a load outside of the buffer *)
| OobWrite.  (* a store outside of the buffer *)

Inductive run (A : Type) : Type :=
| Done (a : A)
| Fault (f : fault)
| OutOfFuel.

Arguments Done {A} a.
Arguments Fault {A} f.
Arguments OutOfFuel {A}.

Definition bind {A B : Type} (c : run A) (k : A -> run B) : run B :=
  match c with
  | Done a => k a
  | Fault f => Fault f
  | OutOfFuel => OutOfFuel
  end.

Notation "'let*' x ':=' c 'in' k" := (bind c (fun x => k))
  (at level 10, x name, c at level 100, k at level 200).

(* ------------------------------------------------------------------ *)
(** ** Machine integers and bytes *)

(** [uint8_t] value of a byte. *)
Definition u8 (b : byte) : Z := Z.of_N (Byte.to_N b).

(** Conversion of an integer to [uint8_t]. *)
Definition byte_of (z : Z) : byte :=
  match Byte.of_N (Z.to_N (z mod 256)) with
  | Some b => b
  | None => x00
  end.

(** Conversions to [uint16_t], [uint32_t] and [size_t] (64 bits). *)
Definition u16 (x : Z) : Z := x mod 65536.
Definition u32 (x : Z) : Z := x mod 4294967296.
Definition sz (x : Z) : Z := x mod 18446744073709551616.

(* ------------------------------------------------------------------ *)
(** ** Constants of [dnsasm.h] *)

Definition DNS_HEADER_SIZE : Z := 12.
Definition DNS_MAX_NAME_LEN : Z := 255.
Definition DNS_MAX_PACKET_SIZE : Z := 65535.

Definition DNSASM_OK : Z := 0.
Definition DNSASM_ERR_SHORT : Z := -1.
Definition DNSASM_ERR_NAME : Z := -2.
Definition DNSASM_ERR_POINTER : Z := -3.
Definition DNSASM_ERR_LOOP : Z := -4.
Definition DNSASM_ERR_OVERFLOW : Z := -5.

(* ------------------------------------------------------------------ *)
(** ** Memory accesses *)

(** The byte at index [i] of a buffer, when there is one. *)
Definition peek (p : list byte) (i : Z) : option byte :=
  if (0 <=? i) && (i <? Z.of_nat (length p)) then p !! Z.to_nat i else None.

(** [n] bytes starting at index [i] lie inside the buffer. *)
Definition in_bounds (p : list byte) (i n : Z) : bool :=
  (0 <=? i) && (0 <=? n) && (i + n <=? Z.of_nat (length p)).

(** [p[i]] *)
Definition load8 (p : list byte) (i : Z) : run byte :=
  match peek p i with
  | Some b => Done b
  | None => Fault OobRead
  end.

(** [p[i] = v] *)
Definition store8 (p : list byte) (i : Z) (v : byte) : run (list byte) :=
  if in_bounds p i 1 then Done (<[Z.to_nat i := v]> p) else Fault OobWrite.

(** [memcpy(dst + di, src + si, n)] *)
Definition memcpy (dst : list byte) (di : Z) (src : list byte) (si n : Z)
  : run (list byte) :=
  if negb (in_bounds dst di n) then Fault OobWrite
  else if negb (in_bounds src si n) then Fault OobRead
  else Done (take (Z.to_nat di) dst
               ++ take (Z.to_nat n) (drop (Z.to_nat si) src)
               ++ drop (Z.to_nat (di + n)) dst).

(** [*(const uint16_t * )(p + i)] on the little-endian hosts the library
    targets (x86_64, ARM64). *)
Definition load16 (p : list byte) (i : Z) : run Z :=
  let* b0 := load8 p i in
  let* b1 := load8 p (i + 1) in
  Done (u8 b0 + 256 * u8 b1).

(** [*(const uint32_t * )(p + i)] *)
Definition load32 (p : list byte) (i : Z) : run Z :=
  let* b0 := load8 p i in
  let* b1 := load8 p (i + 1) in
  let* b2 := load8 p (i + 2) in
  let* b3 := load8 p (i + 3) in
  Done (u8 b0 + 256 * u8 b1 + 65536 * u8 b2 + 16777216 * u8 b3).

(** [*(uint16_t * )(p + i) = v] *)
Definition store16 (p : list byte) (i : Z) (v : Z) : run (list byte) :=
  let* p1 := store8 p i (byte_of v) in
  store8 p1 (i + 1) (byte_of (Z.shiftr v 8)).

(** [bswap16]: the operands are promoted to [int], the result is converted
    back to [uint16_t]. *)
Definition bswap16 (x : Z) : Z :=
  u16 (Z.lor (Z.shiftr x 8) (Z.shiftl x 8)).

(** [bswap32] *)
Definition bswap32 (x : Z) : Z :=
  Z.lor (Z.lor (Z.lor (Z.land (Z.shiftr x 24) 0xff)
                      (Z.land (Z.shiftr x 8) 0xff00))
               (Z.land (u32 (Z.shiftl x 8)) 0xff0000))
        (Z.land (u32 (Z.shiftl x 24)) 0xff000000).

(* ------------------------------------------------------------------ *)
(** ** Data structures of [dnsasm.h]

    Field names carry the name of their structure as a prefix, since
    several structures of the header share field names. *)

Record dnsasm_header_t : Type := {
  hdr_id : Z;
  hdr_flags : Z;
  hdr_qdcount : Z;
  hdr_ancount : Z;
  hdr_nscount : Z;
  hdr_arcount : Z;
  hdr_qr : Z;
  hdr_opcode : Z;
  hdr_aa : Z;
  hdr_tc : Z;
  hdr_rd : Z;
  hdr_ra : Z;
  hdr_rcode : Z;
  hdr_pad : Z
}.

Record dnsasm_question_t : Type := {
  q_name : list byte;      (* uint8_t name[DNS_MAX_NAME_LEN + 1] *)
  q_name_len : Z;
  q_qtype : Z;
  q_qclass : Z;
  q_wire_len : Z
}.

(** [rdata] points into the packet: it is the index of the first byte of
    the view. *)
Record dnsasm_rr_t : Type := {
  rr_name : list byte;     (* uint8_t name[DNS_MAX_NAME_LEN + 1] *)
  rr_name_len : Z;
  rr_rtype : Z;
  rr_rclass : Z;
  rr_ttl : Z;
  rr_rdlength : Z;
  rr_rdata : option Z;     (* NULL or packet + index *)
  rr_wire_len : Z
}.

Record dnsasm_result_t : Type := {
  res_error : Z;
  res_offset : Z
}.

(* ------------------------------------------------------------------ *)
(** ** [dnsasm_decompress_name] *)

(** The local variables of the function and the output buffer. *)
Record dstate : Type := {
  st_out_pos : Z;            (* size_t out_pos *)
  st_wire_len : Z;           (* size_t wire_len *)
  st_counting_wire : bool;   (* int counting_wire *)
  st_ptr_count : Z;          (* int ptr_count, never above 128 *)
  st_pos : Z;                (* size_t pos *)
  st_out : list byte         (* the bytes behind out *)
}.

(** How one pass through the body of the [while] loop ends. *)
Inductive ctl : Type :=
| Continue (s : dstate)          (* next iteration *)
| Break (s : dstate)             (* break *)
| Return (err : Z) (s : dstate). (* result.error = err; return result *)

Definition loop_body (packet : list byte) (len : Z) (s : dstate) : run ctl :=
  let* label_len := load8 packet (st_pos s) in
  let l := u8 label_len in
  if Z.land l 0xC0 =? 0xC0 then
    if sz (st_pos s + 1) >=? len then Done (Return DNSASM_ERR_SHORT s)
    else
      let* b1 := load8 packet (sz (st_pos s + 1)) in
      let ptr := u16 (Z.lor (Z.shiftl (Z.land l 0x3F) 8) (u8 b1)) in
      let wire_len := if st_counting_wire s then sz (st_wire_len s + 2)
                      else st_wire_len s in
      let ptr_count := st_ptr_count s + 1 in
      let s1 := {| st_out_pos := st_out_pos s; st_wire_len := wire_len;
                   st_counting_wire := false; st_ptr_count := ptr_count;
                   st_pos := st_pos s; st_out := st_out s |} in
      if ptr_count >? 127 then Done (Return DNSASM_ERR_LOOP s1)
      else if ptr >=? st_pos s then Done (Return DNSASM_ERR_POINTER s1)
      else Done (Continue
                   {| st_out_pos := st_out_pos s; st_wire_len := wire_len;
                      st_counting_wire := false; st_ptr_count := ptr_count;
                      st_pos := ptr; st_out := st_out s |})
  else if l =? 0 then
    let* out1 := store8 (st_out s) (st_out_pos s) x00 in
    Done (Break
            {| st_out_pos := sz (st_out_pos s + 1);
               st_wire_len := if st_counting_wire s then sz (st_wire_len s + 1)
                              else st_wire_len s;
               st_counting_wire := st_counting_wire s;
               st_ptr_count := st_ptr_count s;
               st_pos := st_pos s; st_out := out1 |})
  else if l >? 63 then Done (Return DNSASM_ERR_NAME s)
  else if sz (st_pos s + 1 + l) >? len then Done (Return DNSASM_ERR_SHORT s)
  else if sz (st_out_pos s + 1 + l) >? DNS_MAX_NAME_LEN
       then Done (Return DNSASM_ERR_OVERFLOW s)
  else
    let* out1 := store8 (st_out s) (st_out_pos s) label_len in
    let* out2 := memcpy out1 (sz (st_out_pos s + 1)) packet (st_pos s + 1) l in
    Done (Continue
            {| st_out_pos := sz (sz (st_out_pos s + 1) + l);
               st_wire_len := if st_counting_wire s
                              then sz (st_wire_len s + (1 + l))
                              else st_wire_len s;
               st_counting_wire := st_counting_wire s;
               st_ptr_count := st_ptr_count s;
               st_pos := sz (st_pos s + (1 + l)); st_out := out2 |}).

(** How the [while] loop is left: by falling out of it or through [break]
    ([Finished]), or by one of the [return]s of its body ([Failed]). *)
Inductive loop_exit : Type :=
| Finished (s : dstate)
| Failed (err : Z) (s : dstate).

Fixpoint decompress_loop (fuel : nat) (packet : list byte) (len : Z)
  (s : dstate) : run loop_exit :=
  match fuel with
  | O => OutOfFuel
  | S fuel' =>
      if st_pos s <? len then
        let* c := loop_body packet len s in
        match c with
        | Continue s' => decompress_loop fuel' packet len s'
        | Break s' => Done (Finished s')
        | Return err s' => Done (Failed err s')
        end
      else Done (Finished s)
  end.

Definition decompress_init (offset : Z) (out : list byte) : dstate :=
  {| st_out_pos := 0; st_wire_len := 0; st_counting_wire := true;
     st_ptr_count := 0; st_pos := offset; st_out := out |}.

(** The function with an explicit bound on the number of passes through the
    loop.  It returns the result structure, the bytes behind [out] and the
    value behind [out_len]. *)
Definition decompress_name_fuel (fuel : nat) (packet : list byte)
  (len offset : Z) (out : list byte) (out_len : Z)
  : run (dnsasm_result_t * list byte * Z) :=
  let* e := decompress_loop fuel packet len (decompress_init offset out) in
  match e with
  | Finished s =>
      Done ({| res_error := DNSASM_OK; res_offset := u32 (st_wire_len s) |},
            st_out s, u16 (st_out_pos s))
  | Failed err s =>
      Done ({| res_error := err; res_offset := 0 |}, st_out s, out_len)
  end.

(** Every pass through the loop either leaves it, follows a pointer (at most
    127 times) or copies a label of at least two bytes to an output of at
    most 255 bytes: 384 passes are more than the loop can make. *)
Definition decompress_fuel : nat := 384.

Definition dnsasm_decompress_name (packet : list byte) (len offset : Z)
  (out : list byte) (out_len : Z) : run (dnsasm_result_t * list byte * Z) :=
  decompress_name_fuel decompress_fuel packet len offset out out_len.

(* ------------------------------------------------------------------ *)
(** ** [dnsasm_parse_header] *)

(** Each function that fills a structure through a pointer takes the
    structure as the caller left it and returns it as the call leaves it. *)
Definition dnsasm_parse_header (packet : list byte) (len : Z)
  (out : dnsasm_header_t) : run (Z * dnsasm_header_t) :=
  if len <? DNS_HEADER_SIZE then Done (DNSASM_ERR_SHORT, out)
  else
    let* w0 := load16 packet 0 in
    let* w1 := load16 packet 2 in
    let* w2 := load16 packet 4 in
    let* w3 := load16 packet 6 in
    let* w4 := load16 packet 8 in
    let* w5 := load16 packet 10 in
    let flags := bswap16 w1 in
    Done (DNSASM_OK,
          {| hdr_id := bswap16 w0;
             hdr_flags := flags;
             hdr_qdcount := bswap16 w2;
             hdr_ancount := bswap16 w3;
             hdr_nscount := bswap16 w4;
             hdr_arcount := bswap16 w5;
             hdr_qr := Z.land (Z.shiftr flags 15) 1 mod 256;
             hdr_opcode := Z.land (Z.shiftr flags 11) 0x0F mod 256;
             hdr_aa := Z.land (Z.shiftr flags 10) 1 mod 256;
             hdr_tc := Z.land (Z.shiftr flags 9) 1 mod 256;
             hdr_rd := Z.land (Z.shiftr flags 8) 1 mod 256;
             hdr_ra := Z.land (Z.shiftr flags 7) 1 mod 256;
             hdr_rcode := Z.land flags 0x0F mod 256;
             hdr_pad := hdr_pad out |}).

(* ------------------------------------------------------------------ *)
(** ** [dnsasm_parse_question] *)

Definition dnsasm_parse_question (packet : list byte) (len offset : Z)
  (out : dnsasm_question_t) : run (dnsasm_result_t * dnsasm_question_t) :=
  let* r := dnsasm_decompress_name packet len offset
              (q_name out) (q_name_len out) in
  let '(result, name, name_len) := r in
  let out1 := {| q_name := name; q_name_len := name_len;
                 q_qtype := q_qtype out; q_qclass := q_qclass out;
                 q_wire_len := q_wire_len out |} in
  if negb (res_error result =? DNSASM_OK) then Done (result, out1)
  else
    let wire_len := res_offset result in
    let pos := sz (offset + wire_len) in
    if sz (pos + 4) >? len then
      Done ({| res_error := DNSASM_ERR_SHORT; res_offset := 0 |}, out1)
    else
      let* qtype := load16 packet pos in
      let* qclass := load16 packet (pos + 2) in
      Done ({| res_error := DNSASM_OK; res_offset := u32 (sz (pos + 4)) |},
            {| q_name := name; q_name_len := name_len;
               q_qtype := bswap16 qtype; q_qclass := bswap16 qclass;
               q_wire_len := u16 (sz (wire_len + 4)) |}).

(* ------------------------------------------------------------------ *)
(** ** [dnsasm_parse_rr] *)

Definition dnsasm_parse_rr (packet : list byte) (len offset : Z)
  (out : dnsasm_rr_t) : run (dnsasm_result_t * dnsasm_rr_t) :=
  let* r := dnsasm_decompress_name packet len offset
              (rr_name out) (rr_name_len out) in
  let '(result, name, name_len) := r in
  let out1 := {| rr_name := name; rr_name_len := name_len;
                 rr_rtype := rr_rtype out; rr_rclass := rr_rclass out;
                 rr_ttl := rr_ttl out; rr_rdlength := rr_rdlength out;
                 rr_rdata := rr_rdata out; rr_wire_len := rr_wire_len out |} in
  if negb (res_error result =? DNSASM_OK) then Done (result, out1)
  else
    let wire_len := res_offset result in
    let pos := sz (offset + wire_len) in
    if sz (pos + 10) >? len then
      Done ({| res_error := DNSASM_ERR_SHORT; res_offset := 0 |}, out1)
    else
      let* rtype := load16 packet pos in
      let* rclass := load16 packet (pos + 2) in
      let* ttl := load32 packet (pos + 4) in
      let* rdlen := load16 packet (pos + 8) in
      let rdlength := bswap16 rdlen in
      let out2 := {| rr_name := name; rr_name_len := name_len;
                     rr_rtype := bswap16 rtype; rr_rclass := bswap16 rclass;
                     rr_ttl := bswap32 ttl; rr_rdlength := rdlength;
                     rr_rdata := rr_rdata out;
                     rr_wire_len := rr_wire_len out |} in
      let pos := sz (pos + 10) in
      if sz (pos + rdlength) >? len then
        Done ({| res_error := DNSASM_ERR_SHORT; res_offset := 0 |}, out2)
      else
        Done ({| res_error := DNSASM_OK;
                 res_offset := u32 (sz (pos + rdlength)) |},
              {| rr_name := name; rr_name_len := name_len;
                 rr_rtype := bswap16 rtype; rr_rclass := bswap16 rclass;
                 rr_ttl := bswap32 ttl; rr_rdlength := rdlength;
                 rr_rdata := Some pos;
                 rr_wire_len := u16 (sz (sz (wire_len + 10) + rdlength)) |}).

(** The bytes a record's [rdata] and [rdlength] fields designate in the
    packet they were decoded from. *)
Definition rdata_view (packet : list byte) (rr : dnsasm_rr_t) : list byte :=
  match rr_rdata rr with
  | Some p => take (Z.to_nat (rr_rdlength rr)) (drop (Z.to_nat p) packet)
  | None => []
  end.

(* ------------------------------------------------------------------ *)
(** ** [dnsasm_build_header] *)

Definition dnsasm_build_header (out : list byte)
  (id flags qdcount ancount nscount arcount : Z) : run (Z * list byte) :=
  let* o1 := store16 out 0 (bswap16 id) in
  let* o2 := store16 o1 2 (bswap16 flags) in
  let* o3 := store16 o2 4 (bswap16 qdcount) in
  let* o4 := store16 o3 6 (bswap16 ancount) in
  let* o5 := store16 o4 8 (bswap16 nscount) in
  let* o6 := store16 o5 10 (bswap16 arcount) in
  Done (DNS_HEADER_SIZE, o6).

(* ------------------------------------------------------------------ *)
(** ** [dnsasm_name_equal] *)

(** ['A'] and ['Z'] *)
Definition char_A : Z := 65.
Definition char_Z : Z := 90.

(** The body of the [for] loop; [None] stands for reaching its end. *)
Definition name_equal_body (a b : list byte) (i : Z) : run (option Z) :=
  let* ba := load8 a i in
  let* bb := load8 b i in
  let ca := u8 ba in
  let cb := u8 bb in
  let ca := if (ca >=? char_A) && (ca <=? char_Z) then (ca + 32) mod 256
            else ca in
  let cb := if (cb >=? char_A) && (cb <=? char_Z) then (cb + 32) mod 256
            else cb in
  if negb (ca =? cb) then Done (Some 1) else Done None.

(** The [for] loop from index [i] on, with [n] iterations left. *)
Fixpoint name_equal_loop (n : nat) (a b : list byte) (i : Z) : run Z :=
  match n with
  | O => Done 0
  | S n' =>
      let* r := name_equal_body a b i in
      match r with
      | Some v => Done v
      | None => name_equal_loop n' a b (sz (i + 1))
      end
  end.

Definition dnsasm_name_equal (a : list byte) (a_len : Z)
  (b : list byte) (b_len : Z) : run Z :=
  if negb (a_len =? b_len) then Done 1
  else name_equal_loop (Z.to_nat a_len) a b 0.

(* ------------------------------------------------------------------ *)
(** ** Loop invariant and measure of [dnsasm_decompress_name] *)

(** What holds of the local variables at the head of the loop. *)
Definition dinv (s : dstate) : Prop :=
  0 <= st_out_pos s <= DNS_MAX_NAME_LEN /\ 0 <= st_ptr_count s <= 127.

(** The number of passes the loop can still make. *)
Definition budget (s : dstate) : nat :=
  Z.to_nat (382 - st_ptr_count s - st_out_pos s).

(** What holds of the consumed-byte count: it counts the output bytes while
    counting is live, and two more from the first pointer on. *)
Definition wire_inv (s : dstate) : Prop :=
  0 <= st_wire_len s <= st_out_pos s + 2
  /\ (st_counting_wire s = true -> st_wire_len s <= st_out_pos s).

(** What holds of the output buffer during a call that started with the
    buffer [o0]: its extent is that of [o0] and so are its bytes from index
    [DNS_MAX_NAME_LEN + 1] on. *)
Definition out_inv (o0 : list byte) (o : list byte) : Prop :=
  length o = length o0
  /\ forall i : nat, DNS_MAX_NAME_LEN + 1 <= Z.of_nat i -> o !! i = o0 !! i.

Definition step_inv (o0 : list byte) (s : dstate) : Prop :=
  dinv s /\ wire_inv s /\ out_inv o0 (st_out s).

(** What holds once the loop is left without an error. *)
Definition exit_inv (o0 : list byte) (s : dstate) : Prop :=
  0 <= st_out_pos s <= DNS_MAX_NAME_LEN + 1
  /\ 0 <= st_wire_len s <= DNS_MAX_NAME_LEN + 2
  /\ out_inv o0 (st_out s).

(* ------------------------------------------------------------------ *)
(** ** The wire format of names, after the specification *)

(** One label on the wire: its length byte, then its bytes. *)
Definition enc_label (lab : list byte) : list byte :=
  byte_of (Z.of_nat (length lab)) :: lab.

(** A sequence of labels on the wire. *)
Definition enc_labels (ls : list (list byte)) : list byte :=
  concat (map enc_label ls).

(** A label has between 1 and 63 bytes. *)
Definition valid_label (lab : list byte) : Prop :=
  (1 <= length lab <= 63)%nat.

#[global] Instance valid_label_dec (lab : list byte) :
  Decision (valid_label lab).
Proof. unfold valid_label. apply _. Defined.

(** The buffer holds the bytes [bs] from index [i] on. *)
Definition bytes_at (p : list byte) (i : Z) (bs : list byte) : Prop :=
  0 <= i /\ take (length bs) (drop (Z.to_nat i) p) = bs.

#[global] Instance byte_eq_dec : EqDecision byte := Byte.byte_eq_dec.

#[global] Instance bytes_at_dec (p : list byte) (i : Z) (bs : list byte) :
  Decision (bytes_at p i bs).
Proof. unfold bytes_at. apply _. Defined.

(** A compression pointer at index [i] of a packet of [len] bytes: two
    bytes inside the packet, the top two bits of the first one set; the
    target is the 14-bit number made of the other six bits and of the
    second byte. *)
Definition pointer_target (packet : list byte) (len : Z) (i : Z)
  : option Z :=
  match peek packet i, peek packet (i + 1) with
  | Some b0, Some b1 =>
      if (192 <=? u8 b0) && (i + 1 <? len)
      then Some ((u8 b0 - 192) * 256 + u8 b1)
      else None
  | _, _ => None
  end.

(** [wire_path packet len p q hops bs c]: read as a name, the bytes from
    index [p] on lead to index [q] through labels and backward pointers,
    [hops] pointers on the way; [bs] are the labels met, in order, as they
    stand on the wire, and [c] is the number of bytes the encoding occupies
    at [p]: the labels before the first pointer and the two bytes of that
    pointer. *)
Inductive wire_path (packet : list byte) (len : Z)
  : Z -> Z -> nat -> list byte -> Z -> Prop :=
| path_here (p : Z) : wire_path packet len p p 0 [] 0
| path_label (p q : Z) (lab : list byte) (hops : nat) (bs : list byte)
    (c : Z) :
    valid_label lab ->
    bytes_at packet p (enc_label lab) ->
    p + 1 + Z.of_nat (length lab) <= len ->
    wire_path packet len (p + 1 + Z.of_nat (length lab)) q hops bs c ->
    wire_path packet len p q hops (enc_label lab ++ bs)
      (1 + Z.of_nat (length lab) + c)
| path_pointer (p t q : Z) (hops : nat) (bs : list byte) (c : Z) :
    pointer_target packet len p = Some t ->
    t < p ->
    wire_path packet len t q hops bs c ->
    wire_path packet len p q (S hops) bs 2.

(** The name terminator stands at index [q] of the packet. *)
Definition terminator_at (packet : list byte) (len : Z) (q : Z) : Prop :=
  peek packet q = Some x00 /\ q < len.

(* ------------------------------------------------------------------ *)
(** ** The state of the loop along a path *)

(** A buffer with the bytes [bs] written from index [k] on. *)
Definition overwrite (o : list byte) (k : Z) (bs : list byte) : list byte :=
  take (Z.to_nat k) o ++ bs ++ drop (Z.to_nat k + length bs)%nat o.

(** The local variables after the loop has gone along a path that took
    [hops] pointers, met the label bytes [bs] and occupies [c] bytes, ending
    at index [q]. *)
Definition after_path (s : dstate) (q : Z) (hops : nat) (bs : list byte)
  (c : Z) : dstate :=
  {| st_out_pos := st_out_pos s + Z.of_nat (length bs);
     st_wire_len := if st_counting_wire s then st_wire_len s + c
                    else st_wire_len s;
     st_counting_wire := match hops with
                         | O => st_counting_wire s
                         | S _ => false
                         end;
     st_ptr_count := st_ptr_count s + Z.of_nat hops;
     st_pos := q;
     st_out := overwrite (st_out s) (st_out_pos s) bs |}.

(* ------------------------------------------------------------------ *)
(** ** Concrete inputs *)

(** A label of [n] bytes ['a'] on the wire. *)
Definition label_of_a (n : nat) : list byte := enc_label (repeat x61 n).

(** A name of three labels of 63 bytes and one of 62 bytes, then the
    terminator: 255 bytes of labels, 256 bytes with the terminator. *)
Definition long_name_packet : list byte :=
  label_of_a 63 ++ label_of_a 63 ++ label_of_a 63 ++ label_of_a 62 ++ [x00].

(** An output buffer of [DNS_MAX_NAME_LEN + 1] bytes, filled with [0xff]. *)
Definition fresh_out : list byte := repeat xff 256.

Definition fresh_question : dnsasm_question_t :=
  {| q_name := fresh_out; q_name_len := 7; q_qtype := 7; q_qclass := 7;
     q_wire_len := 7 |}.

Definition fresh_rr : dnsasm_rr_t :=
  {| rr_name := fresh_out; rr_name_len := 7; rr_rtype := 7; rr_rclass := 7;
     rr_ttl := 7; rr_rdlength := 7; rr_rdata := None; rr_wire_len := 7 |}.

(* ------------------------------------------------------------------ *)
(** ** Big-endian fields and the header on the wire, after the
       specification *)

(** A 16-bit value as two bytes, most significant first. *)
Definition be16_bytes (v : Z) : list byte :=
  [byte_of (v / 256); byte_of (v mod 256)].

(** The 16-bit big-endian value at index [i]. *)
Definition be16 (p : list byte) (i : Z) : option Z :=
  match peek p i, peek p (i + 1) with
  | Some b0, Some b1 => Some (u8 b0 * 256 + u8 b1)
  | _, _ => None
  end.

(** The 32-bit big-endian value at index [i]. *)
Definition be32 (p : list byte) (i : Z) : option Z :=
  match peek p i, peek p (i + 1), peek p (i + 2), peek p (i + 3) with
  | Some b0, Some b1, Some b2, Some b3 =>
      Some (u8 b0 * 16777216 + u8 b1 * 65536 + u8 b2 * 256 + u8 b3)
  | _, _, _, _ => None
  end.

(** The twelve bytes of a header: the six fields big-endian, in order. *)
Definition header_bytes (id flags qd an ns ar : Z) : list byte :=
  be16_bytes id ++ be16_bytes flags ++ be16_bytes qd ++ be16_bytes an
  ++ be16_bytes ns ++ be16_bytes ar.

(** Bits [lo] to [lo + n - 1] of a flags word. *)
Definition flag_bits (flags lo n : Z) : Z := (flags / 2 ^ lo) mod 2 ^ n.

(** A header with the given fields and the sub-fields the flags word
    defines: bit 15 QR, bits 11-14 opcode, bit 10 AA, bit 9 TC, bit 8 RD,
    bit 7 RA, bits 0-3 RCODE. *)
Definition header_of (id flags qd an ns ar pad : Z) : dnsasm_header_t :=
  {| hdr_id := id; hdr_flags := flags; hdr_qdcount := qd;
     hdr_ancount := an; hdr_nscount := ns; hdr_arcount := ar;
     hdr_qr := flag_bits flags 15 1;
     hdr_opcode := flag_bits flags 11 4;
     hdr_aa := flag_bits flags 10 1;
     hdr_tc := flag_bits flags 9 1;
     hdr_rd := flag_bits flags 8 1;
     hdr_ra := flag_bits flags 7 1;
     hdr_rcode := flag_bits flags 0 4;
     hdr_pad := pad |}.

(* ------------------------------------------------------------------ *)
(** ** Comparison of names, after the specification *)

(** ASCII case folding: a byte in ['A'-'Z'] is mapped to its lowercase
    form, every other byte to itself. *)
Definition fold_case (b : byte) : Z :=
  if (65 <=? u8 b) && (u8 b <=? 90) then u8 b + 32 else u8 b.

(** The ASCII letters. *)
Definition is_letter (b : byte) : bool :=
  ((65 <=? u8 b) && (u8 b <=? 90)) || ((97 <=? u8 b) && (u8 b <=? 122)).

(** The names ["WWW"] and ["www"]. *)
Definition name_WWW : list byte := [x57; x57; x57].
Definition name_www : list byte := [x77; x77; x77].

(** A record of more than 65535 bytes: the root name, type 1, class 1,
    ttl 300, rdlength 65535 and 65535 bytes of rdata. *)
Definition big_rr_packet : list byte :=
  [x00; x00; x01; x00; x01; x00; x00; x01; x2c; xff; xff]
  ++ repeat x00 (Z.to_nat 65535).

(** The query of the specification's end-to-end example, with its answer:
    a 12-byte header, the question [www.example.com] A IN at offset 12 and,
    at offset 33, an answer whose name is a pointer to offset 12. *)
Definition sample_packet : list byte :=
  [x12; x34; x01; x00; x00; x01; x00; x00; x00; x00; x00; x00;
   x03; x77; x77; x77; x07; x65; x78; x61; x6d; x70; x6c; x65;
   x03; x63; x6f; x6d; x00; x00; x01; x00; x01;
   xc0; x0c; x00; x01; x00; x01; x00; x00; x01; x2c; x00; x04;
   x5d; xb8; xd8; x22].

(** The labels [www], [example], [com] and [mail]. *)
Definition label_www : list byte := [x77; x77; x77].
Definition label_example : list byte := [x65; x78; x61; x6d; x70; x6c; x65].
Definition label_com : list byte := [x63; x6f; x6d].
Definition label_mail : list byte := [x6d; x61; x69; x6c].

(** The sample packet followed, at offset 49, by the name [mail] and a
    pointer to [example.com] at offset 16. *)
Definition mail_packet : list byte :=
  sample_packet ++ enc_label label_mail ++ [xc0; x10].

(** Two zero bytes, then 128 pointers: the pointer at index [2 k + 2]
    points to index [2 k]. *)
Definition chain_packet : list byte :=
  [x00; x00]
  ++ concat (map (fun k : nat => [xc0; byte_of (2 * Z.of_nat k)])
               (seq 0 128)).

(** A pointer to itself. *)
Definition self_pointer_packet : list byte := [xc0; x00].

(** A pointer to itself at index 0, then 127 pointers: the pointer at index
    [2 k + 2] points to index [2 k]. *)
Definition self_chain_packet : list byte :=
  [xc0; x00]
  ++ concat (map (fun k : nat => [xc0; byte_of (2 * Z.of_nat k)])
               (seq 0 127)).

(* ================================================================== *)
(** * The builders, the search, and the rest of the decoders *)

(* ------------------------------------------------------------------ *)
(** ** More constants of [dnsasm.h] *)

Definition DNS_TYPE_A : Z := 1.
Definition DNS_CLASS_IN : Z := 1.

(* ------------------------------------------------------------------ *)
(** ** [dnsasm_copy_question] and the 32-bit store *)

(** [*(uint32_t * )(p + i) = v] *)
Definition store32 (p : list byte) (i : Z) (v : Z) : run (list byte) :=
  let* p1 := store8 p i (byte_of v) in
  let* p2 := store8 p1 (i + 1) (byte_of (Z.shiftr v 8)) in
  let* p3 := store8 p2 (i + 2) (byte_of (Z.shiftr v 16)) in
  store8 p3 (i + 3) (byte_of (Z.shiftr v 24)).


(* ------------------------------------------------------------------ *)
(** ** [dnsasm_build_a_record] *)

Definition dnsasm_build_a_record (out name : list byte) (name_len ttl : Z)
  (ip : list byte) : run (Z * list byte) :=
  let pos := 0 in
  let* o1 := memcpy out 0 name 0 name_len in
  let pos := sz (pos + name_len) in
  let* o2 := store16 o1 pos (bswap16 DNS_TYPE_A) in
  let pos := sz (pos + 2) in
  let* o3 := store16 o2 pos (bswap16 DNS_CLASS_IN) in
  let pos := sz (pos + 2) in
  let* o4 := store32 o3 pos (bswap32 ttl) in
  let pos := sz (pos + 4) in
  let* o5 := store16 o4 pos (bswap16 4) in
  let pos := sz (pos + 2) in
  let* o6 := memcpy o5 pos ip 0 4 in
  let pos := sz (pos + 4) in
  Done (pos, o6).

(* ------------------------------------------------------------------ *)
(** ** [dnsasm_name_find] *)

(** Conversion of a [size_t] to [int]. *)
Definition to_int (x : Z) : Z :=
  (x + 2147483648) mod 4294967296 - 2147483648.

(** One test of the condition of the [while] loop that measures an entry
    and, when it holds, one pass through its body: the new [pos], or [None]
    when the loop is left. *)
Definition hay_length_body (hay : list byte) (pos : Z) : run (option Z) :=
  let* b := load8 hay pos in
  if negb (u8 b =? 0) && (pos <? DNS_MAX_NAME_LEN) then
    let* b' := load8 hay pos in
    Done (Some (sz (pos + (1 + u8 b'))))
  else Done None.

Fixpoint hay_length_loop (fuel : nat) (hay : list byte) (pos : Z) : run Z :=
  match fuel with
  | O => OutOfFuel
  | S fuel' =>
      let* r := hay_length_body hay pos in
      match r with
      | Some pos' => hay_length_loop fuel' hay pos'
      | None => Done pos
      end
  end.

(** Every pass adds at least 2 to [pos] below 255: 130 tests are more than
    the loop can make. *)
Definition hay_length_fuel : nat := 130.

(** [haystack[i]]: the bytes behind the [i]-th pointer of the array. *)
Definition load_entry (haystack : list (list byte)) (i : Z)
  : run (list byte) :=
  if (0 <=? i) && (i <? Z.of_nat (length haystack)) then
    match haystack !! Z.to_nat i with
    | Some hay => Done hay
    | None => Fault OobRead
    end
  else Fault OobRead.

(** The body of the [for] loop; [None] stands for reaching its end. *)
Definition name_find_body (needle : list byte) (needle_len : Z)
  (haystack : list (list byte)) (i : Z) : run (option Z) :=
  let* hay := load_entry haystack i in
  let* pos := hay_length_loop hay_length_fuel hay 0 in
  let hay_len := sz (pos + 1) in
  let* eq := dnsasm_name_equal needle needle_len hay hay_len in
  if eq =? 0 then Done (Some (to_int i)) else Done None.

(** The [for] loop from index [i] on, with [n] iterations left. *)
Fixpoint name_find_loop (n : nat) (needle : list byte) (needle_len : Z)
  (haystack : list (list byte)) (i : Z) : run Z :=
  match n with
  | O => Done (-1)
  | S n' =>
      let* r := name_find_body needle needle_len haystack i in
      match r with
      | Some v => Done v
      | None => name_find_loop n' needle needle_len haystack (sz (i + 1))
      end
  end.

Definition dnsasm_name_find (needle : list byte) (needle_len : Z)
  (haystack : list (list byte)) (count : Z) : run Z :=
  name_find_loop (Z.to_nat count) needle needle_len haystack 0.

(** A name on the wire without compression: its labels and the
    terminator. *)
Definition enc_name (ls : list (list byte)) : list byte :=
  enc_labels ls ++ [x00].

(** An entry of the array holds, from its first byte on, the name with the
    labels [ls]. *)
Definition holds_name (hay : list byte) (ls : list (list byte)) : Prop :=
  Forall valid_label ls
  /\ Z.of_nat (length (enc_labels ls)) <= DNS_MAX_NAME_LEN
  /\ bytes_at hay 0 (enc_name ls).

(** The first [n] bytes of the needle are the name with the labels [ls], up
    to the case of the letters. *)
Definition same_name (needle : list byte) (n : Z) (ls : list (list byte))
  : Prop :=
  n = Z.of_nat (length (enc_name ls))
  /\ map fold_case (take (Z.to_nat n) needle) = map fold_case (enc_name ls).

(* ------------------------------------------------------------------ *)
(** ** The cursor and the consumed-byte count *)

(** What holds of the cursor during a call that started at [offset]: while
    counting is live the cursor is [offset] plus the bytes counted and is
    not behind the end of the packet; once counting is frozen the bytes
    counted (two of them for the first pointer) lie inside the packet. *)
Definition pos_inv (offset len : Z) (s : dstate) : Prop :=
  0 <= st_pos s
  /\ (st_counting_wire s = true ->
      st_pos s = offset + st_wire_len s /\ st_pos s <= len)
  /\ (st_counting_wire s = false ->
      2 <= st_wire_len s /\ offset + st_wire_len s <= len).

(* ------------------------------------------------------------------ *)
(** ** Records on the wire *)

(** A 32-bit value as four bytes, most significant first. *)
Definition be32_bytes (v : Z) : list byte :=
  [byte_of (v / 16777216); byte_of (v / 65536); byte_of (v / 256);
   byte_of v].

(** What follows the name in an A record: type 1, class 1, the ttl, an
    rdata length of 4, and the four bytes of the address. *)
Definition a_record_tail (ttl : Z) (ip : list byte) : list byte :=
  be16_bytes DNS_TYPE_A ++ be16_bytes DNS_CLASS_IN ++ be32_bytes ttl
  ++ be16_bytes 4 ++ take 4 ip.

(* ------------------------------------------------------------------ *)
(** ** A response on the wire *)

(** A question: the name, the type and the class. *)
Definition question_bytes (ls : list (list byte)) (qt qc : Z) : list byte :=
  enc_name ls ++ be16_bytes qt ++ be16_bytes qc.

(** An answer whose name is a pointer to offset 12, where the question
    name of a message starts. *)
Definition answer_bytes (ty cl ttl : Z) (rdata : list byte) : list byte :=
  [xc0; x0c] ++ be16_bytes ty ++ be16_bytes cl ++ be32_bytes ttl
  ++ be16_bytes (Z.of_nat (length rdata)) ++ rdata.

(** A message of a header, one question and one answer to it. *)
Definition response_bytes (id flags : Z) (ls : list (list byte)) (qt qc : Z)
  (ty cl ttl : Z) (rdata : list byte) : list byte :=
  header_bytes id flags 1 1 0 0 ++ question_bytes ls qt qc
  ++ answer_bytes ty cl ttl rdata.

(* ------------------------------------------------------------------ *)
(** ** The dotted name of [print_question] (console/main.c) *)

(** The local variables of the conversion of a name to dotted notation:
    the index [di] into [dotted], the index [i] into the name, and the
    256 bytes of [dotted]. *)
Record dotted_state : Type := {
  d_di : Z;
  d_i : Z;
  d_dotted : list byte
}.

(** ['.'] *)
Definition char_dot : byte := x2e.

(** One test of the condition of the [while] loop and, when it holds, one
    pass through its body; [None] when the loop is left. *)
Definition dotted_body (name : list byte) (name_len : Z) (s : dotted_state)
  : run (option dotted_state) :=
  if negb (d_i s <? name_len) then Done None
  else
    let* b := load8 name (d_i s) in
    if u8 b =? 0 then Done None
    else
      let* l := load8 name (d_i s) in
      let label_len := u8 l in
      let* s1 :=
        (if d_di s >? 0 then
           let* d := store8 (d_dotted s) (d_di s) char_dot in
           Done (sz (d_di s + 1), d)
         else Done (d_di s, d_dotted s)) in
      let '(di, d) := s1 in
      let* d' := memcpy d di name (d_i s + 1) label_len in
      Done (Some {| d_di := sz (di + label_len);
                    d_i := sz (d_i s + (label_len + 1));
                    d_dotted := d' |}).

Fixpoint dotted_loop (fuel : nat) (name : list byte) (name_len : Z)
  (s : dotted_state) : run dotted_state :=
  match fuel with
  | O => OutOfFuel
  | S fuel' =>
      let* r := dotted_body name name_len s in
      match r with
      | Some s' => dotted_loop fuel' name name_len s'
      | None => Done s
      end
  end.

(** The conversion: the loop, then the terminating zero of the string.
    Every pass moves [i] forward, so the loop makes at most [name_len]
    passes. *)
Definition print_question_dotted (name : list byte) (name_len : Z)
  (dotted : list byte) : run (list byte) :=
  let* s := dotted_loop (S (Z.to_nat name_len)) name name_len
              {| d_di := 0; d_i := 0; d_dotted := dotted |} in
  store8 (d_dotted s) (d_di s) x00.

(** The labels of a name joined by dots. *)
Fixpoint dotted_of (ls : list (list byte)) : list byte :=
  match ls with
  | [] => []
  | [lab] => lab
  | lab :: ls' => lab ++ [char_dot] ++ dotted_of ls'
  end.

(** The text [pre], continued by the labels [ls] with a dot before each
    label that does not start the text. *)
Fixpoint dotted_app (pre : list byte) (ls : list (list byte)) : list byte :=
  match ls with
  | [] => pre
  | lab :: ls' =>
      dotted_app (match pre with
                  | [] => lab
                  | _ :: _ => pre ++ [char_dot] ++ lab
                  end) ls'
  end.

(* ------------------------------------------------------------------ *)
(** ** Further concrete inputs *)

(** The labels of [www.example.com], and the same with [WWW] in
    capitals. *)
Definition labels_sample : list (list byte) :=
  [label_www; label_example; label_com].
Definition labels_SAMPLE : list (list byte) :=
  [name_WWW; label_example; label_com].

(** The label [a], then a length byte of 64. *)
Definition bad_length_packet : list byte := [x01; x61; x40].

(** The label [a], then a label of five bytes of which one is there. *)
Definition cut_label_packet : list byte := [x01; x61; x05; x62].

(** Four labels of 63 bytes: 256 bytes of labels. *)
Definition overlong_name_packet : list byte :=
  label_of_a 63 ++ label_of_a 63 ++ label_of_a 63 ++ label_of_a 63.

(** The address in the answer of the sample packet. *)
Definition sample_ip : list byte := [x5d; xb8; xd8; x22].

(** An array of two names, [com] and [www.example.com]. *)
Definition sample_haystack : list (list byte) :=
  [enc_name [label_com]; enc_name labels_sample].

(** An array of two entries of 511 bytes: one that holds no terminator,
    and [com] followed by zero bytes. *)
Definition wide_haystack : list (list byte) :=
  [repeat x01 511; enc_name [label_com] ++ repeat x00 506].

(* ================================================================== *)
(** * Properties *)

(* ------------------------------------------------------------------ *)
(** ** Bytes and machine integers *)

Lemma u8_range (b : byte) : 0 <= u8 b < 256.
Proof.
  unfold u8. pose proof (Byte.to_N_bounded b). lia.
Qed.

Lemma byte_of_u8 (b : byte) : byte_of (u8 b) = b.
Proof.
  unfold byte_of. rewrite Z.mod_small by apply u8_range.
  unfold u8. rewrite N2Z.id, Byte.of_to_N. reflexivity.
Qed.

Lemma u8_byte_of (z : Z) : u8 (byte_of z) = z mod 256.
Proof.
  unfold byte_of, u8.
  assert (Hr : 0 <= z mod 256 < 256) by (apply Z.mod_pos_bound; lia).
  destruct (Byte.of_N (Z.to_N (z mod 256))) as [b|] eqn:E.
  - apply Byte.to_of_N in E. rewrite E. lia.
  - apply Byte.of_N_None_iff in E. lia.
Qed.

Lemma sz_small (x : Z) : 0 <= x < 18446744073709551616 -> sz x = x.
Proof. intros H. unfold sz. apply Z.mod_small. exact H. Qed.

Lemma u16_small (x : Z) : 0 <= x < 65536 -> u16 x = x.
Proof. intros H. unfold u16. apply Z.mod_small. exact H. Qed.

Lemma u32_small (x : Z) : 0 <= x < 4294967296 -> u32 x = x.
Proof. intros H. unfold u32. apply Z.mod_small. exact H. Qed.

Lemma sz_range (x : Z) : 0 <= sz x < 18446744073709551616.
Proof. unfold sz. apply Z.mod_pos_bound. lia. Qed.

(** [(hi << 8) | lo] is [hi * 256 + lo] when [lo] is a byte. *)
Lemma lor_shiftl_8 (hi lo : Z) :
  0 <= lo < 256 -> Z.lor (Z.shiftl hi 8) lo = hi * 256 + lo.
Proof.
  intros Hlo. rewrite Z.shiftl_mul_pow2 by lia.
  change (2 ^ 8) with 256. symmetry. apply Z.add_nocarry_lor.
  apply Z.bits_inj'. intros n Hn. rewrite Z.land_spec, Z.bits_0.
  destruct (Z.ltb_spec n 8) as [Hlt|Hge].
  - replace (hi * 256) with (hi * 2 ^ 8) by reflexivity.
    rewrite Z.mul_pow2_bits_low by lia. reflexivity.
  - rewrite andb_comm.
    replace (Z.testbit lo n) with false; [reflexivity|].
    symmetry. destruct (Z.eq_dec lo 0) as [->|Hnz]; [apply Z.bits_0|].
    apply Z.bits_above_log2; [lia|].
    apply Z.log2_lt_pow2; [lia|].
    apply Z.lt_le_trans with (2 ^ 8); [simpl; lia|].
    apply Z.pow_le_mono_r; lia.
Qed.

(** A byte has its two top bits set exactly when it is at least [0xC0]. *)
Lemma top_bits_set (b : byte) : (Z.land (u8 b) 0xC0 =? 0xC0) = (192 <=? u8 b).
Proof. destruct b; reflexivity. Qed.

Lemma low_six_bits (b : byte) :
  192 <= u8 b -> Z.land (u8 b) 0x3F = u8 b - 192.
Proof. destruct b; vm_compute; intros H; try reflexivity; exfalso; apply H; reflexivity. Qed.

(* ------------------------------------------------------------------ *)
(** ** Memory accesses *)

Lemma peek_lookup (p : list byte) (i : Z) :
  0 <= i -> peek p i = p !! Z.to_nat i.
Proof.
  intros Hi. unfold peek.
  destruct (Z.leb_spec 0 i) as [_|Hn]; [|lia].
  destruct (Z.ltb_spec i (Z.of_nat (length p))) as [Hlt|Hge]; cbn [andb];
    [reflexivity|].
  symmetry. apply lookup_ge_None. lia.
Qed.

Lemma peek_Some (p : list byte) (i : Z) (b : byte) :
  peek p i = Some b -> 0 <= i < Z.of_nat (length p).
Proof.
  unfold peek.
  destruct (Z.leb_spec 0 i) as [Hi|Hi]; [|discriminate].
  destruct (Z.ltb_spec i (Z.of_nat (length p))) as [Hlt|Hge]; cbn [andb];
    [|discriminate].
  intros _. lia.
Qed.

Lemma peek_in_range (p : list byte) (i : Z) :
  0 <= i < Z.of_nat (length p) -> exists b, peek p i = Some b.
Proof.
  intros Hr. rewrite peek_lookup by lia.
  destruct (lookup_lt_is_Some_2 p (Z.to_nat i)) as [b Hb]; [lia|eauto].
Qed.

Lemma load8_peek (p : list byte) (i : Z) (b : byte) :
  peek p i = Some b -> load8 p i = Done b.
Proof. intros H. unfold load8. rewrite H. reflexivity. Qed.

Lemma in_bounds_true (p : list byte) (i n : Z) :
  in_bounds p i n = true <-> 0 <= i /\ 0 <= n /\ i + n <= Z.of_nat (length p).
Proof. unfold in_bounds. rewrite !andb_true_iff, !Z.leb_le. tauto. Qed.

Lemma store8_length (p : list byte) (i : Z) (v : byte) (p' : list byte) :
  store8 p i v = Done p' -> length p' = length p.
Proof.
  unfold store8. destruct (in_bounds p i 1); [|discriminate].
  intros [= <-]. apply length_insert.
Qed.

Lemma memcpy_length (dst src : list byte) (di si n : Z) (d' : list byte) :
  memcpy dst di src si n = Done d' -> length d' = length dst.
Proof.
  unfold memcpy.
  destruct (in_bounds dst di n) eqn:Hd; [|discriminate].
  destruct (in_bounds src si n) eqn:Hs; [|discriminate].
  cbn [negb]. intros [= <-].
  apply in_bounds_true in Hd. apply in_bounds_true in Hs.
  rewrite !length_app, !length_take, !length_drop. lia.
Qed.

(** The memory accesses are single steps. *)
Lemma load8_fuel (p : list byte) (i : Z) : load8 p i <> OutOfFuel.
Proof. unfold load8. destruct (peek p i); discriminate. Qed.

Lemma store8_fuel (p : list byte) (i : Z) (v : byte) :
  store8 p i v <> OutOfFuel.
Proof. unfold store8. destruct (in_bounds p i 1); discriminate. Qed.

Lemma memcpy_fuel (dst src : list byte) (di si n : Z) :
  memcpy dst di src si n <> OutOfFuel.
Proof.
  unfold memcpy.
  destruct (in_bounds dst di n); [|discriminate].
  destruct (in_bounds src si n); discriminate.
Qed.

(** [memcpy], byte by byte. *)
Lemma memcpy_lookup (dst src : list byte) (di si n : Z) (d' : list byte)
  (i : nat) :
  memcpy dst di src si n = Done d' ->
  d' !! i = if (di <=? Z.of_nat i) && (Z.of_nat i <? di + n)
            then src !! (Z.to_nat si + (i - Z.to_nat di))%nat
            else dst !! i.
Proof.
  unfold memcpy.
  destruct (in_bounds dst di n) eqn:Hd; [|discriminate].
  destruct (in_bounds src si n) eqn:Hs; [|discriminate].
  cbn [negb]. intros [= <-].
  apply in_bounds_true in Hd. apply in_bounds_true in Hs.
  assert (Hlt : length (take (Z.to_nat di) dst) = Z.to_nat di)
    by (rewrite length_take; lia).
  assert (Hlm : length (take (Z.to_nat n) (drop (Z.to_nat si) src))
                = Z.to_nat n) by (rewrite length_take, length_drop; lia).
  destruct (Z.leb_spec di (Z.of_nat i)) as [H1|H1]; cbn [andb].
  - rewrite lookup_app_r by lia. rewrite Hlt.
    destruct (Z.ltb_spec (Z.of_nat i) (di + n)) as [H2|H2].
    + rewrite lookup_app_l by lia.
      rewrite lookup_take_lt by lia. rewrite lookup_drop. reflexivity.
    + rewrite lookup_app_r by lia. rewrite Hlm, lookup_drop.
      f_equal. lia.
  - rewrite lookup_app_l by lia. apply lookup_take_lt. lia.
Qed.

(* ------------------------------------------------------------------ *)
(** ** The decompression loop: invariant, progress and fuel *)

Lemma dinv_init (offset : Z) (out : list byte) :
  dinv (decompress_init offset out).
Proof. unfold dinv, DNS_MAX_NAME_LEN. simpl. lia. Qed.

Lemma budget_init (offset : Z) (out : list byte) :
  (budget (decompress_init offset out) < decompress_fuel)%nat.
Proof. unfold budget, decompress_fuel. simpl. lia. Qed.

(** Case analysis on an equation [loop_body packet len s = r], following
    the tests of the body in their order. *)
Ltac body_inv H :=
  unfold loop_body in H;
  repeat (cbv beta zeta in H;
          match type of H with
          | bind ?c _ = _ =>
              let E := fresh "E" in
              destruct c eqn:E; cbn [bind] in H;
              try (exfalso;
                   first [ exact (load8_fuel _ _ E)
                         | exact (store8_fuel _ _ _ E)
                         | exact (memcpy_fuel _ _ _ _ _ E) ])
          | (if ?b then _ else _) = _ =>
              let E := fresh "E" in destruct b eqn:E
          end);
  try discriminate H.

Ltac zify_tests :=
  repeat match goal with
  | H : (_ >? _) = true |- _ => rewrite Z.gtb_ltb in H; apply Z.ltb_lt in H
  | H : (_ >? _) = false |- _ => rewrite Z.gtb_ltb in H; apply Z.ltb_ge in H
  | H : (_ >=? _) = true |- _ => rewrite Z.geb_leb in H; apply Z.leb_le in H
  | H : (_ >=? _) = false |- _ => rewrite Z.geb_leb in H; apply Z.leb_gt in H
  | H : (_ <? _) = true |- _ => apply Z.ltb_lt in H
  | H : (_ <? _) = false |- _ => apply Z.ltb_ge in H
  | H : (_ <=? _) = true |- _ => apply Z.leb_le in H
  | H : (_ <=? _) = false |- _ => apply Z.leb_gt in H
  | H : (_ =? _) = true |- _ => apply Z.eqb_eq in H
  | H : (_ =? _) = false |- _ => apply Z.eqb_neq in H
  end.

(** The loop on a fixed packet. *)
Section Loop.

Variable packet : list byte.
Variable len : Z.

(** A pass that goes on to the next one keeps the invariant and uses up
    budget: either a pointer was followed or a label was copied. *)
Lemma loop_body_Continue (s s' : dstate) :
  dinv s -> loop_body packet len s = Done (Continue s') ->
  dinv s' /\ (budget s' < budget s)%nat.
Proof.
  intros [Ho Hp] H. unfold dinv, budget, DNS_MAX_NAME_LEN in *.
  body_inv H; injection H as <-; cbn [st_out_pos st_ptr_count];
    zify_tests.
  - lia.
  - match goal with
    | E : load8 _ _ = Done ?b |- _ => pose proof (u8_range b) as Hb;
                                      set (l := u8 b) in *
    end.
    assert (Hs1 : sz (st_out_pos s + 1) = st_out_pos s + 1)
      by (apply sz_small; lia).
    rewrite Hs1.
    assert (Hs2 : sz (st_out_pos s + 1 + l) = st_out_pos s + 1 + l)
      by (apply sz_small; lia).
    unfold DNS_MAX_NAME_LEN in *.
    match goal with
    | T : sz (st_out_pos s + 1 + l) <= _ |- _ => rewrite Hs2 in T
    end.
    rewrite Hs2. lia.
Qed.

(** With more fuel than budget the loop comes to an end. *)
Lemma decompress_loop_total :
  forall (fuel : nat) (s : dstate),
    dinv s -> (budget s < fuel)%nat ->
    decompress_loop fuel packet len s <> OutOfFuel.
Proof.
  induction fuel as [|fuel IH]; intros s Hinv Hb; [lia|].
  cbn [decompress_loop].
  destruct (st_pos s <? len); [|discriminate].
  destruct (loop_body packet len s) as [[s'|s'|err s']| |] eqn:E;
    cbn [bind]; try discriminate.
  - destruct (loop_body_Continue _ _ Hinv E) as [Hinv' Hlt].
    apply IH; [exact Hinv'|lia].
  - body_inv E.
Qed.

(** The result of the loop does not depend on the fuel, once there is
    enough of it. *)
Lemma decompress_loop_fuel :
  forall (n m : nat) (s : dstate),
    decompress_loop n packet len s <> OutOfFuel ->
    decompress_loop m packet len s <> OutOfFuel ->
    decompress_loop n packet len s = decompress_loop m packet len s.
Proof.
  induction n as [|n IH]; intros m s Hn Hm; [contradiction Hn; reflexivity|].
  destruct m as [|m]; [contradiction Hm; reflexivity|].
  cbn [decompress_loop] in *.
  destruct (st_pos s <? len); [|reflexivity].
  destruct (loop_body packet len s) as [[s'|s'|err s']| |];
    cbn [bind] in *; try reflexivity.
  apply IH; assumption.
Qed.

(** Whatever number of passes brings the loop to an end, the function
    returns what the loop returns then. *)
Lemma decompress_loop_at_fuel (offset : Z) (out : list byte) (n : nat)
  (r : run loop_exit) :
  decompress_loop n packet len (decompress_init offset out) = r ->
  r <> OutOfFuel ->
  decompress_loop decompress_fuel packet len (decompress_init offset out) = r.
Proof.
  intros <- Hr. symmetry. apply decompress_loop_fuel; [exact Hr|].
  apply decompress_loop_total; [apply dinv_init|apply budget_init].
Qed.

(** A followed pointer moves the cursor strictly backwards and counts as one
    of at most 127 hops. *)
Lemma pointer_hop_backwards (s s' : dstate) (b : byte) :
  load8 packet (st_pos s) = Done b -> 192 <= u8 b ->
  loop_body packet len s = Done (Continue s') ->
  st_pos s' < st_pos s /\ st_ptr_count s' = st_ptr_count s + 1
  /\ st_ptr_count s' <= 127.
Proof.
  intros Hb Hptr H. apply Z.leb_le in Hptr. rewrite <- top_bits_set in Hptr.
  unfold loop_body in H. rewrite Hb in H. cbn [bind] in H.
  cbv beta zeta in H. rewrite Hptr in H.
  body_inv H. injection H as <-. cbn [st_pos st_ptr_count].
  zify_tests. lia.
Qed.

(** A pointer in bounds whose target is not strictly before it is refused
    as long as the hop counter allows the hop. *)
Lemma pointer_not_backwards (s : dstate) (b b1 : byte) :
  load8 packet (st_pos s) = Done b -> 192 <= u8 b ->
  sz (st_pos s + 1) < len ->
  load8 packet (sz (st_pos s + 1)) = Done b1 ->
  st_ptr_count s < 127 ->
  st_pos s <= (u8 b - 192) * 256 + u8 b1 ->
  exists s', loop_body packet len s = Done (Return DNSASM_ERR_POINTER s')
             /\ st_out s' = st_out s.
Proof.
  intros Hb Hptr Hlen Hb1 Hcnt Htgt.
  pose proof (u8_range b) as Rb. pose proof (u8_range b1) as Rb1.
  assert (Hp : u16 (Z.lor (Z.shiftl (Z.land (u8 b) 0x3F) 8) (u8 b1))
               = (u8 b - 192) * 256 + u8 b1).
  { rewrite low_six_bits by exact Hptr. rewrite lor_shiftl_8 by exact Rb1.
    apply u16_small. lia. }
  apply Z.leb_le in Hptr. rewrite <- top_bits_set in Hptr.
  unfold loop_body. rewrite Hb. cbn [bind]. cbv beta zeta.
  rewrite Hptr.
  destruct (Z.geb_spec (sz (st_pos s + 1)) len) as [Hge|_]; [lia|].
  rewrite Hb1. cbn [bind]. rewrite Hp.
  destruct (Z.gtb_spec (st_ptr_count s + 1) 127) as [Hgt|_]; [lia|].
  destruct (Z.geb_spec ((u8 b - 192) * 256 + u8 b1) (st_pos s)) as [_|Hlt];
    [|lia].
  eexists. split; reflexivity.
Qed.

End Loop.

(* ------------------------------------------------------------------ *)
(** ** Termination *)

(** C1. [dnsasm_decompress_name] terminates on every packet, length and
    offset: it never runs out of passes through its loop, and more passes
    than [decompress_fuel] change nothing.  The loop is bounded because
    every pointer it follows moves the cursor strictly backwards and is
    counted as one of at most 127 hops, and a pointer whose target is not
    strictly before the cursor ends the call with [DNSASM_ERR_POINTER]. *)
Theorem decompress_name_terminates (packet : list byte) (len offset : Z)
  (out : list byte) (out_len : Z) :
  dnsasm_decompress_name packet len offset out out_len <> OutOfFuel
  /\ (forall k : nat,
        decompress_name_fuel (decompress_fuel + k) packet len offset out
          out_len
        = dnsasm_decompress_name packet len offset out out_len)
  /\ (forall (s s' : dstate) (b : byte),
        load8 packet (st_pos s) = Done b -> 192 <= u8 b ->
        loop_body packet len s = Done (Continue s') ->
        st_pos s' < st_pos s /\ st_ptr_count s' = st_ptr_count s + 1
        /\ st_ptr_count s' <= 127)
  /\ (forall (s : dstate) (b b1 : byte),
        load8 packet (st_pos s) = Done b -> 192 <= u8 b ->
        sz (st_pos s + 1) < len ->
        load8 packet (sz (st_pos s + 1)) = Done b1 ->
        st_ptr_count s < 127 ->
        st_pos s <= (u8 b - 192) * 256 + u8 b1 ->
        exists s', loop_body packet len s
                   = Done (Return DNSASM_ERR_POINTER s')).
Proof.
  assert (Htot : forall k : nat,
             decompress_loop (decompress_fuel + k) packet len
               (decompress_init offset out) <> OutOfFuel).
  { intros k. apply decompress_loop_total; [apply dinv_init|].
    pose proof (budget_init offset out). lia. }
  split; [|split; [|split]].
  - unfold dnsasm_decompress_name, decompress_name_fuel.
    specialize (Htot O). rewrite Nat.add_0_r in Htot.
    destruct (decompress_loop decompress_fuel packet len
                (decompress_init offset out)) as [[s|err s]| |];
      cbn [bind]; try discriminate. contradiction Htot; reflexivity.
  - intros k. unfold dnsasm_decompress_name, decompress_name_fuel.
    rewrite (decompress_loop_fuel packet len (decompress_fuel + k)
               decompress_fuel); [reflexivity|apply Htot|].
    specialize (Htot O). rewrite Nat.add_0_r in Htot. exact Htot.
  - intros s s' b. apply pointer_hop_backwards.
  - intros s b b1 H1 H2 H3 H4 H5 H6.
    destruct (pointer_not_backwards packet len s b b1 H1 H2 H3 H4 H5 H6)
      as [s' [Hs' _]].
    exists s'. exact Hs'.
Qed.

(* ------------------------------------------------------------------ *)
(** ** Bytes in a buffer *)

Lemma bytes_at_bound (p : list byte) (i : Z) (bs : list byte) :
  bytes_at p i bs -> bs <> [] ->
  0 <= i /\ i + Z.of_nat (length bs) <= Z.of_nat (length p).
Proof.
  intros [Hi Hb] Hne. split; [exact Hi|].
  assert (Hpos : (0 < length bs)%nat) by (destruct bs; [congruence|simpl; lia]).
  apply (f_equal length) in Hb. rewrite length_take, length_drop in Hb. lia.
Qed.

Lemma bytes_at_app (p : list byte) (i : Z) (xs ys : list byte) :
  bytes_at p i (xs ++ ys) <->
  bytes_at p i xs /\ bytes_at p (i + Z.of_nat (length xs)) ys.
Proof.
  unfold bytes_at. split.
  - intros [Hi Hb].
    assert (Hlen : (length (xs ++ ys) <= length (drop (Z.to_nat i) p))%nat).
    { apply (f_equal length) in Hb. rewrite length_take in Hb. lia. }
    rewrite length_app in Hb, Hlen.
    rewrite <- (take_drop (length xs) (drop (Z.to_nat i) p)) in Hb at 1.
    rewrite take_app_add' in Hb by (rewrite length_take; lia).
    apply app_inj_1 in Hb; [|rewrite length_take; lia].
    destruct Hb as [Hx Hy]. rewrite drop_drop in Hy.
    repeat split; [exact Hi|exact Hx|lia|].
    replace (Z.to_nat (i + Z.of_nat (length xs)))
      with (Z.to_nat i + length xs)%nat by lia.
    exact Hy.
  - intros [[Hi Hx] [_ Hy]]. split; [exact Hi|].
    replace (Z.to_nat (i + Z.of_nat (length xs)))
      with (Z.to_nat i + length xs)%nat in Hy by lia.
    assert (Hlx : (length xs <= length (drop (Z.to_nat i) p))%nat).
    { apply (f_equal length) in Hx. rewrite length_take in Hx. lia. }
    rewrite length_app.
    rewrite <- (take_drop (length xs) (drop (Z.to_nat i) p)) at 1.
    rewrite take_app_add' by (rewrite length_take; lia).
    rewrite drop_drop. rewrite Hx, Hy. reflexivity.
Qed.

Lemma bytes_at_peek (p : list byte) (i : Z) (b : byte) (bs : list byte) :
  bytes_at p i (b :: bs) -> peek p i = Some b.
Proof.
  intros [Hi Hb]. rewrite peek_lookup by lia.
  apply (f_equal (fun l => l !! O)) in Hb.
  cbn [length] in Hb. rewrite lookup_take_lt in Hb by lia.
  rewrite lookup_drop, Nat.add_0_r in Hb. exact Hb.
Qed.

Lemma bytes_at_cons (p : list byte) (i : Z) (b : byte) (bs : list byte) :
  bytes_at p i (b :: bs) -> peek p i = Some b /\ bytes_at p (i + 1) bs.
Proof.
  intros H. split; [eapply bytes_at_peek; exact H|].
  change (b :: bs) with ([b] ++ bs) in H.
  apply bytes_at_app in H. destruct H as [_ H]. exact H.
Qed.

(* ------------------------------------------------------------------ *)
(** ** Writing a run of bytes *)

Lemma overwrite_nil (o : list byte) (k : Z) : overwrite o k [] = o.
Proof.
  unfold overwrite. cbn [length app]. rewrite Nat.add_0_r.
  apply take_drop.
Qed.

Lemma length_overwrite (o : list byte) (k : Z) (bs : list byte) :
  0 <= k -> k + Z.of_nat (length bs) <= Z.of_nat (length o) ->
  length (overwrite o k bs) = length o.
Proof.
  intros Hk Hb. unfold overwrite.
  rewrite !length_app, length_take, length_drop. lia.
Qed.

Lemma overwrite_app (o : list byte) (k : Z) (xs ys : list byte) :
  0 <= k -> k + Z.of_nat (length xs) <= Z.of_nat (length o) ->
  overwrite (overwrite o k xs) (k + Z.of_nat (length xs)) ys
  = overwrite o k (xs ++ ys).
Proof.
  intros Hk Hb. unfold overwrite.
  assert (Hl : length (take (Z.to_nat k) o ++ xs)
               = Z.to_nat (k + Z.of_nat (length xs))).
  { rewrite length_app, length_take. lia. }
  rewrite (app_assoc (take (Z.to_nat k) o) xs).
  rewrite take_app_length' by (symmetry; exact Hl).
  replace (Z.to_nat (k + Z.of_nat (length xs)) + length ys)%nat
    with (length (take (Z.to_nat k) o ++ xs) + length ys)%nat by lia.
  rewrite drop_app_add', drop_drop by reflexivity.
  rewrite length_app, <- !app_assoc.
  do 4 f_equal. lia.
Qed.

(** Below the index written to, a buffer keeps its bytes, and so it does
    from the end of the run on. *)
Lemma overwrite_lookup_outside (o : list byte) (k : Z) (bs : list byte)
  (i : nat) :
  0 <= k -> k + Z.of_nat (length bs) <= Z.of_nat (length o) ->
  (Z.of_nat i < k \/ k + Z.of_nat (length bs) <= Z.of_nat i) ->
  overwrite o k bs !! i = o !! i.
Proof.
  intros Hk Hb Hi. unfold overwrite.
  assert (Hl : length (take (Z.to_nat k) o) = Z.to_nat k)
    by (rewrite length_take; lia).
  destruct Hi as [Hi|Hi].
  - rewrite lookup_app_l by lia. apply lookup_take_lt. lia.
  - rewrite lookup_app_r by lia. rewrite lookup_app_r by lia.
    rewrite lookup_drop. f_equal. lia.
Qed.

Lemma take_overwrite (o : list byte) (k : Z) (bs : list byte) :
  0 <= k -> k <= Z.of_nat (length o) ->
  take (Z.to_nat k + length bs) (overwrite o k bs)
  = take (Z.to_nat k) o ++ bs.
Proof.
  intros Hk Hb. unfold overwrite. rewrite app_assoc.
  apply take_app_length'. rewrite length_app, length_take. lia.
Qed.

(* ------------------------------------------------------------------ *)
(** ** Single passes through the decompression loop *)

Lemma store8_ok (p : list byte) (i : Z) (v : byte) :
  0 <= i < Z.of_nat (length p) ->
  store8 p i v = Done (overwrite p i [v]).
Proof.
  intros Hi. unfold store8.
  replace (in_bounds p i 1) with true
    by (symmetry; apply in_bounds_true; lia).
  unfold overwrite. cbn [length app].
  rewrite insert_take_drop by lia. rewrite Nat.add_1_r. reflexivity.
Qed.

Lemma memcpy_ok (dst src : list byte) (di si : Z) (bs : list byte) :
  0 <= di -> di + Z.of_nat (length bs) <= Z.of_nat (length dst) ->
  bytes_at src si bs -> bs <> [] ->
  memcpy dst di src si (Z.of_nat (length bs)) = Done (overwrite dst di bs).
Proof.
  intros Hd1 Hd2 Hsrc Hne.
  destruct (bytes_at_bound _ _ _ Hsrc Hne) as [Hs1 Hs2].
  destruct Hsrc as [_ Hsrc]. unfold memcpy.
  replace (in_bounds dst di (Z.of_nat (length bs))) with true
    by (symmetry; apply in_bounds_true; lia).
  replace (in_bounds src si (Z.of_nat (length bs))) with true
    by (symmetry; apply in_bounds_true; lia).
  cbn [negb]. unfold overwrite.
  rewrite Nat2Z.id, Hsrc. do 4 f_equal. lia.
Qed.

Lemma u8_label_length (lab : list byte) :
  valid_label lab -> u8 (byte_of (Z.of_nat (length lab))) = Z.of_nat (length lab).
Proof.
  intros Hv. unfold valid_label in Hv. rewrite u8_byte_of.
  apply Z.mod_small. lia.
Qed.

Lemma wire_path_c_bound (packet : list byte) (len p q : Z) (hops : nat)
  (bs : list byte) (c : Z) :
  wire_path packet len p q hops bs c -> 0 <= c <= Z.of_nat (length bs) + 2.
Proof.
  induction 1 as [p|p q lab hops bs c Hv Hb Hl Hw IH|p t q hops bs c Ht Hlt Hw IH].
  - simpl. lia.
  - rewrite length_app. unfold enc_label. cbn [length]. lia.
  - lia.
Qed.

(** A label is copied. *)
Lemma step_label (packet : list byte) (len : Z) (s : dstate)
  (lab : list byte) :
  valid_label lab ->
  bytes_at packet (st_pos s) (enc_label lab) ->
  st_pos s + 1 + Z.of_nat (length lab) <= len ->
  len < 18446744073709551616 ->
  0 <= st_out_pos s ->
  st_out_pos s + 1 + Z.of_nat (length lab) <= DNS_MAX_NAME_LEN ->
  st_out_pos s + 1 + Z.of_nat (length lab) <= Z.of_nat (length (st_out s)) ->
  0 <= st_wire_len s ->
  (st_counting_wire s = true ->
   st_wire_len s + 1 + Z.of_nat (length lab) < 18446744073709551616) ->
  loop_body packet len s
  = Done (Continue (after_path s (st_pos s + 1 + Z.of_nat (length lab)) 0
                      (enc_label lab) (1 + Z.of_nat (length lab)))).
Proof.
  intros Hv Hb Hlen Hmax Hk Hcap Hout Hw Hwc.
  pose proof (u8_label_length lab Hv) as Hl.
  unfold valid_label in Hv. unfold DNS_MAX_NAME_LEN in Hcap.
  set (l := Z.of_nat (length lab)) in *.
  unfold enc_label in Hb. fold l in Hb.
  destruct (bytes_at_cons _ _ _ _ Hb) as [Hpk Hlab].
  destruct Hb as [Hp0 _].
  unfold loop_body. rewrite (load8_peek _ _ _ Hpk). cbn [bind].
  cbv beta zeta. rewrite top_bits_set, Hl.
  destruct (Z.leb_spec 192 l) as [Hbad|_]; [lia|].
  destruct (Z.eqb_spec l 0) as [Hbad|_]; [lia|].
  destruct (Z.gtb_spec l 63) as [Hbad|_]; [lia|].
  rewrite (sz_small (st_pos s + 1 + l)) by lia.
  destruct (Z.gtb_spec (st_pos s + 1 + l) len) as [Hbad|_]; [lia|].
  rewrite (sz_small (st_out_pos s + 1 + l)) by lia.
  unfold DNS_MAX_NAME_LEN.
  destruct (Z.gtb_spec (st_out_pos s + 1 + l) 255) as [Hbad|_]; [lia|].
  rewrite store8_ok by lia. cbn [bind].
  rewrite (sz_small (st_out_pos s + 1)) by lia.
  assert (Hne : lab <> []) by (destruct lab; [simpl in Hv; lia|discriminate]).
  rewrite (sz_small (st_out_pos s + 1 + l)) by lia.
  rewrite (sz_small (st_pos s + (1 + l))) by lia.
  assert (Hwl : (if st_counting_wire s then sz (st_wire_len s + (1 + l))
                 else st_wire_len s)
                = (if st_counting_wire s then st_wire_len s + (1 + l)
                   else st_wire_len s)).
  { destruct (st_counting_wire s) eqn:Hc; [|reflexivity].
    specialize (Hwc eq_refl). apply sz_small. lia. }
  rewrite Hwl. clear Hwl. unfold l.
  rewrite memcpy_ok;
    [|lia|rewrite length_overwrite; cbn [length]; lia|exact Hlab|exact Hne].
  cbn [bind].
  replace (st_out_pos s + 1)
    with (st_out_pos s
          + Z.of_nat (length [byte_of (Z.of_nat (length lab))]))
    by (cbn [length]; lia).
  rewrite overwrite_app by (cbn [length]; lia).
  unfold after_path, enc_label. cbn [length app].
  do 2 f_equal. f_equal; lia.
Qed.

Lemma pointer_target_inv (packet : list byte) (len i t : Z) :
  pointer_target packet len i = Some t ->
  exists b0 b1 : byte,
    peek packet i = Some b0 /\ peek packet (i + 1) = Some b1
    /\ 192 <= u8 b0 /\ i + 1 < len /\ t = (u8 b0 - 192) * 256 + u8 b1.
Proof.
  unfold pointer_target.
  destruct (peek packet i) as [b0|]; [|discriminate].
  destruct (peek packet (i + 1)) as [b1|]; [|discriminate].
  destruct (Z.leb_spec 192 (u8 b0)) as [H0|_]; [|discriminate].
  destruct (Z.ltb_spec (i + 1) len) as [H1|_]; [|discriminate].
  cbn [andb]. intros [= <-]. exists b0, b1. repeat split; assumption.
Qed.

(** The 14-bit target the code reads is the one the wire format defines. *)
Lemma pointer_value (b0 b1 : byte) :
  192 <= u8 b0 ->
  u16 (Z.lor (Z.shiftl (Z.land (u8 b0) 0x3F) 8) (u8 b1))
  = (u8 b0 - 192) * 256 + u8 b1.
Proof.
  intros H. pose proof (u8_range b0). pose proof (u8_range b1).
  rewrite low_six_bits by exact H. rewrite lor_shiftl_8 by assumption.
  apply u16_small. lia.
Qed.

(** What a pass does at a pointer: the first three tests of the branch. *)
Lemma step_at_pointer (packet : list byte) (len : Z) (s : dstate) (t : Z) :
  pointer_target packet len (st_pos s) = Some t ->
  len < 18446744073709551616 ->
  loop_body packet len s
  = let wire_len := if st_counting_wire s then sz (st_wire_len s + 2)
                    else st_wire_len s in
    let s1 := {| st_out_pos := st_out_pos s; st_wire_len := wire_len;
                 st_counting_wire := false;
                 st_ptr_count := st_ptr_count s + 1;
                 st_pos := st_pos s; st_out := st_out s |} in
    if st_ptr_count s + 1 >? 127 then Done (Return DNSASM_ERR_LOOP s1)
    else if t >=? st_pos s then Done (Return DNSASM_ERR_POINTER s1)
    else Done (Continue
                 {| st_out_pos := st_out_pos s; st_wire_len := wire_len;
                    st_counting_wire := false;
                    st_ptr_count := st_ptr_count s + 1;
                    st_pos := t; st_out := st_out s |}).
Proof.
  intros Ht Hmax.
  destruct (pointer_target_inv _ _ _ _ Ht)
    as (b0 & b1 & Hb0 & Hb1 & Htop & Hin & ->).
  pose proof (peek_Some _ _ _ Hb0) as Hp.
  unfold loop_body. rewrite (load8_peek _ _ _ Hb0). cbn [bind].
  cbv beta zeta. rewrite top_bits_set.
  destruct (Z.leb_spec 192 (u8 b0)) as [_|Hbad]; [|lia].
  rewrite (sz_small (st_pos s + 1)) by lia.
  destruct (Z.geb_spec (st_pos s + 1) len) as [Hbad|_]; [lia|].
  rewrite (load8_peek _ _ _ Hb1). cbn [bind].
  rewrite pointer_value by exact Htop. reflexivity.
Qed.

(** A backward pointer is followed. *)
Lemma step_pointer (packet : list byte) (len : Z) (s : dstate) (t : Z) :
  pointer_target packet len (st_pos s) = Some t ->
  t < st_pos s ->
  len < 18446744073709551616 ->
  st_ptr_count s < 127 ->
  0 <= st_wire_len s ->
  (st_counting_wire s = true -> st_wire_len s + 2 < 18446744073709551616) ->
  loop_body packet len s
  = Done (Continue
            {| st_out_pos := st_out_pos s;
               st_wire_len := if st_counting_wire s then st_wire_len s + 2
                              else st_wire_len s;
               st_counting_wire := false;
               st_ptr_count := st_ptr_count s + 1;
               st_pos := t; st_out := st_out s |}).
Proof.
  intros Ht Hlt Hmax Hc Hw Hwc.
  rewrite (step_at_pointer _ _ _ _ Ht Hmax). cbv zeta.
  destruct (Z.gtb_spec (st_ptr_count s + 1) 127) as [Hbad|_]; [lia|].
  destruct (Z.geb_spec t (st_pos s)) as [Hbad|_]; [lia|].
  destruct (st_counting_wire s) eqn:Hcw; [|reflexivity].
  rewrite sz_small by (specialize (Hwc eq_refl); lia). reflexivity.
Qed.

(** The terminator ends the name. *)
Lemma step_terminator (packet : list byte) (len : Z) (s : dstate) :
  peek packet (st_pos s) = Some x00 ->
  0 <= st_out_pos s < Z.of_nat (length (st_out s)) ->
  st_out_pos s <= DNS_MAX_NAME_LEN ->
  0 <= st_wire_len s ->
  (st_counting_wire s = true -> st_wire_len s + 1 < 18446744073709551616) ->
  loop_body packet len s
  = Done (Break
            {| st_out_pos := st_out_pos s + 1;
               st_wire_len := if st_counting_wire s then st_wire_len s + 1
                              else st_wire_len s;
               st_counting_wire := st_counting_wire s;
               st_ptr_count := st_ptr_count s;
               st_pos := st_pos s;
               st_out := overwrite (st_out s) (st_out_pos s) [x00] |}).
Proof.
  intros Hpk Hk Hcap Hw Hwc. unfold DNS_MAX_NAME_LEN in Hcap.
  unfold loop_body. rewrite (load8_peek _ _ _ Hpk). cbn [bind].
  cbv beta zeta. change (u8 x00) with 0.
  change (Z.land 0 192 =? 192) with false. change (0 =? 0) with true.
  cbv iota. rewrite store8_ok by lia. cbn [bind].
  rewrite (sz_small (st_out_pos s + 1)) by lia.
  destruct (st_counting_wire s) eqn:Hcw; [|reflexivity].
  rewrite sz_small by (specialize (Hwc eq_refl); lia). reflexivity.
Qed.

(* ------------------------------------------------------------------ *)
(** ** The loop along a path *)

Lemma after_path_here (s : dstate) :
  0 <= st_out_pos s -> after_path s (st_pos s) 0 [] 0 = s.
Proof.
  intros Hk. destruct s as [k w cw pc p o]. unfold after_path.
  cbn [st_out_pos st_wire_len st_counting_wire st_ptr_count st_pos st_out
       length].
  rewrite overwrite_nil. f_equal; try lia. destruct cw; lia.
Qed.

(** Along a path the loop makes one pass for each label and each pointer
    and arrives at the end of the path with the labels copied. *)
Lemma path_run (packet : list byte) (len : Z) (p q : Z) (hops : nat)
  (bs : list byte) (c : Z) :
  wire_path packet len p q hops bs c ->
  len < 18446744073709551616 ->
  forall s : dstate,
    st_pos s = p ->
    0 <= st_out_pos s ->
    st_out_pos s + Z.of_nat (length bs) <= DNS_MAX_NAME_LEN ->
    DNS_MAX_NAME_LEN < Z.of_nat (length (st_out s)) ->
    0 <= st_ptr_count s ->
    st_ptr_count s + Z.of_nat hops <= 127 ->
    0 <= st_wire_len s ->
    (st_counting_wire s = true ->
     st_wire_len s + c + 2 < 18446744073709551616) ->
    exists n : nat, forall fuel : nat,
      decompress_loop (n + fuel) packet len s
      = decompress_loop fuel packet len (after_path s q hops bs c).
Proof.
  intros Hpath Hmax.
  induction Hpath
    as [p|p q lab hops bs c Hv Hb Hl Hw IH|p t q hops bs c Ht Hlt Hw IH];
    intros s Hpos Hk Hcap Hout Hpc Hhops Hwl Hwc; unfold DNS_MAX_NAME_LEN in *.
  - exists O. intros fuel. subst p. rewrite after_path_here by exact Hk.
    reflexivity.
  - pose proof (wire_path_c_bound _ _ _ _ _ _ _ Hw) as Hc.
    rewrite length_app in Hcap. unfold enc_label in Hcap at 1.
    cbn [length] in Hcap. subst p.
    set (s1 := after_path s (st_pos s + 1 + Z.of_nat (length lab)) 0
                 (enc_label lab) (1 + Z.of_nat (length lab))).
    assert (Hstep : loop_body packet len s = Done (Continue s1)).
    { apply step_label; unfold DNS_MAX_NAME_LEN; try assumption; try lia.
      intros Hcw. specialize (Hwc Hcw). lia. }
    destruct (IH s1) as [n Hn].
    + reflexivity.
    + unfold s1. cbn [after_path st_out_pos]. lia.
    + unfold s1. cbn [after_path st_out_pos]. unfold enc_label.
      cbn [length]. lia.
    + unfold s1. cbn [after_path st_out]. rewrite length_overwrite; try lia.
      unfold enc_label. cbn [length]. lia.
    + unfold s1. cbn [after_path st_ptr_count]. lia.
    + unfold s1. cbn [after_path st_ptr_count]. lia.
    + unfold s1. cbn [after_path st_wire_len].
      destruct (st_counting_wire s); lia.
    + unfold s1. cbn [after_path st_wire_len st_counting_wire].
      intros Hcw. rewrite Hcw. specialize (Hwc Hcw). lia.
    + exists (S n). intros fuel. cbn [Nat.add decompress_loop].
      destruct (Z.ltb_spec (st_pos s) len) as [_|Hbad];
        [|unfold valid_label in Hv; lia].
      rewrite Hstep. cbn [bind]. rewrite Hn. f_equal.
      unfold s1, after_path.
      cbn [st_out_pos st_wire_len st_counting_wire st_ptr_count st_pos
           st_out].
      rewrite overwrite_app
        by (try lia; unfold enc_label; cbn [length]; lia).
      rewrite length_app. f_equal; try lia.
      destruct (st_counting_wire s); lia.
  - subst p.
    set (s1 := {| st_out_pos := st_out_pos s;
                  st_wire_len := if st_counting_wire s then st_wire_len s + 2
                                 else st_wire_len s;
                  st_counting_wire := false;
                  st_ptr_count := st_ptr_count s + 1;
                  st_pos := t; st_out := st_out s |}).
    assert (Hstep : loop_body packet len s = Done (Continue s1)).
    { apply step_pointer; try assumption; try lia.
      intros Hcw. specialize (Hwc Hcw). lia. }
    destruct (pointer_target_inv _ _ _ _ Ht) as (b0 & b1 & _ & _ & _ & Hin & _).
    destruct (IH s1) as [n Hn]; unfold s1;
      cbn [st_out_pos st_wire_len st_counting_wire st_ptr_count st_pos
           st_out]; try assumption; try reflexivity; try lia.
    + destruct (st_counting_wire s); lia.
    + exists (S n). intros fuel. cbn [Nat.add decompress_loop].
      destruct (Z.ltb_spec (st_pos s) len) as [_|Hbad]; [|lia].
      rewrite Hstep. cbn [bind]. rewrite Hn. f_equal.
      unfold s1, after_path.
      cbn [st_out_pos st_wire_len st_counting_wire st_ptr_count st_pos
           st_out].
      f_equal; try lia. destruct hops; reflexivity.
Qed.

(** From the start of the call along a path: whatever one more pass then
    ends the loop with is what the loop of the function ends with. *)
Lemma decompress_after_path (packet : list byte) (len offset : Z)
  (out : list byte) (q : Z) (hops : nat) (bs : list byte) (c : Z)
  (e : loop_exit) :
  wire_path packet len offset q hops bs c ->
  len < 18446744073709551616 ->
  Z.of_nat (length bs) <= DNS_MAX_NAME_LEN ->
  DNS_MAX_NAME_LEN < Z.of_nat (length out) ->
  (hops <= 127)%nat ->
  decompress_loop 1 packet len
    (after_path (decompress_init offset out) q hops bs c) = Done e ->
  decompress_loop decompress_fuel packet len (decompress_init offset out)
  = Done e.
Proof.
  intros Hpath Hmax Hbs Hout Hhops Hlast.
  pose proof (wire_path_c_bound _ _ _ _ _ _ _ Hpath) as Hc.
  unfold DNS_MAX_NAME_LEN in *.
  destruct (path_run _ _ _ _ _ _ _ Hpath Hmax (decompress_init offset out))
    as [n Hn]; unfold DNS_MAX_NAME_LEN;
    cbn [decompress_init st_pos st_out_pos st_out st_ptr_count st_wire_len
         st_counting_wire]; try reflexivity; try lia.
  apply (decompress_loop_at_fuel _ _ _ _ (n + 1)); [|discriminate].
  rewrite Hn. exact Hlast.
Qed.

(** A path that ends at the terminator is a name: the call succeeds. *)
Lemma decompress_path_ok (packet : list byte) (len offset : Z)
  (out : list byte) (out_len : Z) (q : Z) (hops : nat) (bs : list byte)
  (c : Z) :
  wire_path packet len offset q hops bs c ->
  terminator_at packet len q ->
  len < 18446744073709551616 ->
  Z.of_nat (length bs) <= DNS_MAX_NAME_LEN ->
  DNS_MAX_NAME_LEN < Z.of_nat (length out) ->
  (hops <= 127)%nat ->
  dnsasm_decompress_name packet len offset out out_len
  = Done ({| res_error := DNSASM_OK;
             res_offset := match hops with O => c + 1 | S _ => c end |},
          overwrite out 0 (bs ++ [x00]),
          Z.of_nat (length bs) + 1).
Proof.
  intros Hpath [Hterm Hq] Hmax Hbs Hout Hhops.
  pose proof (wire_path_c_bound _ _ _ _ _ _ _ Hpath) as Hc.
  set (s := after_path (decompress_init offset out) q hops bs c).
  assert (Hlast : decompress_loop 1 packet len s
                  = Done (Finished
                      {| st_out_pos := st_out_pos s + 1;
                         st_wire_len := if st_counting_wire s
                                        then st_wire_len s + 1
                                        else st_wire_len s;
                         st_counting_wire := st_counting_wire s;
                         st_ptr_count := st_ptr_count s;
                         st_pos := st_pos s;
                         st_out := overwrite (st_out s) (st_out_pos s)
                                     [x00] |})).
  { cbn [decompress_loop].
    replace (st_pos s <? len) with true
      by (symmetry; apply Z.ltb_lt; exact Hq).
    rewrite step_terminator; [reflexivity|..]; unfold DNS_MAX_NAME_LEN in *;
      unfold s;
      cbn [after_path decompress_init st_pos st_out_pos st_out st_ptr_count
           st_wire_len st_counting_wire];
      try assumption; try lia.
    rewrite length_overwrite; lia. }
  unfold dnsasm_decompress_name, decompress_name_fuel.
  rewrite (decompress_after_path _ _ _ _ _ _ _ _ _ Hpath Hmax Hbs Hout Hhops
             Hlast).
  cbn [bind st_wire_len st_out st_out_pos]. unfold s.
  cbn [after_path decompress_init st_pos st_out_pos st_out st_ptr_count
       st_wire_len st_counting_wire].
  unfold DNS_MAX_NAME_LEN in *.
  rewrite Z.add_0_l. rewrite overwrite_app by lia.
  rewrite u16_small by lia.
  destruct hops; rewrite u32_small by lia; reflexivity.
Qed.

(** A path that ends at a pointer the loop does not follow: the call fails
    with the error [err] that [refuses] gives for that pointer. *)
Lemma decompress_path_refused (packet : list byte) (len offset : Z)
  (out : list byte) (out_len : Z) (q : Z) (hops : nat) (bs : list byte)
  (c t err : Z) :
  wire_path packet len offset q hops bs c ->
  pointer_target packet len q = Some t ->
  len < 18446744073709551616 ->
  Z.of_nat (length bs) <= DNS_MAX_NAME_LEN ->
  DNS_MAX_NAME_LEN < Z.of_nat (length out) ->
  (hops <= 127)%nat ->
  (hops = 127%nat /\ err = DNSASM_ERR_LOOP
   \/ (hops < 127)%nat /\ q <= t /\ err = DNSASM_ERR_POINTER) ->
  dnsasm_decompress_name packet len offset out out_len
  = Done ({| res_error := err; res_offset := 0 |},
          overwrite out 0 bs, out_len).
Proof.
  intros Hpath Ht Hmax Hbs Hout Hhops Hcase.
  set (s := after_path (decompress_init offset out) q hops bs c).
  destruct (pointer_target_inv _ _ _ _ Ht) as (b0 & b1 & Hb0 & _ & _ & Hin & _).
  pose proof (peek_Some _ _ _ Hb0) as Hq.
  assert (Hlast : exists s', decompress_loop 1 packet len s
                             = Done (Failed err s')
                             /\ st_out s' = overwrite out 0 bs).
  { cbn [decompress_loop].
    replace (st_pos s <? len) with true
      by (symmetry; apply Z.ltb_lt; unfold s; cbn [after_path st_pos]; lia).
    rewrite (step_at_pointer packet len s t) by assumption. cbv zeta.
    assert (Hcnt : st_ptr_count s = Z.of_nat hops) by reflexivity.
    assert (Hpos : st_pos s = q) by reflexivity.
    rewrite Hcnt, Hpos.
    destruct Hcase as [[-> ->]|(Hlt & Hge & ->)].
    - change (Z.of_nat 127 + 1 >? 127) with true. cbv iota. cbn [bind].
      eexists. split; reflexivity.
    - destruct (Z.gtb_spec (Z.of_nat hops + 1) 127) as [Hbad|_]; [lia|].
      destruct (Z.geb_spec t q) as [_|Hbad]; [|lia].
      cbn [bind]. eexists. split; reflexivity. }
  destruct Hlast as (s' & Hlast & Hs').
  unfold dnsasm_decompress_name, decompress_name_fuel.
  rewrite (decompress_after_path _ _ _ _ _ _ _ _ _ Hpath Hmax Hbs Hout Hhops
             Hlast).
  cbn [bind]. rewrite Hs'. reflexivity.
Qed.

(** A run of labels in the packet is the start of a path. *)
Lemma labels_path (packet : list byte) (len : Z) (ls : list (list byte)) :
  forall (p q : Z) (hops : nat) (bs : list byte) (c : Z),
    Forall valid_label ls ->
    bytes_at packet p (enc_labels ls) ->
    p + Z.of_nat (length (enc_labels ls)) <= len ->
    wire_path packet len (p + Z.of_nat (length (enc_labels ls))) q hops bs c ->
    wire_path packet len p q hops (enc_labels ls ++ bs)
      (Z.of_nat (length (enc_labels ls)) + c).
Proof.
  induction ls as [|lab ls IH]; intros p q hops bs c Hv Hb Hlen Hw.
  - cbn [enc_labels map concat length app] in *.
    rewrite Z.add_0_r in Hw. exact Hw.
  - change (enc_labels (lab :: ls)) with (enc_label lab ++ enc_labels ls)
      in *.
    inversion Hv as [|? ? Hlab Hrest]; subst.
    apply bytes_at_app in Hb. destruct Hb as [Hb1 Hb2].
    rewrite length_app in *. unfold enc_label in Hb2 at 1, Hlen at 1, Hw at 1.
    cbn [length] in Hb2, Hlen, Hw.
    rewrite <- app_assoc.
    replace (Z.of_nat (length (enc_label lab) + length (enc_labels ls)) + c)
      with (1 + Z.of_nat (length lab)
            + (Z.of_nat (length (enc_labels ls)) + c))
      by (unfold enc_label; cbn [length]; lia).
    apply path_label; [exact Hlab|exact Hb1|lia|].
    apply IH; [exact Hrest| | |].
    + replace (p + 1 + Z.of_nat (length lab))
        with (p + Z.of_nat (S (length lab))) by lia. exact Hb2.
    + lia.
    + replace (p + 1 + Z.of_nat (length lab)
               + Z.of_nat (length (enc_labels ls)))
        with (p + Z.of_nat (S (length lab) + length (enc_labels ls))) by lia.
      exact Hw.
Qed.

(* ------------------------------------------------------------------ *)
(** ** Names with a compression pointer *)

(** C4. A name made of labels [ls] followed by one compression pointer to
    an earlier name made of labels [ls2] and the terminator decompresses to
    the labels [ls], the labels [ls2] and the terminator; the bytes consumed
    are those of [ls] and the two bytes of the pointer, and none of the
    bytes at the target of the pointer. *)
Theorem decompress_labels_then_pointer (packet : list byte) (len offset : Z)
  (out : list byte) (out_len : Z) (ls ls2 : list (list byte))
  (b0 b1 : byte) :
  let ptr_pos := offset + Z.of_nat (length (enc_labels ls)) in
  let target := (u8 b0 - 192) * 256 + u8 b1 in
  len < 18446744073709551616 ->
  DNS_MAX_NAME_LEN + 1 <= Z.of_nat (length out) ->
  Forall valid_label ls ->
  Forall valid_label ls2 ->
  bytes_at packet offset (enc_labels ls ++ [b0; b1]) ->
  192 <= u8 b0 ->
  ptr_pos + 2 <= len ->
  target < ptr_pos ->
  bytes_at packet target (enc_labels ls2 ++ [x00]) ->
  target + Z.of_nat (length (enc_labels ls2)) + 1 <= len ->
  Z.of_nat (length (enc_labels ls ++ enc_labels ls2)) <= DNS_MAX_NAME_LEN ->
  dnsasm_decompress_name packet len offset out out_len
  = Done ({| res_error := DNSASM_OK;
             res_offset := Z.of_nat (length (enc_labels ls)) + 2 |},
          overwrite out 0 (enc_labels ls ++ enc_labels ls2 ++ [x00]),
          Z.of_nat (length (enc_labels ls ++ enc_labels ls2 ++ [x00]))).
Proof.
  intros ptr_pos target Hmax Hout Hv Hv2 Hb Htop Hplen Hback Hb2 Hlen2 Hfit.
  apply bytes_at_app in Hb. destruct Hb as [Hls Hptr]. fold ptr_pos in Hptr.
  apply bytes_at_cons in Hptr. destruct Hptr as [Hp0 Hptr].
  apply bytes_at_cons in Hptr. destruct Hptr as [Hp1 _].
  apply bytes_at_app in Hb2. destruct Hb2 as [Hls2 Hterm].
  apply bytes_at_cons in Hterm. destruct Hterm as [Hterm _].
  set (q := target + Z.of_nat (length (enc_labels ls2))) in *.
  assert (Htgt : pointer_target packet len ptr_pos = Some target).
  { unfold pointer_target. rewrite Hp0, Hp1.
    destruct (Z.leb_spec 192 (u8 b0)) as [_|Hbad]; [|lia].
    destruct (Z.ltb_spec (ptr_pos + 1) len) as [_|Hbad]; [|lia].
    reflexivity. }
  assert (Hpath : wire_path packet len offset q 1
                    (enc_labels ls ++ enc_labels ls2 ++ [])
                    (Z.of_nat (length (enc_labels ls)) + 2)).
  { apply labels_path; [exact Hv|exact Hls|fold ptr_pos; lia|].
    fold ptr_pos. apply (path_pointer _ _ ptr_pos target q 0 _
                           (Z.of_nat (length (enc_labels ls2)) + 0));
      [exact Htgt|exact Hback|].
    apply labels_path; [exact Hv2|exact Hls2|fold q; lia|].
    fold q. apply path_here. }
  rewrite app_nil_r in Hpath.
  rewrite (decompress_path_ok _ _ _ _ _ _ _ _ _ Hpath); unfold terminator_at;
    try assumption; try lia.
  - rewrite <- app_assoc. do 2 f_equal.
    rewrite !length_app. cbn [length]. lia.
  - split; [exact Hterm|lia].
Qed.

(** C5 (as amended). Along backward pointers (and the labels in between):
    a name whose decoding follows at most 127 pointers succeeds; decoding
    that meets a 128th pointer fails with [DNSASM_ERR_LOOP], whatever the
    target of that pointer is; and a pointer met after at most 126
    followed pointers whose target is at or behind its own position fails
    with [DNSASM_ERR_POINTER]. *)
Theorem pointer_chain_outcomes (packet : list byte) (len offset : Z)
  (out : list byte) (out_len : Z) (q : Z) (hops : nat) (bs : list byte)
  (c : Z) :
  wire_path packet len offset q hops bs c ->
  len < 18446744073709551616 ->
  Z.of_nat (length bs) <= DNS_MAX_NAME_LEN ->
  DNS_MAX_NAME_LEN + 1 <= Z.of_nat (length out) ->
  ((hops <= 127)%nat ->
   terminator_at packet len q ->
   dnsasm_decompress_name packet len offset out out_len
   = Done ({| res_error := DNSASM_OK;
              res_offset := match hops with O => c + 1 | S _ => c end |},
           overwrite out 0 (bs ++ [x00]), Z.of_nat (length bs) + 1))
  /\ (hops = 127%nat ->
      forall t : Z,
        pointer_target packet len q = Some t ->
        dnsasm_decompress_name packet len offset out out_len
        = Done ({| res_error := DNSASM_ERR_LOOP; res_offset := 0 |},
                overwrite out 0 bs, out_len))
  /\ ((hops <= 126)%nat ->
      forall t : Z,
        pointer_target packet len q = Some t ->
        q <= t ->
        dnsasm_decompress_name packet len offset out out_len
        = Done ({| res_error := DNSASM_ERR_POINTER; res_offset := 0 |},
                overwrite out 0 bs, out_len)).
Proof.
  intros Hpath Hmax Hbs Hout.
  assert (Hout' : DNS_MAX_NAME_LEN < Z.of_nat (length out)) by lia.
  split; [|split].
  - intros Hhops Hterm.
    apply (decompress_path_ok _ _ _ _ _ q hops bs c); assumption.
  - intros Hhops t Ht.
    apply (decompress_path_refused _ _ _ _ _ q hops bs c t); try assumption.
    + lia.
    + left. split; [exact Hhops|reflexivity].
  - intros Hhops t Ht Hge.
    apply (decompress_path_refused _ _ _ _ _ q hops bs c t); try assumption.
    + lia.
    + right. repeat split; [lia|exact Hge].
Qed.

(* ------------------------------------------------------------------ *)
(** ** The output buffer *)

Lemma store8_inv (p : list byte) (i : Z) (v : byte) (p' : list byte) :
  store8 p i v = Done p' ->
  0 <= i < Z.of_nat (length p) /\ p' = <[Z.to_nat i := v]> p.
Proof.
  unfold store8. destruct (in_bounds p i 1) eqn:E; [|discriminate].
  apply in_bounds_true in E. intros [= <-]. split; [lia|reflexivity].
Qed.

Lemma store8_fault (p : list byte) (i : Z) (v : byte) (f : fault) :
  store8 p i v = Fault f -> ~ (0 <= i < Z.of_nat (length p)).
Proof.
  intros H Hi. rewrite store8_ok in H by exact Hi. discriminate H.
Qed.

Lemma memcpy_fault_write (dst src : list byte) (di si n : Z) :
  memcpy dst di src si n = Fault OobWrite ->
  ~ (0 <= di /\ 0 <= n /\ di + n <= Z.of_nat (length dst)).
Proof.
  unfold memcpy. intros H Hb. apply in_bounds_true in Hb. rewrite Hb in H.
  cbn [negb] in H. destruct (in_bounds src si n); discriminate H.
Qed.

Lemma out_inv_refl (o : list byte) : out_inv o o.
Proof. split; [reflexivity|intros i _; reflexivity]. Qed.

Lemma step_inv_init (offset : Z) (out : list byte) :
  step_inv out (decompress_init offset out).
Proof.
  split; [apply dinv_init|split; [|apply out_inv_refl]].
  unfold wire_inv. simpl. lia.
Qed.

Lemma out_inv_store8 (o0 o o' : list byte) (i : Z) (v : byte) :
  out_inv o0 o -> store8 o i v = Done o' -> i <= DNS_MAX_NAME_LEN ->
  out_inv o0 o'.
Proof.
  intros [Hl Hh] Hs Hi. pose proof (store8_length _ _ _ _ Hs) as Hl'.
  apply store8_inv in Hs. destruct Hs as [Hr ->].
  split; [congruence|]. intros j Hj.
  rewrite list_lookup_insert_ne by lia. apply Hh. exact Hj.
Qed.

Lemma out_inv_memcpy (o0 o o' src : list byte) (di si n : Z) :
  out_inv o0 o -> memcpy o di src si n = Done o' ->
  di + n <= DNS_MAX_NAME_LEN + 1 ->
  out_inv o0 o'.
Proof.
  intros [Hl Hh] Hm Hi. pose proof (memcpy_length _ _ _ _ _ _ Hm) as Hl'.
  split; [congruence|]. intros j Hj.
  rewrite (memcpy_lookup _ _ _ _ _ _ j Hm).
  destruct (Z.ltb_spec (Z.of_nat j) (di + n)) as [Hlt|_]; [lia|].
  rewrite andb_false_r. apply Hh. exact Hj.
Qed.

(** One pass keeps the invariants, writes below index 256 only and returns
    negative error codes only. *)
Lemma loop_body_preserves (packet : list byte) (len : Z) (o0 : list byte)
  (s : dstate) :
  step_inv o0 s -> DNS_MAX_NAME_LEN < Z.of_nat (length o0) ->
  match loop_body packet len s with
  | Done (Continue s') => step_inv o0 s'
  | Done (Break s') => exit_inv o0 s'
  | Done (Return err s') => err < 0 /\ st_out s' = st_out s
  | Fault f => f = OobRead
  | OutOfFuel => False
  end.
Proof.
  intros ([Hk Hpc] & [Hw Hwc] & Hout) Ho0.
  pose proof Hout as [Hlen _].
  destruct (loop_body packet len s) as [[s'|s'|err s']|f|] eqn:H;
    body_inv H;
    match type of H with
    | Done (Return _ _) = _ =>
        injection H as He Hs'; symmetry in He, Hs'; subst err
    | Done _ = _ => injection H as Hs'; symmetry in Hs'
    | _ => idtac
    end;
    unfold step_inv, exit_inv, dinv, wire_inv, DNSASM_ERR_SHORT,
      DNSASM_ERR_LOOP, DNSASM_ERR_POINTER, DNSASM_ERR_NAME,
      DNSASM_ERR_OVERFLOW;
    cbn [st_out_pos st_wire_len st_counting_wire st_ptr_count st_pos st_out];
    zify_tests; unfold DNS_MAX_NAME_LEN in *;
    try (subst s'; split; [lia|reflexivity]).
  (* faults *)
  all: try (match goal with
            | HF : Fault _ = Fault _ |- _ => injection HF as <-
            end;
            match goal with
            | E : load8 _ _ = Fault ?f |- _ =>
                unfold load8 in E; destruct (peek _ _);
                [discriminate E|injection E as <-; reflexivity]
            | E : store8 _ _ _ = Fault _ |- _ =>
                apply store8_fault in E; exfalso; apply E; lia
            | E : memcpy _ _ _ _ _ = Fault ?f,
              E1 : store8 (st_out ?s0) _ _ = Done _,
              E0 : load8 _ _ = Done ?b |- _ =>
                pose proof (u8_range b); set (l := u8 b) in *;
                destruct f; [reflexivity|]; apply memcpy_fault_write in E;
                exfalso; apply E;
                rewrite (store8_length _ _ _ _ E1);
                rewrite (sz_small (st_out_pos s0 + 1)) in * by lia;
                match goal with
                | T : sz (st_out_pos s0 + 1 + l) <= _ |- _ =>
                    rewrite (sz_small (st_out_pos s0 + 1 + l)) in T by lia
                end;
                lia
            end).
  - (* a pointer is followed *)
    subst s'.
    cbn [st_out_pos st_wire_len st_counting_wire st_ptr_count st_pos st_out].
    repeat split; try lia; try apply Hout;
      destruct (st_counting_wire s) eqn:Hc; try discriminate;
      try rewrite sz_small; try lia.
    all: specialize (Hwc eq_refl); lia.
  - (* a label is copied *)
    match goal with
    | E : load8 _ _ = Done ?b |- _ => pose proof (u8_range b); set (l := u8 b) in *
    end.
    rewrite (sz_small (st_out_pos s + 1)) in * by lia.
    match goal with
    | T : sz (st_out_pos s + 1 + l) <= _ |- _ =>
        rewrite (sz_small (st_out_pos s + 1 + l)) in T by lia
    end.
    assert (Hout' : out_inv o0 (st_out s')).
    { subst s'. cbn [st_out].
      match goal with
      | E1 : store8 _ _ _ = Done ?o1, E2 : memcpy ?o1 _ _ _ _ = Done _ |- _ =>
          apply (out_inv_memcpy _ _ _ _ _ _ _
                   (out_inv_store8 _ _ _ _ _ Hout E1
                      ltac:(unfold DNS_MAX_NAME_LEN; lia)) E2)
      end.
      unfold DNS_MAX_NAME_LEN. lia. }
    subst s'. cbn [st_out] in Hout'.
    cbn [st_out_pos st_wire_len st_counting_wire st_ptr_count st_pos st_out].
    rewrite (sz_small (st_out_pos s + 1 + l)) by lia.
    repeat split; try lia; try apply Hout'.
    + destruct (st_counting_wire s); [|lia]. rewrite sz_small; lia.
    + destruct (st_counting_wire s); [|lia]. rewrite sz_small; lia.
    + intros Hc. rewrite Hc. specialize (Hwc Hc). rewrite sz_small; lia.
  - (* the terminator *)
    assert (Hout' : out_inv o0 (st_out s')).
    { subst s'. cbn [st_out].
      match goal with
      | E1 : store8 _ _ _ = Done _ |- _ =>
          apply (out_inv_store8 _ _ _ _ _ Hout E1)
      end.
      unfold DNS_MAX_NAME_LEN. lia. }
    subst s'. cbn [st_out] in Hout'.
    cbn [st_out_pos st_wire_len st_counting_wire st_ptr_count st_pos st_out].
    rewrite (sz_small (st_out_pos s + 1)) by lia.
    repeat split; try lia; try apply Hout'.
    + destruct (st_counting_wire s); [|lia]. rewrite sz_small; lia.
    + destruct (st_counting_wire s) eqn:Hc; [|lia].
      specialize (Hwc eq_refl). rewrite sz_small; lia.
Qed.

(** The loop keeps the invariants. *)
Lemma decompress_loop_preserves (packet : list byte) (len : Z)
  (o0 : list byte) :
  DNS_MAX_NAME_LEN < Z.of_nat (length o0) ->
  forall (fuel : nat) (s : dstate),
    step_inv o0 s ->
    match decompress_loop fuel packet len s with
    | Done (Finished s') => exit_inv o0 s'
    | Done (Failed err s') => err < 0 /\ out_inv o0 (st_out s')
    | Fault f => f = OobRead
    | OutOfFuel => True
    end.
Proof.
  intros Ho0. induction fuel as [|fuel IH]; intros s Hinv; [exact I|].
  cbn [decompress_loop].
  destruct (st_pos s <? len).
  - pose proof (loop_body_preserves packet len o0 s Hinv Ho0) as Hb.
    destruct (loop_body packet len s) as [[s'|s'|err s']|f|]; cbn [bind].
    + apply IH. exact Hb.
    + exact Hb.
    + destruct Hb as [He Ho]. split; [exact He|]. rewrite Ho. apply Hinv.
    + exact Hb.
    + exact I.
  - destruct Hinv as ([Hk _] & [Hw _] & Hout).
    unfold exit_inv, DNS_MAX_NAME_LEN in *. repeat split; try lia;
      apply Hout.
Qed.

(* ------------------------------------------------------------------ *)
(** ** Bounds on the output *)

(** C10. Given the [DNS_MAX_NAME_LEN + 1] bytes the caller must supply,
    [dnsasm_decompress_name] comes to an end without a store outside of the
    output buffer, on any input: it leaves every byte from index 256 on as
    it was, and on success the length it returns is at most 256. *)
Theorem decompress_writes_below_256 (packet : list byte) (len offset : Z)
  (out : list byte) (out_len : Z) :
  DNS_MAX_NAME_LEN + 1 <= Z.of_nat (length out) ->
  dnsasm_decompress_name packet len offset out out_len <> OutOfFuel
  /\ dnsasm_decompress_name packet len offset out out_len <> Fault OobWrite
  /\ forall (r : dnsasm_result_t) (out' : list byte) (out_len' : Z),
       dnsasm_decompress_name packet len offset out out_len
       = Done (r, out', out_len') ->
       length out' = length out
       /\ (forall i : nat, 256 <= Z.of_nat i -> out' !! i = out !! i)
       /\ (res_error r = DNSASM_OK -> 0 <= out_len' <= 256).
Proof.
  intros Hout.
  assert (Ho0 : DNS_MAX_NAME_LEN < Z.of_nat (length out)) by lia.
  pose proof (decompress_loop_preserves packet len out Ho0 decompress_fuel
                (decompress_init offset out) (step_inv_init offset out))
    as Hloop.
  pose proof (decompress_loop_total packet len decompress_fuel
                (decompress_init offset out) (dinv_init offset out)
                (budget_init offset out)) as Htot.
  unfold dnsasm_decompress_name, decompress_name_fuel.
  destruct (decompress_loop decompress_fuel packet len
              (decompress_init offset out)) as [[s|err s]|f|]; cbn [bind].
  - destruct Hloop as (Hk & _ & [Hl Hh]). unfold DNS_MAX_NAME_LEN in *.
    split; [discriminate|]. split; [discriminate|].
    intros r out' ol' [= <- <- <-].
    repeat split; try assumption.
    + apply Z.mod_pos_bound. lia.
    + rewrite u16_small by lia. lia.
  - destruct Hloop as (He & [Hl Hh]). unfold DNS_MAX_NAME_LEN in *.
    split; [discriminate|]. split; [discriminate|].
    intros r out' ol' [= <- <- <-].
    repeat split; try assumption; cbn [res_error] in *;
      unfold DNSASM_OK in *; lia.
  - subst f. split; [discriminate|]. split; [discriminate|].
    intros r out' ol' [=].
  - contradiction Htot. reflexivity.
Qed.

(* ------------------------------------------------------------------ *)
(** ** Truncated names *)

(** When the cursor is at or behind the end of the packet the loop is not
    entered and the call reports success. *)
Lemma decompress_offset_past_end (packet : list byte) (len offset : Z)
  (out : list byte) (out_len : Z) :
  len <= offset ->
  dnsasm_decompress_name packet len offset out out_len
  = Done ({| res_error := DNSASM_OK; res_offset := 0 |}, out, 0).
Proof.
  intros H. unfold dnsasm_decompress_name, decompress_name_fuel.
  unfold decompress_fuel. cbn [decompress_loop decompress_init st_pos].
  destruct (Z.ltb_spec offset len) as [Hlt|_]; [lia|]. reflexivity.
Qed.

(** C2 (the code does otherwise). A packet that ends after the label [www],
    before any terminator: the call returns [DNSASM_OK] with four bytes of
    output and four bytes consumed instead of [DNSASM_ERR_SHORT]; so it does
    on the empty packet. *)
Theorem truncated_name_accepted :
  dnsasm_decompress_name [x03; x77; x77; x77] 4 0 fresh_out 7
  = Done ({| res_error := DNSASM_OK; res_offset := 4 |},
          [x03; x77; x77; x77] ++ repeat xff 252, 4)
  /\ dnsasm_decompress_name [] 0 0 fresh_out 7
     = Done ({| res_error := DNSASM_OK; res_offset := 0 |}, fresh_out, 0).
Proof. split; vm_compute; reflexivity. Qed.

(* ------------------------------------------------------------------ *)
(** ** The length of the output *)

(** C3 (the code does otherwise). A name with 255 bytes of labels is
    accepted and decompresses to 256 bytes, terminator included: the length
    returned is 256, above [DNS_MAX_NAME_LEN]. *)
Theorem long_name_accepted :
  dnsasm_decompress_name long_name_packet 256 0 fresh_out 0
  = Done ({| res_error := DNSASM_OK; res_offset := 256 |},
          long_name_packet, 256)
  /\ DNS_MAX_NAME_LEN < 256.
Proof. split; vm_compute; reflexivity. Qed.

(* ------------------------------------------------------------------ *)
(** ** The output of a failing call *)

Lemma decompress_failure (packet : list byte) (len offset : Z)
  (out : list byte) (out_len : Z) (r : dnsasm_result_t) (out' : list byte)
  (out_len' : Z) :
  dnsasm_decompress_name packet len offset out out_len
  = Done (r, out', out_len') ->
  res_error r <> DNSASM_OK ->
  out_len' = out_len /\ res_offset r = 0.
Proof.
  unfold dnsasm_decompress_name, decompress_name_fuel.
  destruct (decompress_loop decompress_fuel packet len
              (decompress_init offset out)) as [[s|err s]|f|]; cbn [bind];
    try discriminate.
  - intros [= <- <- <-] He. contradiction He. reflexivity.
  - intros [= <- <- <-] _. split; reflexivity.
Qed.

(** C9 (as amended). A failing decode leaves the result offset at 0 and
    does not touch the fields it fills last: the name length for
    [dnsasm_decompress_name]; the type, class and wire length for
    [dnsasm_parse_question]; the rdata pointer and the wire length for
    [dnsasm_parse_rr]. *)
Theorem failed_decode_untouched_fields (packet : list byte)
  (len offset : Z) :
  (forall (out : list byte) (out_len : Z) (r : dnsasm_result_t)
          (out' : list byte) (out_len' : Z),
      dnsasm_decompress_name packet len offset out out_len
      = Done (r, out', out_len') ->
      res_error r <> DNSASM_OK ->
      out_len' = out_len /\ res_offset r = 0)
  /\ (forall (q : dnsasm_question_t) (r : dnsasm_result_t)
             (q' : dnsasm_question_t),
         dnsasm_parse_question packet len offset q = Done (r, q') ->
         res_error r <> DNSASM_OK ->
         q_qtype q' = q_qtype q /\ q_qclass q' = q_qclass q
         /\ q_wire_len q' = q_wire_len q /\ res_offset r = 0)
  /\ (forall (rr : dnsasm_rr_t) (r : dnsasm_result_t) (rr' : dnsasm_rr_t),
         dnsasm_parse_rr packet len offset rr = Done (r, rr') ->
         res_error r <> DNSASM_OK ->
         rr_rdata rr' = rr_rdata rr /\ rr_wire_len rr' = rr_wire_len rr
         /\ res_offset r = 0).
Proof.
  split; [|split].
  - intros out out_len r out' ol'. apply decompress_failure.
  - intros q r q'. unfold dnsasm_parse_question.
    destruct (dnsasm_decompress_name packet len offset (q_name q)
                (q_name_len q)) as [[[r0 name] nl]|f|] eqn:Hd; cbn [bind];
      try discriminate.
    destruct (Z.eqb_spec (res_error r0) DNSASM_OK) as [He|He]; cbn [negb].
    + destruct (sz (sz (offset + res_offset r0) + 4) >? len).
      * intros [= <- <-] _. cbn. repeat split; reflexivity.
      * destruct (load16 packet (sz (offset + res_offset r0)));
          cbn [bind]; try discriminate.
        destruct (load16 packet (sz (offset + res_offset r0) + 2));
          cbn [bind]; try discriminate.
        intros [= <- <-] Hne. contradiction Hne. reflexivity.
    + intros [= <- <-] _. cbn.
      destruct (decompress_failure _ _ _ _ _ _ _ _ Hd He) as [_ Ho].
      repeat split; try reflexivity. exact Ho.
  - intros rr r rr'. unfold dnsasm_parse_rr.
    destruct (dnsasm_decompress_name packet len offset (rr_name rr)
                (rr_name_len rr)) as [[[r0 name] nl]|f|] eqn:Hd; cbn [bind];
      try discriminate.
    destruct (Z.eqb_spec (res_error r0) DNSASM_OK) as [He|He]; cbn [negb].
    + destruct (sz (sz (offset + res_offset r0) + 10) >? len).
      * intros [= <- <-] _. cbn. repeat split; reflexivity.
      * destruct (load16 packet (sz (offset + res_offset r0)));
          cbn [bind]; try discriminate.
        destruct (load16 packet (sz (offset + res_offset r0) + 2));
          cbn [bind]; try discriminate.
        destruct (load32 packet (sz (offset + res_offset r0) + 4));
          cbn [bind]; try discriminate.
        destruct (load16 packet (sz (offset + res_offset r0) + 8));
          cbn [bind]; try discriminate.
        match goal with
        | |- context [if ?b then _ else _] => destruct b
        end.
        -- intros [= <- <-] _. cbn. repeat split; reflexivity.
        -- intros [= <- <-] Hne. contradiction Hne. reflexivity.
    + intros [= <- <-] _. cbn.
      destruct (decompress_failure _ _ _ _ _ _ _ _ Hd He) as [_ Ho].
      repeat split; try reflexivity. exact Ho.
Qed.

(** C9, as stated, fails.  A name with the label [a] followed by a length
    byte of 64: the call fails with [DNSASM_ERR_NAME] after it has copied
    the first label to the output.  A question that ends after its name:
    [dnsasm_parse_question] fails with [DNSASM_ERR_SHORT] after it has
    written the name and its length. *)
Lemma failed_decode_changes_output :
  (dnsasm_decompress_name [x01; x61; x40] 3 0 fresh_out 7
   = Done ({| res_error := DNSASM_ERR_NAME; res_offset := 0 |},
           [x01; x61] ++ repeat xff 254, 7)
   /\ [x01; x61] ++ repeat xff 254 <> fresh_out)
  /\ (dnsasm_parse_question [x01; x61; x00; x00; x01] 5 0 fresh_question
      = Done ({| res_error := DNSASM_ERR_SHORT; res_offset := 0 |},
              {| q_name := [x01; x61; x00] ++ repeat xff 253;
                 q_name_len := 3; q_qtype := 7; q_qclass := 7;
                 q_wire_len := 7 |})
      /\ q_name_len fresh_question <> 3
      /\ q_name fresh_question <> [x01; x61; x00] ++ repeat xff 253).
Proof.
  split; [split|split; [|split]]; try (vm_compute; reflexivity);
    vm_compute; discriminate.
Qed.

(* ------------------------------------------------------------------ *)
(** ** Byte order *)

Lemma byte_of_mod (z : Z) : byte_of (z mod 256) = byte_of z.
Proof. unfold byte_of. rewrite Z.mod_mod by lia. reflexivity. Qed.

(** [bswap16] exchanges the two bytes of a 16-bit value. *)
Lemma bswap16_bytes (lo hi : Z) :
  0 <= lo < 256 -> 0 <= hi < 256 -> bswap16 (lo + 256 * hi) = lo * 256 + hi.
Proof.
  intros Hlo Hhi. unfold bswap16.
  rewrite Z.lor_comm, lor_shiftl_8.
  - rewrite Z.shiftr_div_pow2 by lia. change (2 ^ 8) with 256.
    replace ((lo + 256 * hi) / 256) with hi
      by (apply Z.div_unique with lo; lia).
    unfold u16.
    replace ((lo + 256 * hi) * 256 + hi) with (lo * 256 + hi + hi * 65536)
      by lia.
    rewrite Z.mod_add by lia. apply Z.mod_small. lia.
  - rewrite Z.shiftr_div_pow2 by lia. change (2 ^ 8) with 256.
    replace ((lo + 256 * hi) / 256) with hi
      by (apply Z.div_unique with lo; lia).
    exact Hhi.
Qed.

Lemma bswap16_value (v : Z) :
  0 <= v < 65536 -> bswap16 v = v mod 256 * 256 + v / 256.
Proof.
  intros Hv.
  assert (H1 : 0 <= v mod 256 < 256) by (apply Z.mod_pos_bound; lia).
  assert (H2 : 0 <= v / 256 < 256)
    by (split; [apply Z.div_pos; lia|apply Z.div_lt_upper_bound; lia]).
  rewrite (Z.div_mod v 256) at 1 by lia.
  rewrite Z.add_comm. apply bswap16_bytes; assumption.
Qed.

(** Reading a 16-bit field: the load and the byte swap together give the
    big-endian value. *)
Lemma load16_bswap (p : list byte) (i v : Z) :
  be16 p i = Some v ->
  exists w, load16 p i = Done w /\ bswap16 w = v /\ 0 <= v < 65536.
Proof.
  unfold be16, load16.
  destruct (peek p i) as [b0|] eqn:E0; [|discriminate].
  destruct (peek p (i + 1)) as [b1|] eqn:E1; [|discriminate].
  intros [= <-]. pose proof (u8_range b0). pose proof (u8_range b1).
  rewrite (load8_peek _ _ _ E0), (load8_peek _ _ _ E1). cbn [bind].
  eexists. split; [reflexivity|]. split; [|lia].
  apply bswap16_bytes; assumption.
Qed.

Lemma be16_in_range (p : list byte) (i : Z) :
  0 <= i -> i + 2 <= Z.of_nat (length p) -> exists v, be16 p i = Some v.
Proof.
  intros H0 H2. unfold be16.
  destruct (peek_in_range p i) as [b0 ->]; [lia|].
  destruct (peek_in_range p (i + 1)) as [b1 ->]; [lia|].
  eexists. reflexivity.
Qed.

(** Writing a 16-bit field: the byte swap and the store together write
    the value big-endian. *)
Lemma store16_bswap (p : list byte) (i v : Z) :
  0 <= v < 65536 -> 0 <= i -> i + 2 <= Z.of_nat (length p) ->
  store16 p i (bswap16 v) = Done (overwrite p i (be16_bytes v)).
Proof.
  intros Hv Hi Hp.
  assert (H1 : 0 <= v mod 256 < 256) by (apply Z.mod_pos_bound; lia).
  assert (H2 : 0 <= v / 256 < 256)
    by (split; [apply Z.div_pos; lia|apply Z.div_lt_upper_bound; lia]).
  rewrite bswap16_value by exact Hv. unfold store16.
  rewrite store8_ok by lia. cbn [bind].
  rewrite store8_ok by (rewrite length_overwrite; cbn [length]; lia).
  change (i + 1) with (i + Z.of_nat (length [byte_of (v mod 256 * 256 + v / 256)])).
  rewrite overwrite_app by (cbn [length]; lia).
  unfold be16_bytes. cbn [app]. do 3 f_equal.
  - rewrite <- byte_of_mod. f_equal.
    rewrite Z.add_comm, Z.mod_add by lia. apply Z.mod_small. exact H2.
  - f_equal. rewrite Z.shiftr_div_pow2 by lia. change (2 ^ 8) with 256.
    f_equal. symmetry. apply Z.div_unique with (v / 256); lia.
Qed.

Lemma be16_of_bytes (p : list byte) (i v : Z) :
  0 <= v < 65536 -> bytes_at p i (be16_bytes v) -> be16 p i = Some v.
Proof.
  intros Hv Hb. unfold be16_bytes in Hb.
  apply bytes_at_cons in Hb. destruct Hb as [E0 Hb].
  apply bytes_at_cons in Hb. destruct Hb as [E1 _].
  unfold be16. rewrite E0, E1, !u8_byte_of. f_equal.
  rewrite Z.mod_mod by lia.
  rewrite (Z.mod_small (v / 256))
    by (split; [apply Z.div_pos; lia|apply Z.div_lt_upper_bound; lia]).
  rewrite (Z.div_mod v 256) at 3 by lia. lia.
Qed.

Lemma bytes_at_overwrite (o : list byte) (k : Z) (bs : list byte) :
  0 <= k -> k <= Z.of_nat (length o) -> bytes_at (overwrite o k bs) k bs.
Proof.
  intros Hk Hl. split; [exact Hk|]. unfold overwrite.
  rewrite drop_app_length' by (rewrite length_take; lia).
  apply take_app_length.
Qed.

(** The sub-fields of the flags word, as the code extracts them. *)
Lemma flag_bit_extract (flags lo : Z) :
  0 <= lo -> Z.land (Z.shiftr flags lo) 1 mod 256 = flag_bits flags lo 1.
Proof.
  intros Hlo. unfold flag_bits. rewrite Z.shiftr_div_pow2 by exact Hlo.
  rewrite (Z.land_ones _ 1) by lia. change (2 ^ 1) with 2.
  apply Z.mod_small.
  pose proof (Z.mod_pos_bound (flags / 2 ^ lo) 2). lia.
Qed.

Lemma flag_nibble_extract (flags lo : Z) :
  0 <= lo -> Z.land (Z.shiftr flags lo) 0x0F mod 256 = flag_bits flags lo 4.
Proof.
  intros Hlo. unfold flag_bits. rewrite Z.shiftr_div_pow2 by exact Hlo.
  rewrite (Z.land_ones _ 4) by lia. change (2 ^ 4) with 16.
  apply Z.mod_small.
  pose proof (Z.mod_pos_bound (flags / 2 ^ lo) 16). lia.
Qed.

(* ------------------------------------------------------------------ *)
(** ** The header codec *)

Lemma store16_next (out bs : list byte) (k v : Z) :
  k = Z.of_nat (length bs) ->
  0 <= v < 65536 ->
  k + 2 <= Z.of_nat (length out) ->
  store16 (overwrite out 0 bs) k (bswap16 v)
  = Done (overwrite out 0 (bs ++ be16_bytes v)).
Proof.
  intros -> Hv Hk.
  rewrite store16_bswap; [|exact Hv|lia|rewrite length_overwrite; lia].
  change (Z.of_nat (length bs)) with (0 + Z.of_nat (length bs)) at 1.
  rewrite overwrite_app by lia. reflexivity.
Qed.

Lemma build_header_bytes (out : list byte) (id flags qd an ns ar : Z) :
  0 <= id < 65536 -> 0 <= flags < 65536 -> 0 <= qd < 65536 ->
  0 <= an < 65536 -> 0 <= ns < 65536 -> 0 <= ar < 65536 ->
  DNS_HEADER_SIZE <= Z.of_nat (length out) ->
  dnsasm_build_header out id flags qd an ns ar
  = Done (DNS_HEADER_SIZE, overwrite out 0 (header_bytes id flags qd an ns ar)).
Proof.
  intros Hid Hfl Hqd Han Hns Har Hout. unfold DNS_HEADER_SIZE in *.
  unfold dnsasm_build_header, header_bytes.
  rewrite <- (overwrite_nil out 0) at 1.
  rewrite (store16_next out [] 0 id); [|reflexivity|exact Hid|lia].
  cbn [bind app].
  rewrite (store16_next out _ 2 flags); [|reflexivity|exact Hfl|lia].
  cbn [bind].
  rewrite (store16_next out _ 4 qd); [|reflexivity|exact Hqd|lia].
  cbn [bind].
  rewrite (store16_next out _ 6 an); [|reflexivity|exact Han|lia].
  cbn [bind].
  rewrite (store16_next out _ 8 ns); [|reflexivity|exact Hns|lia].
  cbn [bind].
  rewrite (store16_next out _ 10 ar); [|reflexivity|exact Har|lia].
  cbn [bind]. rewrite <- !app_assoc. reflexivity.
Qed.

Lemma parse_header_bytes (p : list byte) (len : Z) (h0 : dnsasm_header_t)
  (id flags qd an ns ar : Z) :
  0 <= id < 65536 -> 0 <= flags < 65536 -> 0 <= qd < 65536 ->
  0 <= an < 65536 -> 0 <= ns < 65536 -> 0 <= ar < 65536 ->
  bytes_at p 0 (header_bytes id flags qd an ns ar) ->
  DNS_HEADER_SIZE <= len ->
  dnsasm_parse_header p len h0
  = Done (DNSASM_OK, header_of id flags qd an ns ar (hdr_pad h0)).
Proof.
  intros Hid Hfl Hqd Han Hns Har Hb Hlen. unfold DNS_HEADER_SIZE in *.
  unfold header_bytes in Hb.
  apply bytes_at_app in Hb. destruct Hb as [B0 Hb].
  apply bytes_at_app in Hb. destruct Hb as [B1 Hb].
  apply bytes_at_app in Hb. destruct Hb as [B2 Hb].
  apply bytes_at_app in Hb. destruct Hb as [B3 Hb].
  apply bytes_at_app in Hb. destruct Hb as [B4 B5].
  repeat match goal with
  | B : bytes_at _ ?i _ |- _ =>
      progress (let v := eval vm_compute in i in change i with v in B)
  end.
  apply be16_of_bytes in B0, B1, B2, B3, B4, B5; try assumption.
  destruct (load16_bswap _ _ _ B0) as (w0 & L0 & S0 & _).
  destruct (load16_bswap _ _ _ B1) as (w1 & L1 & S1 & _).
  destruct (load16_bswap _ _ _ B2) as (w2 & L2 & S2 & _).
  destruct (load16_bswap _ _ _ B3) as (w3 & L3 & S3 & _).
  destruct (load16_bswap _ _ _ B4) as (w4 & L4 & S4 & _).
  destruct (load16_bswap _ _ _ B5) as (w5 & L5 & S5 & _).
  unfold dnsasm_parse_header, DNS_HEADER_SIZE.
  destruct (Z.ltb_spec len 12) as [Hbad|_]; [lia|].
  rewrite L0, L1, L2, L3, L4, L5. cbn [bind]. cbv zeta.
  rewrite S0, S1, S2, S3, S4, S5.
  rewrite !flag_bit_extract, flag_nibble_extract by lia.
  unfold header_of. do 2 f_equal. f_equal.
  unfold flag_bits. rewrite (Z.land_ones _ 4) by lia.
  change (2 ^ 0) with 1. rewrite Z.div_1_r. change (2 ^ 4) with 16.
  apply Z.mod_small. pose proof (Z.mod_pos_bound flags 16). lia.
Qed.

(** C7. For all 16-bit field values [dnsasm_build_header] succeeds and
    returns 12: it writes exactly the twelve bytes of the six fields,
    big-endian and in order; [dnsasm_parse_header] applied to the buffer
    built succeeds and gives back the six values with the sub-fields the
    flags word defines. *)
Theorem header_round_trip (out : list byte) (id flags qd an ns ar : Z)
  (h0 : dnsasm_header_t) :
  0 <= id < 65536 -> 0 <= flags < 65536 -> 0 <= qd < 65536 ->
  0 <= an < 65536 -> 0 <= ns < 65536 -> 0 <= ar < 65536 ->
  DNS_HEADER_SIZE <= Z.of_nat (length out) ->
  exists out' : list byte,
    dnsasm_build_header out id flags qd an ns ar = Done (12, out')
    /\ take 12 out' = header_bytes id flags qd an ns ar
    /\ drop 12 out' = drop 12 out
    /\ length out' = length out
    /\ dnsasm_parse_header out' 12 h0
       = Done (DNSASM_OK, header_of id flags qd an ns ar (hdr_pad h0))
    /\ dnsasm_parse_header (take 12 out') 12 h0
       = Done (DNSASM_OK, header_of id flags qd an ns ar (hdr_pad h0)).
Proof.
  intros Hid Hfl Hqd Han Hns Har Hout.
  exists (overwrite out 0 (header_bytes id flags qd an ns ar)).
  assert (Hl : length (header_bytes id flags qd an ns ar) = 12%nat)
    by reflexivity.
  unfold DNS_HEADER_SIZE in Hout.
  assert (Htake : take 12 (overwrite out 0 (header_bytes id flags qd an ns ar))
                  = header_bytes id flags qd an ns ar).
  { unfold overwrite. change (Z.to_nat 0) with O. rewrite take_0.
    cbn [app]. apply take_app_length'. symmetry. exact Hl. }
  split; [apply build_header_bytes; assumption|].
  split; [exact Htake|].
  split.
  { unfold overwrite. change (Z.to_nat 0) with O. rewrite take_0.
    cbn [app]. rewrite Hl. rewrite drop_app_length' by (symmetry; exact Hl).
    reflexivity. }
  split; [apply length_overwrite; rewrite ?Hl; lia|].
  split.
  - apply parse_header_bytes; try assumption.
    + apply bytes_at_overwrite; lia.
    + unfold DNS_HEADER_SIZE. lia.
  - rewrite Htake. apply parse_header_bytes; try assumption.
    + split; [lia|]. change (Z.to_nat 0) with O. rewrite drop_0.
      apply take_ge. lia.
    + unfold DNS_HEADER_SIZE. lia.
Qed.

(* ------------------------------------------------------------------ *)
(** ** Comparison of names *)

Lemma peek_app_here (pre : list byte) (x : byte) (rest : list byte) :
  peek (pre ++ x :: rest) (Z.of_nat (length pre)) = Some x.
Proof.
  rewrite peek_lookup by lia.
  rewrite Nat2Z.id. rewrite lookup_app_r by lia.
  rewrite Nat.sub_diag. reflexivity.
Qed.

(** One pass of the loop compares the folded bytes. *)
Lemma name_equal_body_fold (a b : list byte) (i : Z) (x y : byte) :
  peek a i = Some x -> peek b i = Some y ->
  name_equal_body a b i
  = Done (if fold_case x =? fold_case y then None else Some 1).
Proof.
  intros Hx Hy. unfold name_equal_body.
  rewrite (load8_peek _ _ _ Hx), (load8_peek _ _ _ Hy). cbn [bind].
  cbv zeta. unfold fold_case, char_A, char_Z.
  pose proof (u8_range x). pose proof (u8_range y).
  rewrite !Z.geb_leb.
  destruct ((65 <=? u8 x) && (u8 x <=? 90)) eqn:Ex;
    destruct ((65 <=? u8 y) && (u8 y <=? 90)) eqn:Ey;
    try (apply andb_true_iff in Ex; destruct Ex as [Ex1 Ex2];
         apply Z.leb_le in Ex1, Ex2; rewrite (Z.mod_small (u8 x + 32)) by lia);
    try (apply andb_true_iff in Ey; destruct Ey as [Ey1 Ey2];
         apply Z.leb_le in Ey1, Ey2; rewrite (Z.mod_small (u8 y + 32)) by lia);
    destruct (_ =? _); reflexivity.
Qed.

(** The loop over the rest of two names of the same length. *)
Lemma name_equal_loop_fold (xs : list byte) :
  forall (ys pa pb : list byte),
    length pa = length pb ->
    length xs = length ys ->
    Z.of_nat (length (pa ++ xs)) < 18446744073709551616 ->
    name_equal_loop (length xs) (pa ++ xs) (pb ++ ys) (Z.of_nat (length pa))
    = Done (if decide (map fold_case xs = map fold_case ys) then 0 else 1).
Proof.
  induction xs as [|x xs IH]; intros ys pa pb Hp Hl Hmax.
  - destruct ys; [|discriminate]. reflexivity.
  - destruct ys as [|y ys]; [discriminate|].
    cbn [length name_equal_loop].
    rewrite (name_equal_body_fold _ _ _ x y);
      [|apply peek_app_here|rewrite Hp; apply peek_app_here].
    cbn [bind map].
    destruct (Z.eqb_spec (fold_case x) (fold_case y)) as [He|Hne].
    + rewrite length_app in Hmax. cbn [length] in Hmax.
      rewrite sz_small by lia.
      replace (Z.of_nat (length pa) + 1) with (Z.of_nat (length (pa ++ [x])))
        by (rewrite length_app; cbn [length]; lia).
      rewrite (cons_middle x pa xs), (cons_middle y pb ys).
      rewrite (app_assoc pa [x] xs), (app_assoc pb [y] ys).
      rewrite IH.
      * rewrite He.
        destruct (decide (map fold_case xs = map fold_case ys)) as [Hm|Hm];
          destruct (decide (fold_case y :: map fold_case xs
                            = fold_case y :: map fold_case ys)) as [Hc|Hc];
          try reflexivity.
        -- contradiction Hc. rewrite Hm. reflexivity.
        -- contradiction Hm. injection Hc as Hc. exact Hc.
      * rewrite !length_app. cbn [length]. lia.
      * simpl in Hl. lia.
      * rewrite !length_app. cbn [length]. lia.
    + destruct (decide (fold_case x :: map fold_case xs
                        = fold_case y :: map fold_case ys)) as [Hc|Hc];
        [|reflexivity].
      injection Hc as Hc _. contradiction.
Qed.

(** A difference in a byte that is not a letter shows after folding. *)
Lemma fold_case_non_letter (x y : byte) :
  x <> y -> is_letter x = false \/ is_letter y = false ->
  fold_case x <> fold_case y.
Proof.
  intros Hne Hl Hf.
  assert (Hu : u8 x <> u8 y).
  { intros Hu. apply Hne. rewrite <- (byte_of_u8 x), <- (byte_of_u8 y).
    rewrite Hu. reflexivity. }
  unfold fold_case, is_letter in *.
  destruct (Z.leb_spec 65 (u8 x)); destruct (Z.leb_spec (u8 x) 90);
    destruct (Z.leb_spec 97 (u8 x)); destruct (Z.leb_spec (u8 x) 122);
    destruct (Z.leb_spec 65 (u8 y)); destruct (Z.leb_spec (u8 y) 90);
    destruct (Z.leb_spec 97 (u8 y)); destruct (Z.leb_spec (u8 y) 122);
    cbn [andb orb] in *; destruct Hl as [Hl|Hl]; try discriminate Hl; lia.
Qed.

(** C8. [dnsasm_name_equal] returns 1 (not equal) when the lengths differ;
    for equal lengths it returns 0 (equal) exactly when the two sequences
    agree at every position after each byte in ['A'-'Z'] is mapped to its
    lowercase form, every other byte being compared as it is, and 1
    otherwise.  ["WWW"] and ["www"] are equal, and a difference at a byte
    that is not a letter makes the names not equal. *)
Theorem name_equal_case_insensitive (a b : list byte) :
  Z.of_nat (length a) < 18446744073709551616 ->
  Z.of_nat (length b) < 18446744073709551616 ->
  (length a <> length b ->
   dnsasm_name_equal a (Z.of_nat (length a)) b (Z.of_nat (length b)) = Done 1)
  /\ (length a = length b ->
      (dnsasm_name_equal a (Z.of_nat (length a)) b (Z.of_nat (length b))
       = Done 0
       \/ dnsasm_name_equal a (Z.of_nat (length a)) b (Z.of_nat (length b))
          = Done 1)
      /\ (dnsasm_name_equal a (Z.of_nat (length a)) b (Z.of_nat (length b))
          = Done 0
          <-> forall (i : nat) (x y : byte),
                a !! i = Some x -> b !! i = Some y ->
                fold_case x = fold_case y)
      /\ (forall (i : nat) (x y : byte),
             a !! i = Some x -> b !! i = Some y -> x <> y ->
             is_letter x = false \/ is_letter y = false ->
             dnsasm_name_equal a (Z.of_nat (length a)) b
               (Z.of_nat (length b)) = Done 1))
  /\ dnsasm_name_equal name_WWW 3 name_www 3 = Done 0.
Proof.
  intros Ha Hb. split; [|split; [|reflexivity]].
  - intros Hne. unfold dnsasm_name_equal.
    destruct (Z.eqb_spec (Z.of_nat (length a)) (Z.of_nat (length b)))
      as [He|_]; [lia|]. reflexivity.
  - intros Hl.
    assert (Hrun : dnsasm_name_equal a (Z.of_nat (length a)) b
                     (Z.of_nat (length b))
                   = Done (if decide (map fold_case a = map fold_case b)
                           then 0 else 1)).
    { unfold dnsasm_name_equal. rewrite Hl, Z.eqb_refl. cbn [negb].
      rewrite Nat2Z.id, <- Hl.
      apply (name_equal_loop_fold a b [] []); [reflexivity|exact Hl|].
      cbn [app]. exact Ha. }
    assert (Hmap : map fold_case a = map fold_case b
                   <-> forall (i : nat) (x y : byte),
                         a !! i = Some x -> b !! i = Some y ->
                         fold_case x = fold_case y).
    { split.
      - intros Hm i x y Hx Hy.
        apply (f_equal (fun l => l !! i)) in Hm.
        rewrite !list_lookup_fmap, Hx, Hy in Hm. cbn in Hm.
        injection Hm as Hm. exact Hm.
      - intros Hall. apply list_eq. intros i.
        rewrite !list_lookup_fmap.
        destruct (a !! i) as [x|] eqn:Hx; destruct (b !! i) as [y|] eqn:Hy;
          cbn.
        + f_equal. apply (Hall i); assumption.
        + apply lookup_lt_Some in Hx. apply lookup_ge_None in Hy. lia.
        + apply lookup_ge_None in Hx. apply lookup_lt_Some in Hy. lia.
        + reflexivity. }
    rewrite Hrun.
    destruct (decide (map fold_case a = map fold_case b)) as [Hm|Hm].
    + split; [left; reflexivity|]. split.
      * split; [intros _; apply Hmap; exact Hm|reflexivity].
      * intros i x y Hx Hy Hne Hlet. exfalso.
        apply (fold_case_non_letter x y Hne Hlet).
        apply (proj1 Hmap Hm i); assumption.
    + split; [right; reflexivity|]. split.
      * split; [discriminate|]. intros Hall. contradiction Hm.
        apply Hmap. exact Hall.
      * intros; reflexivity.
Qed.

(* ------------------------------------------------------------------ *)
(** ** Memory safety of the decompression loop *)

(** Inside a packet that has the [len] bytes it is said to have, a pass
    with the cursor inside the packet does not fault, and it leaves the
    cursor at a non-negative index. *)
Lemma loop_body_safe (packet : list byte) (len : Z) (o0 : list byte)
  (s : dstate) :
  step_inv o0 s -> DNS_MAX_NAME_LEN < Z.of_nat (length o0) ->
  len <= Z.of_nat (length packet) ->
  len < 9223372036854775808 ->
  0 <= st_pos s < len ->
  match loop_body packet len s with
  | Done (Continue s') => 0 <= st_pos s'
  | Done _ => True
  | Fault _ => False
  | OutOfFuel => False
  end.
Proof.
  intros Hinv Ho0 Hlen Hmax Hpos.
  pose proof (loop_body_preserves packet len o0 s Hinv Ho0) as Hpre.
  destruct (loop_body packet len s) as [[s'|s'|err s']|f|] eqn:H;
    try exact I; try exact Hpre.
  - body_inv H; injection H as <-; cbn [st_pos].
    + apply Z.mod_pos_bound. lia.
    + apply Z.mod_pos_bound. lia.
  - subst f. body_inv H; zify_tests;
      try rewrite (sz_small (st_pos s + 1)) in * by lia;
      match goal with
      | E : load8 _ ?i = Fault _ |- _ =>
          unfold load8 in E;
          destruct (peek_in_range packet i) as [b Hb]; [lia|];
          rewrite Hb in E; discriminate E
      | E : store8 _ _ _ = Fault ?f |- _ =>
          unfold store8 in E; destruct (in_bounds _ _ _);
          [discriminate E|injection E as <-; discriminate H]
      | E : memcpy _ _ _ _ _ = Fault _, E0 : load8 _ _ = Done ?b |- _ =>
          pose proof (u8_range b); set (l := u8 b) in *;
          rewrite (sz_small (st_pos s + 1 + l)) in * by lia;
          unfold memcpy in E; destruct (in_bounds _ _ _); cbn [negb] in E;
          [|injection E as <-; discriminate H];
          replace (in_bounds packet (st_pos s + 1) l) with true in E
            by (symmetry; apply in_bounds_true; lia);
          discriminate E
      end.
Qed.

(** The function does not fault on a packet that has the [len] bytes it is
    said to have; what it returns is either success with at most 257 bytes
    consumed or a negative error code with offset 0. *)
Lemma decompress_name_safe (packet : list byte) (len offset : Z)
  (out : list byte) (out_len : Z) :
  len <= Z.of_nat (length packet) ->
  len < 9223372036854775808 ->
  0 <= offset ->
  DNS_MAX_NAME_LEN + 1 <= Z.of_nat (length out) ->
  exists (r : dnsasm_result_t) (name : list byte) (nl : Z),
    dnsasm_decompress_name packet len offset out out_len = Done (r, name, nl)
    /\ length name = length out
    /\ (res_error r = DNSASM_OK /\ 0 <= res_offset r <= DNS_MAX_NAME_LEN + 2
        \/ res_error r < 0 /\ res_offset r = 0).
Proof.
  intros Hlen Hmax Hoff Hout.
  assert (Ho0 : DNS_MAX_NAME_LEN < Z.of_nat (length out)) by lia.
  assert (Hloop : forall (fuel : nat) (s : dstate),
             step_inv out s -> 0 <= st_pos s ->
             match decompress_loop fuel packet len s with
             | Done (Finished s') => exit_inv out s'
             | Done (Failed err s') => err < 0 /\ out_inv out (st_out s')
             | Fault _ => False
             | OutOfFuel => True
             end).
  { induction fuel as [|fuel IH]; intros s Hinv Hpos; [exact I|].
    pose proof (decompress_loop_preserves packet len out Ho0 (S fuel) s Hinv)
      as Hpre.
    cbn [decompress_loop] in *.
    destruct (Z.ltb_spec (st_pos s) len) as [Hin|_]; [|exact Hpre].
    pose proof (loop_body_safe packet len out s Hinv Ho0 Hlen Hmax
                  (conj Hpos Hin)) as Hsafe.
    pose proof (loop_body_preserves packet len out s Hinv Ho0) as Hstep.
    destruct (loop_body packet len s) as [[s'|s'|err s']|f|]; cbn [bind] in *;
      try exact Hpre; try contradiction.
    apply IH; assumption. }
  specialize (Hloop decompress_fuel (decompress_init offset out)
                (step_inv_init offset out) Hoff).
  pose proof (decompress_loop_total packet len decompress_fuel
                (decompress_init offset out) (dinv_init offset out)
                (budget_init offset out)) as Htot.
  unfold dnsasm_decompress_name, decompress_name_fuel.
  destruct (decompress_loop decompress_fuel packet len
              (decompress_init offset out)) as [[s|err s]|f|]; cbn [bind];
    try contradiction.
  - destruct Hloop as (Hk & Hw & [Hl _]). unfold DNS_MAX_NAME_LEN in *.
    eexists _, _, _. split; [reflexivity|]. split; [exact Hl|].
    left. cbn [res_error res_offset]. split; [reflexivity|].
    rewrite u32_small by lia. lia.
  - destruct Hloop as (He & [Hl _]).
    eexists _, _, _. split; [reflexivity|]. split; [exact Hl|].
    right. cbn [res_error res_offset]. split; [exact He|reflexivity].
Qed.

(* ------------------------------------------------------------------ *)
(** ** Byte order of 32-bit fields *)

Lemma lor_shiftl (hi lo k : Z) :
  0 <= k -> 0 <= lo < 2 ^ k -> Z.lor (Z.shiftl hi k) lo = hi * 2 ^ k + lo.
Proof.
  intros Hk Hlo. rewrite Z.shiftl_mul_pow2 by exact Hk.
  symmetry. apply Z.add_nocarry_lor.
  apply Z.bits_inj'. intros n Hn. rewrite Z.land_spec, Z.bits_0.
  destruct (Z.ltb_spec n k) as [Hlt|Hge].
  - rewrite Z.mul_pow2_bits_low by lia. reflexivity.
  - rewrite andb_comm.
    replace (Z.testbit lo n) with false; [reflexivity|].
    symmetry. destruct (Z.eq_dec lo 0) as [->|Hnz]; [apply Z.bits_0|].
    apply Z.bits_above_log2; [lia|].
    apply Z.log2_lt_pow2; [lia|].
    apply Z.lt_le_trans with (2 ^ k); [lia|].
    apply Z.pow_le_mono_r; lia.
Qed.

(** Masking with [0xff << k] keeps the byte at bit [k]. *)
Lemma land_byte_mask (y k : Z) :
  0 <= k ->
  Z.land y (Z.shiftl 255 k) = (y / 2 ^ k) mod 256 * 2 ^ k.
Proof.
  intros Hk. change 256 with (2 ^ 8).
  rewrite <- (Z.land_ones (y / 2 ^ k) 8) by lia.
  rewrite <- Z.shiftr_div_pow2, <- Z.shiftl_mul_pow2 by exact Hk.
  apply Z.bits_inj'. intros n Hn.
  rewrite Z.land_spec.
  destruct (Z.ltb_spec n k) as [Hlt|Hge].
  - rewrite !Z.shiftl_spec_low by exact Hlt. apply andb_false_r.
  - rewrite !Z.shiftl_spec by lia.
    rewrite Z.land_spec, Z.shiftr_spec by lia.
    replace (n - k + k) with n by lia. reflexivity.
Qed.

Lemma byte_field (y k b hi lo : Z) :
  0 <= k -> y = lo + 2 ^ k * (b + 256 * hi) ->
  0 <= lo < 2 ^ k -> 0 <= b < 256 ->
  Z.land y (Z.shiftl 255 k) = b * 2 ^ k.
Proof.
  intros Hk Hy Hlo Hb. rewrite land_byte_mask by exact Hk. f_equal.
  assert (Hp : 0 < 2 ^ k) by (apply Z.pow_pos_nonneg; lia).
  replace (y / 2 ^ k) with (b + 256 * hi)
    by (apply Z.div_unique with lo; [left; exact Hlo|lia]).
  replace (b + 256 * hi) with (b + hi * 256) by lia.
  rewrite Z.mod_add by lia. apply Z.mod_small. exact Hb.
Qed.

(** [bswap32] turns the little-endian load of four bytes into their
    big-endian value. *)
Lemma bswap32_bytes (b0 b1 b2 b3 : Z) :
  0 <= b0 < 256 -> 0 <= b1 < 256 -> 0 <= b2 < 256 -> 0 <= b3 < 256 ->
  bswap32 (b0 + 256 * b1 + 65536 * b2 + 16777216 * b3)
  = b0 * 16777216 + b1 * 65536 + b2 * 256 + b3.
Proof.
  intros H0 H1 H2 H3. unfold bswap32.
  set (x := b0 + 256 * b1 + 65536 * b2 + 16777216 * b3).
  assert (HA : Z.land (Z.shiftr x 24) 0xff = b3).
  { rewrite Z.shiftr_div_pow2 by lia.
    change 0xff with (Z.shiftl 255 0).
    rewrite (byte_field _ 0 b3 0 0); try lia.
    replace (x / 2 ^ 24) with b3; [simpl; lia|].
    apply Z.div_unique with (b0 + 256 * b1 + 65536 * b2);
      [left; simpl; lia|unfold x; simpl; lia]. }
  assert (HB : Z.land (Z.shiftr x 8) 0xff00 = b2 * 2 ^ 8).
  { rewrite Z.shiftr_div_pow2 by lia.
    change 0xff00 with (Z.shiftl 255 8).
    apply (byte_field _ 8 b2 b3 b1); try lia.
    symmetry. apply Z.div_unique with b0; [left; lia|unfold x; lia]. }
  assert (HC : Z.land (u32 (Z.shiftl x 8)) 0xff0000 = b1 * 2 ^ 16).
  { rewrite Z.shiftl_mul_pow2 by lia.
    change 0xff0000 with (Z.shiftl 255 16).
    apply (byte_field _ 16 b1 b2 (256 * b0)); try lia.
    unfold u32. symmetry.
    apply Z.mod_unique with b3; [left; lia|unfold x; lia]. }
  assert (HD : Z.land (u32 (Z.shiftl x 24)) 0xff000000 = b0 * 2 ^ 24).
  { rewrite Z.shiftl_mul_pow2 by lia.
    change 0xff000000 with (Z.shiftl 255 24).
    apply (byte_field _ 24 b0 0 0); try lia.
    unfold u32. symmetry.
    apply Z.mod_unique with (b1 + 256 * b2 + 65536 * b3);
      [left; lia|unfold x; lia]. }
  rewrite HA, HB, HC, HD.
  rewrite <- !Z.shiftl_mul_pow2 by lia.
  rewrite (Z.lor_comm b3), lor_shiftl by (simpl; lia).
  rewrite (Z.lor_comm (b2 * 2 ^ 8 + b3)), lor_shiftl by (simpl; lia).
  rewrite (Z.lor_comm (b1 * 2 ^ 16 + (b2 * 2 ^ 8 + b3))), lor_shiftl
    by (simpl; lia).
  simpl. lia.
Qed.

Lemma load32_bswap (p : list byte) (i v : Z) :
  be32 p i = Some v ->
  exists w, load32 p i = Done w /\ bswap32 w = v /\ 0 <= v < 4294967296.
Proof.
  unfold be32, load32.
  destruct (peek p i) as [b0|] eqn:E0; [|discriminate].
  destruct (peek p (i + 1)) as [b1|] eqn:E1; [|discriminate].
  destruct (peek p (i + 2)) as [b2|] eqn:E2; [|discriminate].
  destruct (peek p (i + 3)) as [b3|] eqn:E3; [|discriminate].
  intros [= <-].
  pose proof (u8_range b0). pose proof (u8_range b1).
  pose proof (u8_range b2). pose proof (u8_range b3).
  rewrite (load8_peek _ _ _ E0), (load8_peek _ _ _ E1),
    (load8_peek _ _ _ E2), (load8_peek _ _ _ E3). cbn [bind].
  eexists. split; [reflexivity|]. split; [|lia].
  apply bswap32_bytes; assumption.
Qed.

Lemma be32_in_range (p : list byte) (i : Z) :
  0 <= i -> i + 4 <= Z.of_nat (length p) -> exists v, be32 p i = Some v.
Proof.
  intros H0 H4. unfold be32.
  destruct (peek_in_range p i) as [b0 ->]; [lia|].
  destruct (peek_in_range p (i + 1)) as [b1 ->]; [lia|].
  destruct (peek_in_range p (i + 2)) as [b2 ->]; [lia|].
  destruct (peek_in_range p (i + 3)) as [b3 ->]; [lia|].
  eexists. reflexivity.
Qed.

(* ------------------------------------------------------------------ *)
(** ** The resource-record decoder *)

(** C6 (as amended). On a packet of [len] bytes, [len] and the offset below
    2^63, [dnsasm_parse_rr] decodes the name with
    [dnsasm_decompress_name] and returns its error if it fails; it fails
    with [DNSASM_ERR_SHORT] unless 10 more bytes exist beyond the bytes the
    name consumed; it reads type, class, ttl and rdlength big-endian; it
    fails with [DNSASM_ERR_SHORT] unless rdlength further bytes exist; on
    success rdata is a view of rdlength bytes into the packet just past
    those 10 bytes, and the wire length of the record is the name bytes plus
    10 plus rdlength, reduced modulo 2^16: it is that sum whenever the
    packet has at most [DNS_MAX_PACKET_SIZE] bytes. *)
Theorem parse_rr_decodes (packet : list byte) (len offset : Z)
  (out : dnsasm_rr_t) :
  len <= Z.of_nat (length packet) ->
  len < 9223372036854775808 ->
  0 <= offset < 9223372036854775808 ->
  DNS_MAX_NAME_LEN + 1 <= Z.of_nat (length (rr_name out)) ->
  exists (r : dnsasm_result_t) (name : list byte) (nl : Z),
    dnsasm_decompress_name packet len offset (rr_name out) (rr_name_len out)
    = Done (r, name, nl)
    /\ let named :=
         {| rr_name := name; rr_name_len := nl; rr_rtype := rr_rtype out;
            rr_rclass := rr_rclass out; rr_ttl := rr_ttl out;
            rr_rdlength := rr_rdlength out; rr_rdata := rr_rdata out;
            rr_wire_len := rr_wire_len out |} in
       let pos := offset + res_offset r in
       (res_error r <> DNSASM_OK ->
        dnsasm_parse_rr packet len offset out = Done (r, named))
       /\ (res_error r = DNSASM_OK -> len < pos + 10 ->
           dnsasm_parse_rr packet len offset out
           = Done ({| res_error := DNSASM_ERR_SHORT; res_offset := 0 |},
                   named))
       /\ (res_error r = DNSASM_OK -> pos + 10 <= len ->
           exists ty cl ttl rdl : Z,
             be16 packet pos = Some ty
             /\ be16 packet (pos + 2) = Some cl
             /\ be32 packet (pos + 4) = Some ttl
             /\ be16 packet (pos + 8) = Some rdl
             /\ (len < pos + 10 + rdl ->
                 dnsasm_parse_rr packet len offset out
                 = Done ({| res_error := DNSASM_ERR_SHORT; res_offset := 0 |},
                         {| rr_name := name; rr_name_len := nl;
                            rr_rtype := ty; rr_rclass := cl; rr_ttl := ttl;
                            rr_rdlength := rdl; rr_rdata := rr_rdata out;
                            rr_wire_len := rr_wire_len out |}))
             /\ (pos + 10 + rdl <= len ->
                 let rr :=
                   {| rr_name := name; rr_name_len := nl;
                      rr_rtype := ty; rr_rclass := cl; rr_ttl := ttl;
                      rr_rdlength := rdl; rr_rdata := Some (pos + 10);
                      rr_wire_len := u16 (res_offset r + 10 + rdl) |} in
                 dnsasm_parse_rr packet len offset out
                 = Done ({| res_error := DNSASM_OK;
                            res_offset := u32 (pos + 10 + rdl) |}, rr)
                 /\ bytes_at packet (pos + 10) (rdata_view packet rr)
                 /\ Z.of_nat (length (rdata_view packet rr)) = rdl
                 /\ (len <= DNS_MAX_PACKET_SIZE ->
                     rr_wire_len rr = res_offset r + 10 + rdl
                     /\ u32 (pos + 10 + rdl) = pos + 10 + rdl))).
Proof.
  intros Hlen Hmax Hoff Hname.
  destruct (decompress_name_safe packet len offset (rr_name out)
              (rr_name_len out) Hlen Hmax (proj1 Hoff) Hname)
    as (r & name & nl & Hd & _ & Hcases).
  exists r, name, nl. split; [exact Hd|]. cbv zeta.
  unfold DNS_MAX_NAME_LEN, DNSASM_OK, DNS_MAX_PACKET_SIZE in *.
  destruct Hcases as [[He Hw]|[He Hw]].
  - (* the name was decoded *)
    split; [intros Hne; contradiction|].
    assert (Hpos : sz (offset + res_offset r) = offset + res_offset r)
      by (apply sz_small; lia).
    split.
    + intros _ Hshort. unfold dnsasm_parse_rr. rewrite Hd. cbn [bind].
      unfold DNSASM_OK. rewrite He. cbn [Z.eqb negb]. rewrite Hpos.
      rewrite sz_small by lia.
      destruct (Z.gtb_spec (offset + res_offset r + 10) len) as [_|Hbad];
        [|lia].
      reflexivity.
    + intros _ Hroom.
      set (pos := offset + res_offset r) in *.
      destruct (be16_in_range packet pos) as [ty Hty]; [lia|lia|].
      destruct (be16_in_range packet (pos + 2)) as [cl Hcl]; [lia|lia|].
      destruct (be32_in_range packet (pos + 4)) as [ttl Httl]; [lia|lia|].
      destruct (be16_in_range packet (pos + 8)) as [rdl Hrdl]; [lia|lia|].
      exists ty, cl, ttl, rdl.
      destruct (load16_bswap _ _ _ Hty) as (w0 & L0 & S0 & _).
      destruct (load16_bswap _ _ _ Hcl) as (w1 & L1 & S1 & _).
      destruct (load32_bswap _ _ _ Httl) as (w2 & L2 & S2 & _).
      destruct (load16_bswap _ _ _ Hrdl) as (w3 & L3 & S3 & Rrdl).
      repeat (split; [assumption|]).
      assert (Hrun : dnsasm_parse_rr packet len offset out
                = let out2 := {| rr_name := name; rr_name_len := nl;
                                 rr_rtype := ty; rr_rclass := cl;
                                 rr_ttl := ttl; rr_rdlength := rdl;
                                 rr_rdata := rr_rdata out;
                                 rr_wire_len := rr_wire_len out |} in
                  if pos + 10 + rdl >? len then
                    Done ({| res_error := DNSASM_ERR_SHORT;
                             res_offset := 0 |}, out2)
                  else
                    Done ({| res_error := DNSASM_OK;
                             res_offset := u32 (pos + 10 + rdl) |},
                          {| rr_name := name; rr_name_len := nl;
                             rr_rtype := ty; rr_rclass := cl;
                             rr_ttl := ttl; rr_rdlength := rdl;
                             rr_rdata := Some (pos + 10);
                             rr_wire_len := u16 (res_offset r + 10 + rdl) |})).
      { unfold dnsasm_parse_rr. rewrite Hd. cbn [bind].
        unfold DNSASM_OK. rewrite He. cbn [Z.eqb negb]. fold pos.
        rewrite Hpos. rewrite (sz_small (pos + 10)) by lia.
        destruct (Z.gtb_spec (pos + 10) len) as [Hbad|_]; [lia|].
        rewrite L0, L1, L2, L3. cbn [bind]. cbv zeta.
        rewrite S0, S1, S2, S3.
        rewrite (sz_small (pos + 10 + rdl)) by lia.
        rewrite (sz_small (res_offset r + 10)) by lia.
        rewrite (sz_small (res_offset r + 10 + rdl)) by lia.
        reflexivity. }
      rewrite Hrun. cbv zeta. split.
      * intros Hshort.
        destruct (Z.gtb_spec (pos + 10 + rdl) len) as [_|Hbad]; [|lia].
        reflexivity.
      * intros Hfits.
        destruct (Z.gtb_spec (pos + 10 + rdl) len) as [Hbad|_]; [lia|].
        split; [reflexivity|].
        unfold rdata_view. cbn [rr_rdata rr_rdlength rr_wire_len].
        assert (Hvl : length (take (Z.to_nat rdl)
                                (drop (Z.to_nat (pos + 10)) packet))
                      = Z.to_nat rdl)
          by (rewrite length_take, length_drop; lia).
        split; [|split].
        -- split; [lia|]. rewrite Hvl. reflexivity.
        -- rewrite Hvl. lia.
        -- intros Hsmall. split; [apply u16_small|apply u32_small]; lia.
  - (* the name was refused *)
    split.
    + intros _. unfold dnsasm_parse_rr. rewrite Hd. cbn [bind].
      destruct (Z.eqb_spec (res_error r) DNSASM_OK) as [Hbad|_];
        [unfold DNSASM_OK in Hbad; lia|].
      reflexivity.
    + split; intros Hok; lia.
Qed.

(** C6, as stated, fails.  The record of [big_rr_packet] is decoded with
    success; its name takes 1 byte and its rdata 65535 bytes, but the wire
    length recorded is 10, not 1 + 10 + 65535.  And at an offset 10 below
    2^64 the test for the 10 bytes wraps around: instead of failing with
    [DNSASM_ERR_SHORT] the call reads outside of the packet. *)
Lemma parse_rr_wire_len_wraps :
  (dnsasm_parse_rr big_rr_packet 65546 0 fresh_rr
   = Done ({| res_error := DNSASM_OK; res_offset := 65546 |},
           {| rr_name := x00 :: repeat xff 255; rr_name_len := 1;
              rr_rtype := 1; rr_rclass := 1; rr_ttl := 300;
              rr_rdlength := 65535; rr_rdata := Some 11;
              rr_wire_len := 10 |})
   /\ 10 <> 1 + 10 + 65535)
  /\ dnsasm_parse_rr sample_packet 49 18446744073709551606 fresh_rr
     = Fault OobRead.
Proof. split; [split; [vm_compute; reflexivity|lia]|vm_compute; reflexivity]. Qed.

(* ================================================================== *)
(** * The theorems on concrete packets *)

(** Closes a side condition on concrete data by computation. *)
Ltac by_compute :=
  first [ reflexivity
        | lia
        | vm_compute; first [ reflexivity | discriminate | lia
                            | intros; discriminate
                            | repeat split; intros; discriminate ] ].

(** Termination at the answer name of the sample packet, whose pointer at
    offset 33 leads back to offset 12; a pointer to itself is refused. *)
Lemma decompress_name_terminates_witness :
  dnsasm_decompress_name sample_packet 49 33 fresh_out 0 <> OutOfFuel
  /\ (forall s1 : dstate,
        loop_body sample_packet 49 (decompress_init 33 fresh_out)
        = Done (Continue s1) ->
        st_pos s1 < 33 /\ st_ptr_count s1 = 0 + 1 /\ st_ptr_count s1 <= 127)
  /\ loop_body sample_packet 49 (decompress_init 33 fresh_out)
     = Done (Continue
               {| st_out_pos := 0; st_wire_len := 2;
                  st_counting_wire := false; st_ptr_count := 1;
                  st_pos := 12; st_out := fresh_out |})
  /\ exists s',
       loop_body self_pointer_packet 2 (decompress_init 0 fresh_out)
       = Done (Return DNSASM_ERR_POINTER s').
Proof.
  destruct (decompress_name_terminates sample_packet 49 33 fresh_out 0)
    as (Hterm & _ & Hback & _).
  destruct (decompress_name_terminates self_pointer_packet 2 0 fresh_out 0)
    as (_ & _ & _ & Hrefuse).
  split; [exact Hterm|]. split; [|split; [reflexivity|]].
  - intros s1 Hs1.
    apply (Hback (decompress_init 33 fresh_out) s1 xc0); by_compute || exact Hs1.
  - apply (Hrefuse (decompress_init 0 fresh_out) xc0 x00); by_compute.
Defined.

(** The name [mail] followed by a pointer to [example.com]. *)
Lemma decompress_labels_then_pointer_witness :
  Forall valid_label [label_mail]
  /\ Forall valid_label [label_example; label_com]
  /\ bytes_at mail_packet 49 (enc_labels [label_mail] ++ [xc0; x10])
  /\ bytes_at mail_packet 16
       (enc_labels [label_example; label_com] ++ [x00])
  /\ dnsasm_decompress_name mail_packet 56 49 fresh_out 0
     = Done ({| res_error := DNSASM_OK; res_offset := 7 |},
             overwrite fresh_out 0
               (enc_labels [label_mail]
                ++ enc_labels [label_example; label_com] ++ [x00]),
             18).
Proof.
  assert (Hv1 : Forall valid_label [label_mail])
    by (repeat constructor; vm_compute; lia).
  assert (Hv2 : Forall valid_label [label_example; label_com])
    by (repeat constructor; vm_compute; lia).
  assert (Hb1 : bytes_at mail_packet 49
                  (enc_labels [label_mail] ++ [xc0; x10]))
    by (split; [lia|reflexivity]).
  assert (Hb2 : bytes_at mail_packet 16
                  (enc_labels [label_example; label_com] ++ [x00]))
    by (split; [lia|reflexivity]).
  split; [exact Hv1|]. split; [exact Hv2|].
  split; [exact Hb1|]. split; [exact Hb2|].
  apply (decompress_labels_then_pointer mail_packet 56 49 fresh_out 0
           [label_mail] [label_example; label_com] xc0 x10);
    try assumption; by_compute.
Defined.

(** One hop of a path on a concrete packet: the target is computed. *)
Ltac hop :=
  match goal with
  | |- wire_path ?pk ?len ?p _ (S _) _ _ =>
      let t := eval vm_compute in (pointer_target pk len p) in
      match t with
      | Some ?tv =>
          eapply (path_pointer pk len p tv);
          [vm_compute; reflexivity|reflexivity|]
      end
  end.

Lemma chain_path_127 : wire_path chain_packet 258 254 0 127 [] 2.
Proof. do 127 hop. apply path_here. Qed.

Lemma chain_path_128 : wire_path chain_packet 258 256 2 127 [] 2.
Proof. do 127 hop. apply path_here. Qed.

(** A chain of 127 pointers to the root name succeeds; one pointer more
    and the call fails with [DNSASM_ERR_LOOP]; a pointer to itself fails
    with [DNSASM_ERR_POINTER]. *)
Lemma pointer_chain_outcomes_witness :
  (wire_path chain_packet 258 254 0 127 [] 2
   /\ terminator_at chain_packet 258 0
   /\ dnsasm_decompress_name chain_packet 258 254 fresh_out 0
      = Done ({| res_error := DNSASM_OK; res_offset := 2 |},
              overwrite fresh_out 0 [x00], 1))
  /\ (wire_path chain_packet 258 256 2 127 [] 2
      /\ pointer_target chain_packet 258 2 = Some 0
      /\ dnsasm_decompress_name chain_packet 258 256 fresh_out 0
         = Done ({| res_error := DNSASM_ERR_LOOP; res_offset := 0 |},
                 overwrite fresh_out 0 [], 0))
  /\ (wire_path self_pointer_packet 2 0 0 0 [] 0
      /\ pointer_target self_pointer_packet 2 0 = Some 0
      /\ dnsasm_decompress_name self_pointer_packet 2 0 fresh_out 0
         = Done ({| res_error := DNSASM_ERR_POINTER; res_offset := 0 |},
                 overwrite fresh_out 0 [], 0)).
Proof.
  assert (Hterm : terminator_at chain_packet 258 0)
    by (split; by_compute).
  assert (Hself : wire_path self_pointer_packet 2 0 0 0 [] 0)
    by apply path_here.
  split; [|split].
  - split; [exact chain_path_127|]. split; [exact Hterm|].
    apply (proj1 (pointer_chain_outcomes chain_packet 258 254 fresh_out 0
                    0 127 [] 2 chain_path_127 ltac:(by_compute)
                    ltac:(by_compute) ltac:(by_compute)));
      [lia|exact Hterm].
  - split; [exact chain_path_128|]. split; [reflexivity|].
    apply (proj1 (proj2 (pointer_chain_outcomes chain_packet 258 256
                           fresh_out 0 2 127 [] 2 chain_path_128
                           ltac:(by_compute) ltac:(by_compute)
                           ltac:(by_compute))) eq_refl 0).
    reflexivity.
  - split; [exact Hself|]. split; [reflexivity|].
    apply (proj2 (proj2 (pointer_chain_outcomes self_pointer_packet 2 0
                           fresh_out 0 0 0 [] 0 Hself ltac:(by_compute)
                           ltac:(by_compute) ltac:(by_compute)))
             ltac:(lia) 0); by_compute.
Defined.

Lemma self_chain_path : wire_path self_chain_packet 256 254 0 127 [] 2.
Proof. do 127 hop. apply path_here. Qed.

(** C5, as stated, fails.  A pointer to itself that is reached through 127
    backward pointers: its target is not before its own position, yet the
    call fails with [DNSASM_ERR_LOOP] and not with [DNSASM_ERR_POINTER],
    because the number of pointers followed is tested before the
    target. *)
Lemma self_pointer_after_chain :
  wire_path self_chain_packet 256 254 0 127 [] 2
  /\ pointer_target self_chain_packet 256 0 = Some 0
  /\ dnsasm_decompress_name self_chain_packet 256 254 fresh_out 7
     = Done ({| res_error := DNSASM_ERR_LOOP; res_offset := 0 |},
             fresh_out, 7)
  /\ DNSASM_ERR_LOOP <> DNSASM_ERR_POINTER.
Proof.
  split; [exact self_chain_path|].
  split; [reflexivity|]. split; [vm_compute; reflexivity|].
  vm_compute; discriminate.
Qed.

(** The answer record of the sample packet: ttl 300, rdlength 4 and the
    rdata view [5d b8 d8 22], 16 bytes on the wire. *)
Lemma parse_rr_decodes_witness :
  49 <= Z.of_nat (length sample_packet)
  /\ DNS_MAX_NAME_LEN + 1 <= Z.of_nat (length (rr_name fresh_rr))
  /\ exists rr : dnsasm_rr_t,
       dnsasm_parse_rr sample_packet 49 33 fresh_rr
       = Done ({| res_error := DNSASM_OK; res_offset := 49 |}, rr)
       /\ rr_rtype rr = 1 /\ rr_rclass rr = 1 /\ rr_ttl rr = 300
       /\ rr_rdlength rr = 4
       /\ rr_rdata rr = Some 45
       /\ rdata_view sample_packet rr = [x5d; xb8; xd8; x22]
       /\ rr_wire_len rr = 2 + 10 + 4.
Proof.
  assert (H1 : 49 <= Z.of_nat (length sample_packet)) by by_compute.
  assert (H2 : DNS_MAX_NAME_LEN + 1 <= Z.of_nat (length (rr_name fresh_rr)))
    by by_compute.
  split; [exact H1|]. split; [exact H2|].
  destruct (parse_rr_decodes sample_packet 49 33 fresh_rr H1
              ltac:(lia) ltac:(lia) H2)
    as (r & name & nl & Hd & _ & _ & Hok).
  assert (Hc : dnsasm_decompress_name sample_packet 49 33 (rr_name fresh_rr)
                 (rr_name_len fresh_rr)
               = Done ({| res_error := DNSASM_OK; res_offset := 2 |},
                       overwrite fresh_out 0
                         (enc_labels [label_www; label_example; label_com]
                          ++ [x00]), 17))
    by (vm_compute; reflexivity).
  rewrite Hc in Hd. injection Hd as <- <- <-.
  destruct (Hok eq_refl ltac:(by_compute))
    as (ty & cl & ttl & rdl & Hty & Hcl & Httl & Hrdl & _ & Hfit).
  vm_compute in Hty, Hcl, Httl, Hrdl.
  injection Hty as <-. injection Hcl as <-. injection Httl as <-.
  injection Hrdl as <-.
  destruct (Hfit ltac:(by_compute)) as (Hrun & _ & _ & Hsmall).
  eexists. split; [exact Hrun|]. repeat split.
Defined.

(** The header of the sample packet is built and parsed back. *)
Lemma header_round_trip_witness :
  DNS_HEADER_SIZE <= Z.of_nat (length (repeat x00 12))
  /\ exists out' : list byte,
       dnsasm_build_header (repeat x00 12) 0x1234 0x0100 1 0 0 0
       = Done (12, out')
       /\ take 12 out' = take 12 sample_packet
       /\ dnsasm_parse_header out' 12 (header_of 0 0 0 0 0 0 0)
          = Done (DNSASM_OK, header_of 0x1234 0x0100 1 0 0 0 0)
       /\ hdr_rd (header_of 0x1234 0x0100 1 0 0 0 0) = 1
       /\ hdr_qr (header_of 0x1234 0x0100 1 0 0 0 0) = 0.
Proof.
  assert (H1 : DNS_HEADER_SIZE <= Z.of_nat (length (repeat x00 12)))
    by by_compute.
  split; [exact H1|].
  destruct (header_round_trip (repeat x00 12) 0x1234 0x0100 1 0 0 0
              (header_of 0 0 0 0 0 0 0)
              ltac:(lia) ltac:(lia) ltac:(lia) ltac:(lia) ltac:(lia)
              ltac:(lia) H1)
    as (out' & Hb & Ht & _ & _ & Hp & _).
  exists out'. split; [exact Hb|]. split; [exact Ht|].
  split; [exact Hp|]. split; reflexivity.
Defined.

(** ["WWW"] and ["www"] agree after folding; ["A"] and ["@@"] differ in
    length. *)
Lemma name_equal_case_insensitive_witness :
  (forall (i : nat) (x y : byte),
      name_WWW !! i = Some x -> name_www !! i = Some y ->
      fold_case x = fold_case y)
  /\ dnsasm_name_equal [x41] 1 [x40; x40] 2 = Done 1
  /\ dnsasm_name_equal [x03; x40] 2 [x03; x60] 2 = Done 1.
Proof.
  destruct (name_equal_case_insensitive name_WWW name_www
              ltac:(by_compute) ltac:(by_compute)) as (_ & Heq & _).
  destruct (name_equal_case_insensitive [x41] [x40; x40]
              ltac:(by_compute) ltac:(by_compute)) as (Hlen & _ & _).
  destruct (name_equal_case_insensitive [x03; x40] [x03; x60]
              ltac:(by_compute) ltac:(by_compute)) as (_ & Hdiff & _).
  split; [|split].
  - apply (proj1 (proj2 (Heq eq_refl))). reflexivity.
  - apply Hlen. discriminate.
  - apply (proj2 (proj2 (Hdiff eq_refl)) 1%nat x40 x60); by_compute.
Defined.

(** A name refused after its first label and a question cut after its
    name: the fields filled last are untouched. *)
Lemma failed_decode_untouched_fields_witness :
  (exists (r : dnsasm_result_t) (out' : list byte) (out_len' : Z),
      dnsasm_decompress_name [x01; x61; x40] 3 0 fresh_out 7
      = Done (r, out', out_len')
      /\ res_error r <> DNSASM_OK /\ out_len' = 7 /\ res_offset r = 0)
  /\ (exists (r : dnsasm_result_t) (q' : dnsasm_question_t),
         dnsasm_parse_question [x01; x61; x00; x00; x01] 5 0 fresh_question
         = Done (r, q')
         /\ res_error r <> DNSASM_OK
         /\ q_qtype q' = 7 /\ q_qclass q' = 7 /\ q_wire_len q' = 7
         /\ res_offset r = 0).
Proof.
  split.
  - eexists _, _, _. split; [vm_compute; reflexivity|].
    split; [by_compute|].
    apply (proj1 (failed_decode_untouched_fields [x01; x61; x40] 3 0)
             fresh_out 7
             {| res_error := DNSASM_ERR_NAME; res_offset := 0 |}
             ([x01; x61] ++ repeat xff 254) 7); by_compute.
  - eexists _, _. split; [vm_compute; reflexivity|].
    split; [by_compute|].
    apply (proj1 (proj2 (failed_decode_untouched_fields
                           [x01; x61; x00; x00; x01] 5 0))
             fresh_question
             {| res_error := DNSASM_ERR_SHORT; res_offset := 0 |}
             {| q_name := [x01; x61; x00] ++ repeat xff 253;
                q_name_len := 3; q_qtype := 7; q_qclass := 7;
                q_wire_len := 7 |}); by_compute.
Defined.

(** The longest name accepted fills the 256 bytes of the buffer and no
    more: a buffer of 300 bytes keeps its last 44 bytes. *)
Lemma decompress_writes_below_256_witness :
  DNS_MAX_NAME_LEN + 1 <= Z.of_nat (length (repeat xff 300))
  /\ dnsasm_decompress_name long_name_packet 256 0 (repeat xff 300) 0
     <> Fault OobWrite
  /\ (forall i : nat,
         256 <= Z.of_nat i ->
         (long_name_packet ++ repeat xff 44) !! i = repeat xff 300 !! i)
  /\ 0 <= 256 <= 256.
Proof.
  assert (H1 : DNS_MAX_NAME_LEN + 1 <= Z.of_nat (length (repeat xff 300)))
    by by_compute.
  split; [exact H1|].
  destruct (decompress_writes_below_256 long_name_packet 256 0
              (repeat xff 300) 0 H1) as (_ & Hnf & Hdone).
  split; [exact Hnf|].
  destruct (Hdone {| res_error := DNSASM_OK; res_offset := 256 |}
              (long_name_packet ++ repeat xff 44) 256
              ltac:(vm_compute; reflexivity)) as (_ & Hhigh & Hlen).
  split; [exact Hhigh|]. exact (Hlen eq_refl).
Defined.

(* ================================================================== *)
(** * Further properties *)

(* ------------------------------------------------------------------ *)
(** ** Names without pointers *)

(** The decompression of labels followed by the terminator, as the later
    compositions use it. *)
Lemma decompress_labels_plain (packet : list byte) (len offset : Z)
  (out : list byte) (out_len : Z) (ls : list (list byte)) :
  len < 18446744073709551616 ->
  DNS_MAX_NAME_LEN + 1 <= Z.of_nat (length out) ->
  Forall valid_label ls ->
  bytes_at packet offset (enc_labels ls ++ [x00]) ->
  offset + Z.of_nat (length (enc_labels ls ++ [x00])) <= len ->
  Z.of_nat (length (enc_labels ls)) <= DNS_MAX_NAME_LEN ->
  dnsasm_decompress_name packet len offset out out_len
  = Done ({| res_error := DNSASM_OK;
             res_offset := Z.of_nat (length (enc_labels ls ++ [x00])) |},
          overwrite out 0 (enc_labels ls ++ [x00]),
          Z.of_nat (length (enc_labels ls ++ [x00]))).
Proof.
  intros Hmax Hout Hv Hb Hlen Hfit.
  rewrite length_app in *. cbn [length] in *.
  apply bytes_at_app in Hb. destruct Hb as [Hls Hterm].
  apply bytes_at_cons in Hterm. destruct Hterm as [Hterm _].
  assert (Hpath : wire_path packet len offset
                    (offset + Z.of_nat (length (enc_labels ls))) 0
                    (enc_labels ls ++ [])
                    (Z.of_nat (length (enc_labels ls)) + 0)).
  { apply labels_path; [exact Hv|exact Hls|lia|apply path_here]. }
  rewrite app_nil_r, Z.add_0_r in Hpath.
  rewrite (decompress_path_ok _ _ _ _ _ _ _ _ _ Hpath);
    unfold terminator_at; try assumption; try lia.
  - rewrite Nat2Z.inj_add. reflexivity.
  - split; [exact Hterm|lia].
Qed.

(** X1. A name without compression pointers (labels of 1 to 63 bytes, at
    most 255 bytes of labels, then the terminator, all inside the packet)
    decompresses to itself: the output is the wire encoding, and both the
    length returned and the bytes consumed are its length. *)
Theorem decompress_plain_name (packet : list byte) (len offset : Z)
  (out : list byte) (out_len : Z) (ls : list (list byte)) :
  len < 18446744073709551616 ->
  DNS_MAX_NAME_LEN + 1 <= Z.of_nat (length out) ->
  Forall valid_label ls ->
  bytes_at packet offset (enc_labels ls ++ [x00]) ->
  offset + Z.of_nat (length (enc_labels ls ++ [x00])) <= len ->
  Z.of_nat (length (enc_labels ls)) <= DNS_MAX_NAME_LEN ->
  dnsasm_decompress_name packet len offset out out_len
  = Done ({| res_error := DNSASM_OK;
             res_offset := Z.of_nat (length (enc_labels ls ++ [x00])) |},
          overwrite out 0 (enc_labels ls ++ [x00]),
          Z.of_nat (length (enc_labels ls ++ [x00]))).
Proof.
  intros Hmax Hout Hv Hb Hlen Hfit.
  rewrite length_app in *. cbn [length] in *.
  apply bytes_at_app in Hb. destruct Hb as [Hls Hterm].
  apply bytes_at_cons in Hterm. destruct Hterm as [Hterm _].
  assert (Hpath : wire_path packet len offset
                    (offset + Z.of_nat (length (enc_labels ls))) 0
                    (enc_labels ls ++ [])
                    (Z.of_nat (length (enc_labels ls)) + 0)).
  { apply labels_path; [exact Hv|exact Hls|lia|apply path_here]. }
  rewrite app_nil_r, Z.add_0_r in Hpath.
  rewrite (decompress_path_ok _ _ _ _ _ _ _ _ _ Hpath);
    unfold terminator_at; try assumption; try lia.
  - rewrite Nat2Z.inj_add. reflexivity.
  - split; [exact Hterm|lia].
Qed.

(* ------------------------------------------------------------------ *)
(** ** The errors of the decompression *)

(** A length byte between 64 and 191 is refused. *)
Lemma step_bad_length (packet : list byte) (len : Z) (s : dstate) (b : byte) :
  peek packet (st_pos s) = Some b -> 64 <= u8 b < 192 ->
  loop_body packet len s = Done (Return DNSASM_ERR_NAME s).
Proof.
  intros Hpk Hb. unfold loop_body. rewrite (load8_peek _ _ _ Hpk).
  cbn [bind]. cbv beta zeta. rewrite top_bits_set.
  destruct (Z.leb_spec 192 (u8 b)) as [Hbad|_]; [lia|].
  destruct (Z.eqb_spec (u8 b) 0) as [Hbad|_]; [lia|].
  destruct (Z.gtb_spec (u8 b) 63) as [_|Hbad]; [|lia].
  reflexivity.
Qed.

(** A label that does not end inside the packet is refused. *)
Lemma step_label_short (packet : list byte) (len : Z) (s : dstate) (b : byte) :
  peek packet (st_pos s) = Some b -> 1 <= u8 b <= 63 ->
  st_pos s < 9223372036854775808 ->
  len < st_pos s + 1 + u8 b ->
  loop_body packet len s = Done (Return DNSASM_ERR_SHORT s).
Proof.
  intros Hpk Hb Hmax Hshort. pose proof (peek_Some _ _ _ Hpk) as Hp.
  unfold loop_body. rewrite (load8_peek _ _ _ Hpk).
  cbn [bind]. cbv beta zeta. rewrite top_bits_set.
  destruct (Z.leb_spec 192 (u8 b)) as [Hbad|_]; [lia|].
  destruct (Z.eqb_spec (u8 b) 0) as [Hbad|_]; [lia|].
  destruct (Z.gtb_spec (u8 b) 63) as [Hbad|_]; [lia|].
  rewrite (sz_small (st_pos s + 1 + u8 b)) by lia.
  destruct (Z.gtb_spec (st_pos s + 1 + u8 b) len) as [_|Hbad]; [|lia].
  reflexivity.
Qed.

(** A pointer whose second byte is not inside the packet is refused. *)
Lemma step_pointer_short (packet : list byte) (len : Z) (s : dstate)
  (b : byte) :
  peek packet (st_pos s) = Some b -> 192 <= u8 b ->
  st_pos s < 9223372036854775808 ->
  len <= st_pos s + 1 ->
  loop_body packet len s = Done (Return DNSASM_ERR_SHORT s).
Proof.
  intros Hpk Hb Hmax Hshort. pose proof (peek_Some _ _ _ Hpk) as Hp.
  unfold loop_body. rewrite (load8_peek _ _ _ Hpk).
  cbn [bind]. cbv beta zeta. rewrite top_bits_set.
  destruct (Z.leb_spec 192 (u8 b)) as [_|Hbad]; [|lia].
  rewrite (sz_small (st_pos s + 1)) by lia.
  destruct (Z.geb_spec (st_pos s + 1) len) as [_|Hbad]; [|lia].
  reflexivity.
Qed.

(** A label that does not fit in the 255 bytes of the output is refused. *)
Lemma step_overflow (packet : list byte) (len : Z) (s : dstate) (b : byte) :
  peek packet (st_pos s) = Some b -> 1 <= u8 b <= 63 ->
  st_pos s < 9223372036854775808 ->
  st_pos s + 1 + u8 b <= len ->
  0 <= st_out_pos s <= DNS_MAX_NAME_LEN ->
  DNS_MAX_NAME_LEN < st_out_pos s + 1 + u8 b ->
  loop_body packet len s = Done (Return DNSASM_ERR_OVERFLOW s).
Proof.
  intros Hpk Hb Hmax Hin Hk Hover. pose proof (peek_Some _ _ _ Hpk) as Hp.
  unfold DNS_MAX_NAME_LEN in *.
  unfold loop_body. rewrite (load8_peek _ _ _ Hpk).
  cbn [bind]. cbv beta zeta. rewrite top_bits_set.
  destruct (Z.leb_spec 192 (u8 b)) as [Hbad|_]; [lia|].
  destruct (Z.eqb_spec (u8 b) 0) as [Hbad|_]; [lia|].
  destruct (Z.gtb_spec (u8 b) 63) as [Hbad|_]; [lia|].
  rewrite (sz_small (st_pos s + 1 + u8 b)) by lia.
  destruct (Z.gtb_spec (st_pos s + 1 + u8 b) len) as [Hbad|_]; [lia|].
  rewrite (sz_small (st_out_pos s + 1 + u8 b)) by lia.
  unfold DNS_MAX_NAME_LEN.
  destruct (Z.gtb_spec (st_out_pos s + 1 + u8 b) 255) as [_|Hbad]; [|lia].
  reflexivity.
Qed.

(** After a path, a pass that refuses what stands at the end of the path
    ends the call with the error of that pass; the labels of the path stay
    in the output buffer. *)
Lemma decompress_path_fails (packet : list byte) (len offset : Z)
  (out : list byte) (out_len : Z) (q : Z) (hops : nat) (bs : list byte)
  (c err : Z) :
  wire_path packet len offset q hops bs c ->
  len < 18446744073709551616 ->
  Z.of_nat (length bs) <= DNS_MAX_NAME_LEN ->
  DNS_MAX_NAME_LEN < Z.of_nat (length out) ->
  (hops <= 127)%nat ->
  q < len ->
  loop_body packet len (after_path (decompress_init offset out) q hops bs c)
  = Done (Return err (after_path (decompress_init offset out) q hops bs c)) ->
  dnsasm_decompress_name packet len offset out out_len
  = Done ({| res_error := err; res_offset := 0 |},
          overwrite out 0 bs, out_len).
Proof.
  intros Hpath Hmax Hbs Hout Hhops Hq Hstep.
  set (s := after_path (decompress_init offset out) q hops bs c) in *.
  assert (Hlast : decompress_loop 1 packet len s = Done (Failed err s)).
  { cbn [decompress_loop].
    replace (st_pos s <? len) with true
      by (symmetry; apply Z.ltb_lt; exact Hq).
    rewrite Hstep. reflexivity. }
  unfold dnsasm_decompress_name, decompress_name_fuel.
  rewrite (decompress_after_path _ _ _ _ _ _ _ _ _ Hpath Hmax Hbs Hout Hhops
             Hlast).
  reflexivity.
Qed.

(** X2. When the decoding of a name, after any labels and at most 127
    backward pointers, comes to a length byte between 64 and 191 (not a
    pointer, not a label length), the call fails with [DNSASM_ERR_NAME];
    the labels decoded before stay in the output buffer and the length
    behind [out_len] is not written. *)
Theorem decompress_invalid_length (packet : list byte) (len offset : Z)
  (out : list byte) (out_len : Z) (q : Z) (hops : nat) (bs : list byte)
  (c : Z) (b : byte) :
  wire_path packet len offset q hops bs c ->
  len < 18446744073709551616 ->
  Z.of_nat (length bs) <= DNS_MAX_NAME_LEN ->
  DNS_MAX_NAME_LEN + 1 <= Z.of_nat (length out) ->
  (hops <= 127)%nat ->
  q < len ->
  peek packet q = Some b ->
  64 <= u8 b < 192 ->
  dnsasm_decompress_name packet len offset out out_len
  = Done ({| res_error := DNSASM_ERR_NAME; res_offset := 0 |},
          overwrite out 0 bs, out_len).
Proof.
  intros Hpath Hmax Hbs Hout Hhops Hq Hpk Hb.
  apply (decompress_path_fails _ _ _ _ _ q hops bs c); try assumption;
    [lia|].
  apply (step_bad_length _ _ _ b); assumption.
Qed.

(** X3. When the decoding of a name, after any labels and at most 127
    backward pointers, comes to a label that does not end inside the [len]
    bytes of the packet, or to a pointer whose second byte is not inside
    them, the call fails with [DNSASM_ERR_SHORT]. *)
Theorem decompress_cut_short (packet : list byte) (len offset : Z)
  (out : list byte) (out_len : Z) (q : Z) (hops : nat) (bs : list byte)
  (c : Z) (b : byte) :
  wire_path packet len offset q hops bs c ->
  len < 9223372036854775808 ->
  Z.of_nat (length bs) <= DNS_MAX_NAME_LEN ->
  DNS_MAX_NAME_LEN + 1 <= Z.of_nat (length out) ->
  (hops <= 127)%nat ->
  q < len ->
  peek packet q = Some b ->
  (1 <= u8 b <= 63 /\ len < q + 1 + u8 b) \/ (192 <= u8 b /\ len <= q + 1) ->
  dnsasm_decompress_name packet len offset out out_len
  = Done ({| res_error := DNSASM_ERR_SHORT; res_offset := 0 |},
          overwrite out 0 bs, out_len).
Proof.
  intros Hpath Hmax Hbs Hout Hhops Hq Hpk Hcase.
  apply (decompress_path_fails _ _ _ _ _ q hops bs c); try assumption;
    try lia.
  destruct Hcase as [[Hb Hshort]|[Hb Hshort]].
  - apply (step_label_short _ _ _ b); cbn [after_path st_pos];
      try assumption; lia.
  - apply (step_pointer_short _ _ _ b); cbn [after_path st_pos];
      try assumption; lia.
Qed.

(** X4. When the decoding of a name, after labels that take [n] bytes of
    output and at most 127 backward pointers, comes to a label of [l] bytes
    inside the packet with [n + 1 + l > 255], the call fails with
    [DNSASM_ERR_OVERFLOW]. *)
Theorem decompress_overflow (packet : list byte) (len offset : Z)
  (out : list byte) (out_len : Z) (q : Z) (hops : nat) (bs : list byte)
  (c : Z) (b : byte) :
  wire_path packet len offset q hops bs c ->
  len < 9223372036854775808 ->
  Z.of_nat (length bs) <= DNS_MAX_NAME_LEN ->
  DNS_MAX_NAME_LEN + 1 <= Z.of_nat (length out) ->
  (hops <= 127)%nat ->
  peek packet q = Some b ->
  1 <= u8 b <= 63 ->
  q + 1 + u8 b <= len ->
  DNS_MAX_NAME_LEN < Z.of_nat (length bs) + 1 + u8 b ->
  dnsasm_decompress_name packet len offset out out_len
  = Done ({| res_error := DNSASM_ERR_OVERFLOW; res_offset := 0 |},
          overwrite out 0 bs, out_len).
Proof.
  intros Hpath Hmax Hbs Hout Hhops Hpk Hb Hin Hover.
  apply (decompress_path_fails _ _ _ _ _ q hops bs c); try assumption;
    try lia.
  apply (step_overflow _ _ _ b);
    cbn [after_path decompress_init st_pos st_out_pos];
    try assumption; lia.
Qed.

(* ------------------------------------------------------------------ *)
(** ** Memory safety and the bytes consumed *)

Lemma loop_body_errors (packet : list byte) (len : Z) (s s' : dstate)
  (err : Z) :
  loop_body packet len s = Done (Return err s') -> -5 <= err <= -1.
Proof.
  intros H. body_inv H; injection H as <- _;
    unfold DNSASM_ERR_SHORT, DNSASM_ERR_LOOP, DNSASM_ERR_POINTER,
      DNSASM_ERR_NAME, DNSASM_ERR_OVERFLOW; lia.
Qed.

Lemma decompress_loop_errors (packet : list byte) (len : Z) :
  forall (fuel : nat) (s s' : dstate) (err : Z),
    decompress_loop fuel packet len s = Done (Failed err s') ->
    -5 <= err <= -1.
Proof.
  induction fuel as [|fuel IH]; intros s s' err H; [discriminate H|].
  cbn [decompress_loop] in H.
  destruct (st_pos s <? len); [|discriminate H].
  destruct (loop_body packet len s) as [[s1|s1|e1 s1]|f|] eqn:E;
    cbn [bind] in H; try discriminate H.
  - exact (IH _ _ _ H).
  - injection H as <- _. exact (loop_body_errors _ _ _ _ _ E).
Qed.

(** One pass keeps what holds of the cursor. *)
Lemma loop_body_pos (packet : list byte) (len offset : Z) (s : dstate) :
  dinv s -> wire_inv s -> pos_inv offset len s ->
  0 <= offset -> len < 9223372036854775808 -> st_pos s < len ->
  match loop_body packet len s with
  | Done (Continue s') => pos_inv offset len s'
  | Done (Break s') =>
      1 <= st_wire_len s' /\ offset + st_wire_len s' <= len
  | _ => True
  end.
Proof.
  intros [Hk Hpc] [Hw Hwc] (Hp0 & Hcnt & Hfrz) Hoff Hmax Hin.
  unfold DNS_MAX_NAME_LEN in *.
  destruct (loop_body packet len s) as [[s'|s'|err s']|f|] eqn:H;
    try exact I; body_inv H; injection H as <-; unfold pos_inv;
    cbn [st_out_pos st_wire_len st_counting_wire st_ptr_count st_pos st_out];
    zify_tests;
    repeat match goal with
    | E : load8 _ _ = Done ?b |- _ =>
        pose proof (u8_range b); generalize dependent E
    end; intros;
    try rewrite (sz_small (st_pos s + 1)) in * by lia.
  - (* a pointer is followed *)
    split; [apply Z.mod_pos_bound; lia|].
    split; [discriminate|]. intros _.
    destruct (st_counting_wire s) eqn:Hc.
    + destruct (Hcnt eq_refl) as [Hpos Hle].
      rewrite sz_small by lia. lia.
    + destruct (Hfrz eq_refl). lia.
  - (* a label is copied *)
    match goal with
    | T : sz (st_pos s + 1 + ?l) <= len |- _ =>
        rewrite (sz_small (st_pos s + 1 + l)) in T by lia;
        rewrite (sz_small (st_pos s + (1 + l))) by lia
    end.
    split; [lia|]. split.
    + intros Hc. rewrite Hc. destruct (Hcnt Hc) as [Hpos Hle].
      rewrite sz_small by lia. lia.
    + intros Hc. rewrite Hc. apply Hfrz. exact Hc.
  - (* the terminator *)
    destruct (st_counting_wire s) eqn:Hc.
    + destruct (Hcnt eq_refl) as [Hpos Hle]. rewrite sz_small by lia. lia.
    + destruct (Hfrz eq_refl). lia.
Qed.

(** The loop ends with the bytes counted inside the packet. *)
Lemma decompress_loop_pos (packet : list byte) (len offset : Z)
  (o0 : list byte) :
  DNS_MAX_NAME_LEN < Z.of_nat (length o0) ->
  0 <= offset -> len < 9223372036854775808 ->
  forall (fuel : nat) (s : dstate),
    step_inv o0 s -> pos_inv offset len s ->
    match decompress_loop fuel packet len s with
    | Done (Finished s') =>
        offset + st_wire_len s' <= len
        /\ (offset < len -> 1 <= st_wire_len s')
    | _ => True
    end.
Proof.
  intros Ho0 Hoff Hmax. induction fuel as [|fuel IH]; intros s Hinv Hpos;
    [exact I|].
  cbn [decompress_loop].
  destruct (Z.ltb_spec (st_pos s) len) as [Hin|Hout].
  - pose proof (loop_body_preserves packet len o0 s Hinv Ho0) as Hpre.
    destruct Hinv as (Hd & Hw & Ho).
    pose proof (loop_body_pos packet len offset s Hd Hw Hpos Hoff Hmax Hin)
      as Hstep.
    destruct (loop_body packet len s) as [[s'|s'|err s']|f|]; cbn [bind];
      try exact I.
    + apply IH; assumption.
    + split; [apply Hstep|]. intros _. apply Hstep.
  - destruct Hinv as (_ & [Hw _] & _). destruct Hpos as (_ & Hcnt & Hfrz).
    destruct (st_counting_wire s) eqn:Hc.
    + destruct (Hcnt eq_refl). split; lia.
    + destruct (Hfrz eq_refl). split; lia.
Qed.

(** What a call returns on a packet that has the [len] bytes it is said to
    have. *)
Lemma decompress_name_bounded (packet : list byte) (len offset : Z)
  (out : list byte) (out_len : Z) :
  len <= Z.of_nat (length packet) ->
  len < 9223372036854775808 ->
  0 <= offset ->
  DNS_MAX_NAME_LEN + 1 <= Z.of_nat (length out) ->
  exists (r : dnsasm_result_t) (name : list byte) (nl : Z),
    dnsasm_decompress_name packet len offset out out_len = Done (r, name, nl)
    /\ length name = length out
    /\ (res_error r = DNSASM_OK /\ 0 <= res_offset r <= 257
        /\ 0 <= nl <= 256
        /\ (offset <= len ->
            offset + res_offset r <= len
            /\ (offset < len -> 1 <= res_offset r))
        \/ -5 <= res_error r <= -1 /\ res_offset r = 0 /\ nl = out_len).
Proof.
  intros Hlen Hmax Hoff Hout.
  destruct (decompress_name_safe packet len offset out out_len Hlen Hmax
              Hoff Hout) as (r & name & nl & Hd & Hl & _).
  exists r, name, nl. split; [exact Hd|]. split; [exact Hl|].
  assert (Ho0 : DNS_MAX_NAME_LEN < Z.of_nat (length out)) by lia.
  pose proof (decompress_loop_preserves packet len out Ho0 decompress_fuel
                (decompress_init offset out) (step_inv_init offset out))
    as Hloop.
  assert (Hpos : offset <= len ->
                 match decompress_loop decompress_fuel packet len
                         (decompress_init offset out) with
                 | Done (Finished s') =>
                     offset + st_wire_len s' <= len
                     /\ (offset < len -> 1 <= st_wire_len s')
                 | _ => True
                 end).
  { intros Hin.
    apply (decompress_loop_pos packet len offset out Ho0 Hoff Hmax);
      [apply step_inv_init|].
    unfold pos_inv. cbn [decompress_init st_pos st_counting_wire st_wire_len].
    split; [lia|]. split; [intros _; lia|discriminate]. }
  unfold dnsasm_decompress_name, decompress_name_fuel in Hd.
  destruct (decompress_loop decompress_fuel packet len
              (decompress_init offset out)) as [[s|err s]|f|] eqn:E;
    cbn [bind] in Hd; try discriminate Hd; injection Hd as <- <- <-.
  - left. destruct Hloop as (Hk & Hw & _). unfold DNS_MAX_NAME_LEN in *.
    cbn [res_error res_offset]. rewrite u32_small, u16_small by lia.
    split; [reflexivity|]. split; [lia|]. split; [lia|exact Hpos].
  - right. cbn [res_error res_offset].
    pose proof (decompress_loop_errors _ _ _ _ _ _ E).
    repeat split; lia.
Qed.

(** X5. On a packet that has the [len] bytes it is said to have ([len]
    below 2^63) and with the 256 bytes of output the caller must supply,
    [dnsasm_decompress_name] never reads or writes outside of its buffers
    and comes to an end, at any offset: it returns either success, with at
    most 257 bytes consumed and a length of at most 256, or one of the five
    error codes -1 to -5 with offset 0 and the length behind [out_len] not
    written. *)
Theorem decompress_memory_safe (packet : list byte) (len offset : Z)
  (out : list byte) (out_len : Z) :
  len <= Z.of_nat (length packet) ->
  len < 9223372036854775808 ->
  0 <= offset ->
  DNS_MAX_NAME_LEN + 1 <= Z.of_nat (length out) ->
  exists (r : dnsasm_result_t) (name : list byte) (nl : Z),
    dnsasm_decompress_name packet len offset out out_len = Done (r, name, nl)
    /\ length name = length out
    /\ (res_error r = DNSASM_OK /\ 0 <= res_offset r <= 257
        /\ 0 <= nl <= 256
        \/ -5 <= res_error r <= -1 /\ res_offset r = 0 /\ nl = out_len).
Proof.
  intros Hlen Hmax Hoff Hout.
  destruct (decompress_name_bounded packet len offset out out_len Hlen Hmax
              Hoff Hout) as (r & name & nl & Hd & Hl & Hcases).
  exists r, name, nl. split; [exact Hd|]. split; [exact Hl|].
  destruct Hcases as [(He & Ho & Hn & _)|Herr]; [left|right; exact Herr].
  repeat split; assumption || lia.
Qed.

(** X6. Under the same conditions and with the offset inside the packet, a
    successful call consumes bytes of the packet only: the offset plus the
    bytes consumed is at most [len]; and it consumes at least one byte
    when the offset is before the end. *)
Theorem decompress_consumed_in_packet (packet : list byte) (len offset : Z)
  (out : list byte) (out_len : Z) :
  len <= Z.of_nat (length packet) ->
  len < 9223372036854775808 ->
  0 <= offset <= len ->
  DNS_MAX_NAME_LEN + 1 <= Z.of_nat (length out) ->
  exists (r : dnsasm_result_t) (name : list byte) (nl : Z),
    dnsasm_decompress_name packet len offset out out_len = Done (r, name, nl)
    /\ (res_error r = DNSASM_OK ->
        offset + res_offset r <= len
        /\ (offset < len -> 1 <= res_offset r)).
Proof.
  intros Hlen Hmax Hoff Hout.
  destruct (decompress_name_bounded packet len offset out out_len Hlen Hmax
              (proj1 Hoff) Hout) as (r & name & nl & Hd & _ & Hcases).
  exists r, name, nl. split; [exact Hd|]. intros Hok.
  destruct Hcases as [(_ & _ & _ & Hin)|(Herr & _)].
  - apply Hin. lia.
  - unfold DNSASM_OK in Hok. lia.
Qed.

(* ------------------------------------------------------------------ *)
(** ** The decoders read the first [len] bytes only *)

Lemma peek_agree (p1 p2 : list byte) (len i : Z) :
  take (Z.to_nat len) p1 = take (Z.to_nat len) p2 ->
  0 <= i < len -> peek p1 i = peek p2 i.
Proof.
  intros Ha Hi.
  assert (Hl : forall p : list byte,
             peek p i = take (Z.to_nat len) p !! Z.to_nat i).
  { intros p. rewrite peek_lookup by lia. symmetry.
    apply lookup_take_lt. lia. }
  rewrite (Hl p1), (Hl p2), Ha. reflexivity.
Qed.

Lemma load8_agree (p1 p2 : list byte) (len i : Z) :
  take (Z.to_nat len) p1 = take (Z.to_nat len) p2 ->
  0 <= i < len -> load8 p1 i = load8 p2 i.
Proof.
  intros Ha Hi. unfold load8. rewrite (peek_agree p1 p2 len i Ha Hi).
  reflexivity.
Qed.

Lemma load16_agree (p1 p2 : list byte) (len i : Z) :
  take (Z.to_nat len) p1 = take (Z.to_nat len) p2 ->
  0 <= i -> i + 2 <= len -> load16 p1 i = load16 p2 i.
Proof.
  intros Ha H0 H2. unfold load16.
  rewrite (load8_agree p1 p2 len i Ha), (load8_agree p1 p2 len (i + 1) Ha)
    by lia.
  reflexivity.
Qed.

Lemma load32_agree (p1 p2 : list byte) (len i : Z) :
  take (Z.to_nat len) p1 = take (Z.to_nat len) p2 ->
  0 <= i -> i + 4 <= len -> load32 p1 i = load32 p2 i.
Proof.
  intros Ha H0 H4. unfold load32.
  rewrite (load8_agree p1 p2 len i Ha), (load8_agree p1 p2 len (i + 1) Ha),
    (load8_agree p1 p2 len (i + 2) Ha), (load8_agree p1 p2 len (i + 3) Ha)
    by lia.
  reflexivity.
Qed.

Lemma memcpy_agree (dst p1 p2 : list byte) (di si n len : Z) :
  take (Z.to_nat len) p1 = take (Z.to_nat len) p2 ->
  0 <= si -> 0 <= n -> si + n <= len ->
  memcpy dst di p1 si n = memcpy dst di p2 si n.
Proof.
  intros Ha Hs Hn Hin.
  assert (Hlen : length (take (Z.to_nat len) p1)
                 = length (take (Z.to_nat len) p2)) by (rewrite Ha; reflexivity).
  rewrite !length_take in Hlen.
  assert (Hb : in_bounds p1 si n = in_bounds p2 si n).
  { unfold in_bounds. f_equal.
    destruct (Z.leb_spec (si + n) (Z.of_nat (length p1)));
      destruct (Z.leb_spec (si + n) (Z.of_nat (length p2)));
      try reflexivity; lia. }
  assert (Hc : forall p : list byte,
             take (Z.to_nat n) (drop (Z.to_nat si) p)
             = drop (Z.to_nat si)
                 (take (Z.to_nat si + Z.to_nat n)
                    (take (Z.to_nat len) p))).
  { intros p. rewrite take_drop_commute, take_take. do 2 f_equal. lia. }
  unfold memcpy. rewrite Hb, (Hc p1), (Hc p2), Ha. reflexivity.
Qed.

Lemma loop_body_agree (p1 p2 : list byte) (len : Z) (s : dstate) :
  take (Z.to_nat len) p1 = take (Z.to_nat len) p2 ->
  len < 9223372036854775808 ->
  0 <= st_pos s < len ->
  loop_body p1 len s = loop_body p2 len s.
Proof.
  intros Ha Hmax Hpos. unfold loop_body.
  rewrite (load8_agree p1 p2 len (st_pos s) Ha Hpos).
  destruct (load8 p2 (st_pos s)) as [b|f|]; cbn [bind]; try reflexivity.
  cbv zeta. pose proof (u8_range b) as Hb.
  destruct (Z.land (u8 b) 192 =? 192).
  - rewrite (sz_small (st_pos s + 1)) by lia.
    destruct (Z.geb_spec (st_pos s + 1) len) as [_|Hin]; [reflexivity|].
    rewrite (load8_agree p1 p2 len (st_pos s + 1) Ha) by lia. reflexivity.
  - destruct (u8 b =? 0); [reflexivity|].
    destruct (u8 b >? 63); [reflexivity|].
    rewrite (sz_small (st_pos s + 1 + u8 b)) by lia.
    destruct (Z.gtb_spec (st_pos s + 1 + u8 b) len) as [_|Hin];
      [reflexivity|].
    destruct (sz (st_out_pos s + 1 + u8 b) >? DNS_MAX_NAME_LEN);
      [reflexivity|].
    destruct (store8 (st_out s) (st_out_pos s) b) as [o1|f|]; cbn [bind];
      try reflexivity.
    rewrite (memcpy_agree o1 p1 p2 _ (st_pos s + 1) (u8 b) len Ha) by lia.
    reflexivity.
Qed.

Lemma loop_body_cursor (packet : list byte) (len : Z) (s s' : dstate) :
  loop_body packet len s = Done (Continue s') -> 0 <= st_pos s'.
Proof.
  intros H. body_inv H; injection H as <-; cbn [st_pos];
    apply Z.mod_pos_bound; lia.
Qed.

Lemma decompress_loop_agree (p1 p2 : list byte) (len : Z) :
  take (Z.to_nat len) p1 = take (Z.to_nat len) p2 ->
  len < 9223372036854775808 ->
  forall (fuel : nat) (s : dstate),
    0 <= st_pos s ->
    decompress_loop fuel p1 len s = decompress_loop fuel p2 len s.
Proof.
  intros Ha Hmax. induction fuel as [|fuel IH]; intros s Hpos;
    [reflexivity|].
  cbn [decompress_loop].
  destruct (Z.ltb_spec (st_pos s) len) as [Hin|_]; [|reflexivity].
  rewrite (loop_body_agree p1 p2 len s Ha Hmax (conj Hpos Hin)).
  destruct (loop_body p2 len s) as [[s'|s'|err s']|f|] eqn:E; cbn [bind];
    try reflexivity.
  apply IH. exact (loop_body_cursor _ _ _ _ E).
Qed.

Lemma decompress_name_agree (p1 p2 : list byte) (len offset : Z)
  (out : list byte) (out_len : Z) :
  take (Z.to_nat len) p1 = take (Z.to_nat len) p2 ->
  len < 9223372036854775808 -> 0 <= offset ->
  dnsasm_decompress_name p1 len offset out out_len
  = dnsasm_decompress_name p2 len offset out out_len.
Proof.
  intros Ha Hmax Hoff. unfold dnsasm_decompress_name, decompress_name_fuel.
  rewrite (decompress_loop_agree p1 p2 len Ha Hmax); [reflexivity|exact Hoff].
Qed.

Lemma decompress_offset_range (packet : list byte) (len offset : Z)
  (out : list byte) (out_len : Z) (r : dnsasm_result_t) (name : list byte)
  (nl : Z) :
  dnsasm_decompress_name packet len offset out out_len = Done (r, name, nl) ->
  0 <= res_offset r < 4294967296.
Proof.
  unfold dnsasm_decompress_name, decompress_name_fuel.
  destruct (decompress_loop decompress_fuel packet len
              (decompress_init offset out)) as [[s|err s]|f|]; cbn [bind];
    try discriminate; intros [= <- _ _]; cbn [res_offset].
  - apply Z.mod_pos_bound. lia.
  - lia.
Qed.

(** X7. The decoders read the first [len] bytes of the packet and nothing
    else: on two buffers that agree on their first [len] bytes,
    [dnsasm_parse_header], [dnsasm_decompress_name],
    [dnsasm_parse_question] and [dnsasm_parse_rr] return the same result
    and leave the same output ([len] and the offset below 2^63). *)
Theorem decoders_read_below_len (p1 p2 : list byte) (len offset : Z) :
  take (Z.to_nat len) p1 = take (Z.to_nat len) p2 ->
  len < 9223372036854775808 ->
  0 <= offset < 9223372036854775808 ->
  (forall h : dnsasm_header_t,
      dnsasm_parse_header p1 len h = dnsasm_parse_header p2 len h)
  /\ (forall (out : list byte) (out_len : Z),
         dnsasm_decompress_name p1 len offset out out_len
         = dnsasm_decompress_name p2 len offset out out_len)
  /\ (forall q : dnsasm_question_t,
         dnsasm_parse_question p1 len offset q
         = dnsasm_parse_question p2 len offset q)
  /\ (forall rr : dnsasm_rr_t,
         dnsasm_parse_rr p1 len offset rr = dnsasm_parse_rr p2 len offset rr).
Proof.
  intros Ha Hmax Hoff. split; [|split; [|split]].
  - intros h. unfold dnsasm_parse_header, DNS_HEADER_SIZE.
    destruct (Z.ltb_spec len 12) as [_|Hlen]; [reflexivity|].
    rewrite (load16_agree p1 p2 len 0 Ha), (load16_agree p1 p2 len 2 Ha),
      (load16_agree p1 p2 len 4 Ha), (load16_agree p1 p2 len 6 Ha),
      (load16_agree p1 p2 len 8 Ha), (load16_agree p1 p2 len 10 Ha) by lia.
    reflexivity.
  - intros out out_len. apply decompress_name_agree; [assumption..|lia].
  - intros q. unfold dnsasm_parse_question.
    rewrite (decompress_name_agree p1 p2 len offset _ _ Ha Hmax (proj1 Hoff)).
    destruct (dnsasm_decompress_name p2 len offset (q_name q) (q_name_len q))
      as [[[r name] nl]|f|] eqn:Hd; cbn [bind]; try reflexivity.
    pose proof (decompress_offset_range _ _ _ _ _ _ _ _ Hd) as Hr.
    destruct (negb (res_error r =? DNSASM_OK)); [reflexivity|].
    rewrite (sz_small (offset + res_offset r)) by lia.
    rewrite (sz_small (offset + res_offset r + 4)) by lia.
    destruct (Z.gtb_spec (offset + res_offset r + 4) len) as [_|Hin];
      [reflexivity|].
    rewrite (load16_agree p1 p2 len (offset + res_offset r) Ha),
      (load16_agree p1 p2 len (offset + res_offset r + 2) Ha) by lia.
    reflexivity.
  - intros rr. unfold dnsasm_parse_rr.
    rewrite (decompress_name_agree p1 p2 len offset _ _ Ha Hmax (proj1 Hoff)).
    destruct (dnsasm_decompress_name p2 len offset (rr_name rr)
                (rr_name_len rr)) as [[[r name] nl]|f|] eqn:Hd; cbn [bind];
      try reflexivity.
    pose proof (decompress_offset_range _ _ _ _ _ _ _ _ Hd) as Hr.
    destruct (negb (res_error r =? DNSASM_OK)); [reflexivity|].
    rewrite (sz_small (offset + res_offset r)) by lia.
    rewrite (sz_small (offset + res_offset r + 10)) by lia.
    destruct (Z.gtb_spec (offset + res_offset r + 10) len) as [_|Hin];
      [reflexivity|].
    rewrite (load16_agree p1 p2 len (offset + res_offset r) Ha),
      (load16_agree p1 p2 len (offset + res_offset r + 2) Ha),
      (load32_agree p1 p2 len (offset + res_offset r + 4) Ha),
      (load16_agree p1 p2 len (offset + res_offset r + 8) Ha) by lia.
    reflexivity.
Qed.

(* ------------------------------------------------------------------ *)
(** ** The header of an arbitrary packet *)

Lemma peek_bytes_at (p : list byte) (i : Z) (b : byte) :
  peek p i = Some b -> bytes_at p i [b].
Proof.
  intros Hp. pose proof (peek_Some _ _ _ Hp) as Hr.
  rewrite peek_lookup in Hp by lia.
  split; [lia|]. rewrite (drop_S _ _ _ Hp). reflexivity.
Qed.

Lemma be16_bytes_at (p : list byte) (i v : Z) :
  be16 p i = Some v -> bytes_at p i (be16_bytes v).
Proof.
  unfold be16. intros Hb.
  destruct (peek p i) as [b0|] eqn:E0; [|discriminate].
  destruct (peek p (i + 1)) as [b1|] eqn:E1; [|discriminate].
  injection Hb as <-.
  pose proof (u8_range b0) as R0. pose proof (u8_range b1) as R1.
  unfold be16_bytes.
  replace ((u8 b0 * 256 + u8 b1) / 256) with (u8 b0)
    by (apply Z.div_unique with (r := u8 b1); lia).
  replace ((u8 b0 * 256 + u8 b1) mod 256) with (u8 b1)
    by (apply Z.mod_unique with (q := u8 b0); lia).
  rewrite !byte_of_u8.
  change [b0; b1] with ([b0] ++ [b1]). apply bytes_at_app.
  split; [apply peek_bytes_at; exact E0|].
  cbn [length]. apply peek_bytes_at. exact E1.
Qed.

Lemma be16_range (p : list byte) (i v : Z) :
  be16 p i = Some v -> 0 <= v < 65536.
Proof.
  unfold be16. intros Hb.
  destruct (peek p i) as [b0|]; [|discriminate].
  destruct (peek p (i + 1)) as [b1|]; [|discriminate].
  injection Hb as <-.
  pose proof (u8_range b0). pose proof (u8_range b1). lia.
Qed.

(** The twelve bytes at the start of a packet, read as six big-endian
    words. *)
Lemma header_words (packet : list byte) :
  DNS_HEADER_SIZE <= Z.of_nat (length packet) ->
  exists id flags qd an ns ar : Z,
    (be16 packet 0 = Some id /\ be16 packet 2 = Some flags
     /\ be16 packet 4 = Some qd /\ be16 packet 6 = Some an
     /\ be16 packet 8 = Some ns /\ be16 packet 10 = Some ar)
    /\ (0 <= id < 65536 /\ 0 <= flags < 65536 /\ 0 <= qd < 65536
        /\ 0 <= an < 65536 /\ 0 <= ns < 65536 /\ 0 <= ar < 65536)
    /\ bytes_at packet 0 (header_bytes id flags qd an ns ar).
Proof.
  unfold DNS_HEADER_SIZE. intros Hl.
  destruct (be16_in_range packet 0) as [id E0]; [lia|lia|].
  destruct (be16_in_range packet 2) as [fl E1]; [lia|lia|].
  destruct (be16_in_range packet 4) as [qd E2]; [lia|lia|].
  destruct (be16_in_range packet 6) as [an E3]; [lia|lia|].
  destruct (be16_in_range packet 8) as [ns E4]; [lia|lia|].
  destruct (be16_in_range packet 10) as [ar E5]; [lia|lia|].
  exists id, fl, qd, an, ns, ar.
  split; [repeat split; assumption|].
  split; [repeat split; eapply be16_range; eassumption|].
  unfold header_bytes.
  apply bytes_at_app. split; [apply be16_bytes_at; exact E0|].
  change (0 + Z.of_nat (length (be16_bytes id))) with 2.
  apply bytes_at_app. split; [apply be16_bytes_at; exact E1|].
  change (2 + Z.of_nat (length (be16_bytes fl))) with 4.
  apply bytes_at_app. split; [apply be16_bytes_at; exact E2|].
  change (4 + Z.of_nat (length (be16_bytes qd))) with 6.
  apply bytes_at_app. split; [apply be16_bytes_at; exact E3|].
  change (6 + Z.of_nat (length (be16_bytes an))) with 8.
  apply bytes_at_app. split; [apply be16_bytes_at; exact E4|].
  change (8 + Z.of_nat (length (be16_bytes ns))) with 10.
  apply be16_bytes_at; exact E5.
Qed.

Lemma flag_bits_range (flags lo n : Z) :
  0 <= n -> 0 <= flag_bits flags lo n < 2 ^ n.
Proof.
  intros Hn. unfold flag_bits. apply Z.mod_pos_bound.
  apply Z.pow_pos_nonneg; lia.
Qed.

(** X8. [dnsasm_parse_header] on any packet that has its [len] bytes:
    with fewer than 12 bytes it returns [DNSASM_ERR_SHORT] and leaves the
    header structure as it was; with 12 or more it succeeds, the six
    16-bit fields are the big-endian words at offsets 0, 2, 4, 6, 8 and 10,
    the flag fields are the corresponding bits of the flags word (each
    one-bit flag 0 or 1, opcode and rcode at most 15), and the padding
    byte is kept. *)
Theorem parse_header_decodes (packet : list byte) (len : Z)
  (h0 : dnsasm_header_t) :
  len <= Z.of_nat (length packet) ->
  (len < DNS_HEADER_SIZE ->
   dnsasm_parse_header packet len h0 = Done (DNSASM_ERR_SHORT, h0))
  /\ (DNS_HEADER_SIZE <= len ->
      exists id flags qd an ns ar : Z,
        be16 packet 0 = Some id /\ be16 packet 2 = Some flags
        /\ be16 packet 4 = Some qd /\ be16 packet 6 = Some an
        /\ be16 packet 8 = Some ns /\ be16 packet 10 = Some ar
        /\ dnsasm_parse_header packet len h0
           = Done (DNSASM_OK, header_of id flags qd an ns ar (hdr_pad h0))
        /\ (let h := header_of id flags qd an ns ar (hdr_pad h0) in
            0 <= hdr_qr h <= 1 /\ 0 <= hdr_opcode h <= 15
            /\ 0 <= hdr_aa h <= 1 /\ 0 <= hdr_tc h <= 1
            /\ 0 <= hdr_rd h <= 1 /\ 0 <= hdr_ra h <= 1
            /\ 0 <= hdr_rcode h <= 15)).
Proof.
  intros Hlen. split.
  - intros Hs. unfold dnsasm_parse_header.
    destruct (Z.ltb_spec len DNS_HEADER_SIZE) as [_|Hn]; [reflexivity|lia].
  - intros Hs.
    destruct (header_words packet) as
      (id & fl & qd & an & ns & ar & Hw & Hr & Hb); [lia|].
    destruct Hw as (E0 & E1 & E2 & E3 & E4 & E5).
    destruct Hr as (R0 & R1 & R2 & R3 & R4 & R5).
    exists id, fl, qd, an, ns, ar.
    repeat (split; [assumption|]).
    split; [apply parse_header_bytes; assumption|].
    cbn [header_of hdr_qr hdr_opcode hdr_aa hdr_tc hdr_rd hdr_ra hdr_rcode].
    pose proof (flag_bits_range fl 15 1). pose proof (flag_bits_range fl 11 4).
    pose proof (flag_bits_range fl 10 1). pose proof (flag_bits_range fl 9 1).
    pose proof (flag_bits_range fl 8 1). pose proof (flag_bits_range fl 7 1).
    pose proof (flag_bits_range fl 0 4).
    change (2 ^ 1) with 2 in *. change (2 ^ 4) with 16 in *. lia.
Qed.

(** X9. Parsing a header and building one from the parsed fields gives the
    same twelve bytes back: for a packet of at least 12 bytes,
    [dnsasm_build_header] on the id, flags and four counts that
    [dnsasm_parse_header] returned writes exactly the first 12 bytes of
    the packet, and leaves the rest of the output as it was. *)
Theorem header_parse_then_build (packet : list byte) (len : Z)
  (h0 : dnsasm_header_t) (out : list byte) :
  DNS_HEADER_SIZE <= len ->
  len <= Z.of_nat (length packet) ->
  DNS_HEADER_SIZE <= Z.of_nat (length out) ->
  exists h : dnsasm_header_t,
    dnsasm_parse_header packet len h0 = Done (DNSASM_OK, h)
    /\ dnsasm_build_header out (hdr_id h) (hdr_flags h) (hdr_qdcount h)
         (hdr_ancount h) (hdr_nscount h) (hdr_arcount h)
       = Done (DNS_HEADER_SIZE, take 12 packet ++ drop 12 out).
Proof.
  intros Hs Hlen Hout.
  destruct (header_words packet) as
    (id & fl & qd & an & ns & ar & Hw & Hr & Hb); [lia|].
  destruct Hr as (R0 & R1 & R2 & R3 & R4 & R5).
  exists (header_of id fl qd an ns ar (hdr_pad h0)).
  split; [apply parse_header_bytes; assumption|].
  cbn [header_of hdr_id hdr_flags hdr_qdcount hdr_ancount hdr_nscount
       hdr_arcount].
  rewrite build_header_bytes by assumption.
  do 2 f_equal. destruct Hb as [_ Hb].
  unfold overwrite. cbn [Z.to_nat take app].
  change (length (header_bytes id fl qd an ns ar)) with 12%nat in *.
  change (Z.to_nat 0) with 0%nat in *. rewrite drop_0 in Hb.
  rewrite <- Hb. reflexivity.
Qed.

(* ------------------------------------------------------------------ *)
(** ** The question decoder *)

(** X10. On a packet that has its [len] bytes, [len] below 2^63 and the
    offset below 2^64 - 4 (from there on [offset + 4] wraps around in
    [size_t]), [dnsasm_parse_question] decodes the name with
    [dnsasm_decompress_name] and returns its error if it fails; it fails
    with [DNSASM_ERR_SHORT], offset 0, unless 4 more bytes exist beyond the
    bytes the name consumed; otherwise it succeeds, the type and the class
    are the two big-endian words behind the name, the wire length is the
    name bytes plus 4 (never more than 261, so that it is not reduced
    modulo 2^16), and the offset returned is that of the byte behind the
    class, reduced modulo 2^32. In the two failure cases the name and its
    length are the ones the name decoder left, the other fields are not
    written. *)
Theorem parse_question_decodes (packet : list byte) (len offset : Z)
  (out : dnsasm_question_t) :
  len <= Z.of_nat (length packet) ->
  len < 9223372036854775808 ->
  0 <= offset < 18446744073709551612 ->
  DNS_MAX_NAME_LEN + 1 <= Z.of_nat (length (q_name out)) ->
  exists (r : dnsasm_result_t) (name : list byte) (nl : Z),
    dnsasm_decompress_name packet len offset (q_name out) (q_name_len out)
    = Done (r, name, nl)
    /\ let named :=
         {| q_name := name; q_name_len := nl; q_qtype := q_qtype out;
            q_qclass := q_qclass out; q_wire_len := q_wire_len out |} in
       let pos := offset + res_offset r in
       (res_error r <> DNSASM_OK ->
        dnsasm_parse_question packet len offset out = Done (r, named))
       /\ (res_error r = DNSASM_OK -> len < pos + 4 ->
           dnsasm_parse_question packet len offset out
           = Done ({| res_error := DNSASM_ERR_SHORT; res_offset := 0 |},
                   named))
       /\ (res_error r = DNSASM_OK -> pos + 4 <= len ->
           exists qt qc : Z,
             be16 packet pos = Some qt
             /\ be16 packet (pos + 2) = Some qc
             /\ dnsasm_parse_question packet len offset out
                = Done ({| res_error := DNSASM_OK;
                           res_offset := u32 (pos + 4) |},
                        {| q_name := name; q_name_len := nl;
                           q_qtype := qt; q_qclass := qc;
                           q_wire_len := res_offset r + 4 |})
             /\ res_offset r + 4 <= 261
             /\ (len < 4294967296 -> u32 (pos + 4) = pos + 4)).
Proof.
  intros Hlen Hmax Hoff Hname.
  destruct (decompress_name_safe packet len offset (q_name out)
              (q_name_len out) Hlen Hmax (proj1 Hoff) Hname)
    as (r & name & nl & Hd & _ & Hcases).
  exists r, name, nl. split; [exact Hd|]. cbv zeta.
  unfold DNS_MAX_NAME_LEN, DNSASM_OK in *.
  destruct Hcases as [[He Hw]|[He Hw]].
  - split; [intros Hne; contradiction|].
    assert (Hsmall : offset + res_offset r < 18446744073709551612).
    { destruct (Z.lt_ge_cases offset len) as [Hin|Hpast]; [lia|].
      rewrite (decompress_offset_past_end _ _ _ _ _ Hpast) in Hd.
      injection Hd as <- _ _. cbn [res_offset]. lia. }
    assert (Hpos : sz (offset + res_offset r) = offset + res_offset r)
      by (apply sz_small; lia).
    split.
    + intros _ Hshort. unfold dnsasm_parse_question. rewrite Hd. cbn [bind].
      unfold DNSASM_OK. rewrite He. cbn [Z.eqb negb]. rewrite Hpos.
      rewrite sz_small by lia.
      destruct (Z.gtb_spec (offset + res_offset r + 4) len) as [_|Hbad];
        [|lia].
      reflexivity.
    + intros _ Hroom.
      set (pos := offset + res_offset r) in *.
      destruct (be16_in_range packet pos) as [qt Hqt]; [lia|lia|].
      destruct (be16_in_range packet (pos + 2)) as [qc Hqc]; [lia|lia|].
      exists qt, qc.
      destruct (load16_bswap _ _ _ Hqt) as (w0 & L0 & S0 & _).
      destruct (load16_bswap _ _ _ Hqc) as (w1 & L1 & S1 & _).
      repeat (split; [assumption|]).
      split; [|split; [lia|intros Hs; apply u32_small; lia]].
      unfold dnsasm_parse_question. rewrite Hd. cbn [bind].
      unfold DNSASM_OK. rewrite He. cbn [Z.eqb negb]. fold pos.
      rewrite Hpos. rewrite (sz_small (pos + 4)) by lia.
      destruct (Z.gtb_spec (pos + 4) len) as [Hbad|_]; [lia|].
      rewrite L0, L1. cbn [bind]. rewrite S0, S1.
      rewrite (sz_small (res_offset r + 4)) by lia.
      rewrite u16_small by lia. reflexivity.
  - split.
    + intros _. unfold dnsasm_parse_question. rewrite Hd. cbn [bind].
      destruct (Z.eqb_spec (res_error r) DNSASM_OK) as [Hbad|_];
        [unfold DNSASM_OK in Hbad; lia|].
      reflexivity.
    + split; intros Hok; lia.
Qed.

(* ------------------------------------------------------------------ *)
(** ** Walking the sections of a message *)

(** X11. A successful [dnsasm_parse_question] moves forward inside the
    packet: on a packet that has its [len] bytes, [len] below 2^32, at any
    offset below 2^64 - 4 (from there on [offset + 4] wraps around in
    [size_t]), the call ends without a fault; on success the offset
    returned is the offset given plus the wire length stored, the wire
    length is between 5 and 261, and the offset returned is at most [len];
    on failure the code is one of -1 to -5 and the offset returned is 0. *)
Theorem parse_question_advances (packet : list byte) (len offset : Z)
  (out : dnsasm_question_t) :
  len <= Z.of_nat (length packet) ->
  len < 4294967296 ->
  0 <= offset < 18446744073709551612 ->
  DNS_MAX_NAME_LEN + 1 <= Z.of_nat (length (q_name out)) ->
  exists (r : dnsasm_result_t) (q : dnsasm_question_t),
    dnsasm_parse_question packet len offset out = Done (r, q)
    /\ (res_error r = DNSASM_OK ->
        res_offset r = offset + q_wire_len q
        /\ 5 <= q_wire_len q <= 261
        /\ res_offset r <= len)
    /\ (res_error r <> DNSASM_OK ->
        -5 <= res_error r <= -1 /\ res_offset r = 0).
Proof.
  intros Hlen Hmax Hoff Hname.
  destruct (decompress_name_bounded packet len offset (q_name out)
              (q_name_len out) Hlen ltac:(lia) (proj1 Hoff) Hname)
    as (r & name & nl & Hd & _ & Hcases).
  unfold dnsasm_parse_question. rewrite Hd. cbn [bind].
  unfold DNSASM_OK, DNSASM_ERR_SHORT in *.
  destruct Hcases as [(He & Hw & _ & Hin)|(He & Hw & _)].
  - assert (Hsmall : offset + res_offset r < 18446744073709551612).
    { destruct (Z.lt_ge_cases offset len) as [Hlt|Hpast]; [lia|].
      rewrite (decompress_offset_past_end _ _ _ _ _ Hpast) in Hd.
      injection Hd as <- _ _. cbn [res_offset]. lia. }
    rewrite He. cbn [Z.eqb negb].
    rewrite (sz_small (offset + res_offset r)) by lia.
    rewrite (sz_small (offset + res_offset r + 4)) by lia.
    destruct (Z.gtb_spec (offset + res_offset r + 4) len) as [Hbad|Hroom].
    + eexists _, _. split; [reflexivity|]. cbn [res_error res_offset].
      split; [discriminate|]. intros _. lia.
    + destruct (be16_in_range packet (offset + res_offset r)) as [qt Hqt];
        [lia|lia|].
      destruct (be16_in_range packet (offset + res_offset r + 2))
        as [qc Hqc]; [lia|lia|].
      destruct (load16_bswap _ _ _ Hqt) as (w0 & L0 & _).
      destruct (load16_bswap _ _ _ Hqc) as (w1 & L1 & _).
      rewrite L0, L1. cbn [bind].
      eexists _, _. split; [reflexivity|].
      cbn [res_error res_offset q_wire_len].
      split; [|intros Hne; contradiction]. intros _.
      rewrite (sz_small (res_offset r + 4)) by lia.
      rewrite u16_small, u32_small by lia.
      destruct Hin as [_ Hone]; lia.
  - destruct (Z.eqb_spec (res_error r) 0) as [Hbad|_]; [lia|].
    cbn [negb]. eexists _, _. split; [reflexivity|].
    split; [intros Hok; lia|]. intros _. lia.
Qed.

(** The bound on the offset is the best one: four bytes below 2^64 the
    test for the four bytes wraps around, and the call reads outside of
    the packet. *)
Lemma parse_question_offset_wraps :
  dnsasm_parse_question sample_packet 49 18446744073709551612 fresh_question
  = Fault OobRead.
Proof. vm_compute; reflexivity. Qed.

(** X12. A successful [dnsasm_parse_rr] moves forward inside the packet:
    on a packet that has its [len] bytes, [len] at most
    [DNS_MAX_PACKET_SIZE], at any offset below 2^64 - 10 (from there on
    [offset + 10] wraps around in [size_t]), the call ends without a
    fault; on success the offset returned is the offset given plus the
    wire length stored, the wire length is at least 11 and at least 11
    more than the rdata length, the rdata view of the record is inside the
    first [len] bytes of the packet and ends where the next record starts;
    on failure the code is one of -1 to -5 and the offset returned is 0. *)
Theorem parse_rr_advances (packet : list byte) (len offset : Z)
  (out : dnsasm_rr_t) :
  len <= Z.of_nat (length packet) ->
  len <= DNS_MAX_PACKET_SIZE ->
  0 <= offset < 18446744073709551606 ->
  DNS_MAX_NAME_LEN + 1 <= Z.of_nat (length (rr_name out)) ->
  exists (r : dnsasm_result_t) (rr : dnsasm_rr_t),
    dnsasm_parse_rr packet len offset out = Done (r, rr)
    /\ (res_error r = DNSASM_OK ->
        res_offset r = offset + rr_wire_len rr
        /\ 11 + rr_rdlength rr <= rr_wire_len rr
        /\ 0 <= rr_rdlength rr
        /\ res_offset r <= len
        /\ exists p : Z,
             rr_rdata rr = Some p /\ p + rr_rdlength rr = res_offset r)
    /\ (res_error r <> DNSASM_OK ->
        -5 <= res_error r <= -1 /\ res_offset r = 0).
Proof.
  intros Hlen Hmax Hoff Hname. unfold DNS_MAX_PACKET_SIZE in Hmax.
  destruct (decompress_name_bounded packet len offset (rr_name out)
              (rr_name_len out) Hlen ltac:(lia) (proj1 Hoff) Hname)
    as (r & name & nl & Hd & _ & Hcases).
  unfold dnsasm_parse_rr. rewrite Hd. cbn [bind].
  unfold DNSASM_OK, DNSASM_ERR_SHORT in *.
  destruct Hcases as [(He & Hw & _ & Hin)|(He & Hw & _)].
  - assert (Hsmall : offset + res_offset r < 18446744073709551606).
    { destruct (Z.lt_ge_cases offset len) as [Hlt|Hpast]; [lia|].
      rewrite (decompress_offset_past_end _ _ _ _ _ Hpast) in Hd.
      injection Hd as <- _ _. cbn [res_offset]. lia. }
    rewrite He. cbn [Z.eqb negb].
    rewrite (sz_small (offset + res_offset r)) by lia.
    rewrite (sz_small (offset + res_offset r + 10)) by lia.
    destruct (Z.gtb_spec (offset + res_offset r + 10) len) as [Hbad|Hroom].
    + eexists _, _. split; [reflexivity|]. cbn [res_error res_offset].
      split; [discriminate|]. intros _. lia.
    + set (pos := offset + res_offset r) in *.
      destruct (be16_in_range packet pos) as [ty Hty]; [lia|lia|].
      destruct (be16_in_range packet (pos + 2)) as [cl Hcl]; [lia|lia|].
      destruct (be32_in_range packet (pos + 4)) as [ttl Httl]; [lia|lia|].
      destruct (be16_in_range packet (pos + 8)) as [rdl Hrdl]; [lia|lia|].
      destruct (load16_bswap _ _ _ Hty) as (w0 & L0 & _).
      destruct (load16_bswap _ _ _ Hcl) as (w1 & L1 & _).
      destruct (load32_bswap _ _ _ Httl) as (w2 & L2 & _).
      destruct (load16_bswap _ _ _ Hrdl) as (w3 & L3 & S3 & Rrdl).
      rewrite L0, L1, L2, L3. cbn [bind]. cbv zeta. rewrite S3.
      rewrite (sz_small (pos + 10 + rdl)) by lia.
      destruct (Z.gtb_spec (pos + 10 + rdl) len) as [Hshort|Hfits].
      * eexists _, _. split; [reflexivity|]. cbn [res_error res_offset].
        split; [discriminate|]. intros _. lia.
      * eexists _, _. split; [reflexivity|].
        cbn [res_error res_offset rr_wire_len rr_rdlength rr_rdata].
        split; [|intros Hne; contradiction]. intros _.
        rewrite (sz_small (res_offset r + 10)) by lia.
        rewrite (sz_small (res_offset r + 10 + rdl)) by lia.
        rewrite u16_small, u32_small by lia.
        destruct Hin as [_ Hone]; [lia|].
        repeat split; try lia.
        exists (pos + 10). split; [reflexivity|lia].
  - destruct (Z.eqb_spec (res_error r) 0) as [Hbad|_]; [lia|].
    cbn [negb]. eexists _, _. split; [reflexivity|].
    split; [intros Hok; lia|]. intros _. lia.
Qed.

(* ------------------------------------------------------------------ *)
(** ** 32-bit values in network order *)

Lemma byte_of_eq (x y : Z) : x mod 256 = y mod 256 -> byte_of x = byte_of y.
Proof.
  intros H. rewrite <- (byte_of_mod x), <- (byte_of_mod y), H. reflexivity.
Qed.

Lemma bswap32_value (v : Z) :
  0 <= v < 4294967296 ->
  bswap32 v
  = v mod 256 * 16777216 + v / 256 mod 256 * 65536
    + v / 65536 mod 256 * 256 + v / 16777216.
Proof.
  intros Hv.
  transitivity (bswap32 (v mod 256 + 256 * (v / 256 mod 256)
                         + 65536 * (v / 65536 mod 256)
                         + 16777216 * (v / 16777216))).
  - f_equal. Z.div_mod_to_equations. lia.
  - apply bswap32_bytes; Z.div_mod_to_equations; lia.
Qed.

Lemma digits4 (a b c d : Z) :
  0 <= a < 256 -> 0 <= b < 256 -> 0 <= c < 256 -> 0 <= d < 256 ->
  let w := a * 16777216 + b * 65536 + c * 256 + d in
  w mod 256 = d /\ (w / 256) mod 256 = c /\ (w / 65536) mod 256 = b
  /\ (w / 16777216) mod 256 = a.
Proof.
  intros Ha Hb Hc Hd w.
  assert (D1 : w / 256 = a * 65536 + b * 256 + c)
    by (symmetry; apply Z.div_unique with (r := d); subst w; lia).
  assert (D2 : w / 65536 = a * 256 + b)
    by (symmetry; apply Z.div_unique with (r := c * 256 + d); subst w; lia).
  assert (D3 : w / 16777216 = a)
    by (symmetry; apply Z.div_unique with (r := b * 65536 + c * 256 + d);
        subst w; lia).
  rewrite D1, D2, D3. repeat split; symmetry.
  - apply Z.mod_unique with (q := a * 65536 + b * 256 + c); subst w; lia.
  - apply Z.mod_unique with (q := a * 256 + b); lia.
  - apply Z.mod_unique with (q := a); lia.
  - apply Z.mod_unique with (q := 0); lia.
Qed.

Lemma store32_bswap (p : list byte) (i v : Z) :
  0 <= v < 4294967296 -> 0 <= i -> i + 4 <= Z.of_nat (length p) ->
  store32 p i (bswap32 v) = Done (overwrite p i (be32_bytes v)).
Proof.
  intros Hv Hi Hp. rewrite bswap32_value by exact Hv.
  assert (R0 : 0 <= v mod 256 < 256) by (apply Z.mod_pos_bound; lia).
  assert (R1 : 0 <= v / 256 mod 256 < 256) by (apply Z.mod_pos_bound; lia).
  assert (R2 : 0 <= v / 65536 mod 256 < 256)
    by (apply Z.mod_pos_bound; lia).
  assert (R3 : 0 <= v / 16777216 < 256)
    by (split; [apply Z.div_pos; lia|apply Z.div_lt_upper_bound; lia]).
  destruct (digits4 _ _ _ _ R0 R1 R2 R3) as (D0 & D1 & D2 & D3).
  set (w := v mod 256 * 16777216 + v / 256 mod 256 * 65536
            + v / 65536 mod 256 * 256 + v / 16777216) in *.
  unfold store32.
  rewrite store8_ok by lia. cbn [bind].
  rewrite store8_ok by (rewrite length_overwrite; cbn [length]; lia).
  cbn [bind].
  change (i + 1) with (i + Z.of_nat (length [byte_of w])).
  rewrite overwrite_app by (cbn [length]; lia). cbn [app].
  rewrite store8_ok by (rewrite length_overwrite; cbn [length]; lia).
  cbn [bind].
  change (i + 2)
    with (i + Z.of_nat (length [byte_of w; byte_of (Z.shiftr w 8)])).
  rewrite overwrite_app by (cbn [length]; lia). cbn [app].
  rewrite store8_ok by (rewrite length_overwrite; cbn [length]; lia).
  change (i + 3)
    with (i + Z.of_nat (length [byte_of w; byte_of (Z.shiftr w 8);
                                byte_of (Z.shiftr w 16)])).
  rewrite overwrite_app by (cbn [length]; lia). cbn [app].
  rewrite !Z.shiftr_div_pow2 by lia.
  change (2 ^ 8) with 256. change (2 ^ 16) with 65536.
  change (2 ^ 24) with 16777216.
  unfold be32_bytes.
  rewrite <- (byte_of_mod w), <- (byte_of_mod (w / 256)),
    <- (byte_of_mod (w / 65536)), <- (byte_of_mod (w / 16777216)).
  rewrite D0, D1, D2, D3, !byte_of_mod. reflexivity.
Qed.

Lemma store32_next (out bs : list byte) (k v : Z) :
  k = Z.of_nat (length bs) ->
  0 <= v < 4294967296 ->
  k + 4 <= Z.of_nat (length out) ->
  store32 (overwrite out 0 bs) k (bswap32 v)
  = Done (overwrite out 0 (bs ++ be32_bytes v)).
Proof.
  intros -> Hv Hk.
  rewrite store32_bswap; [|exact Hv|lia|rewrite length_overwrite; lia].
  change (Z.of_nat (length bs)) with (0 + Z.of_nat (length bs)) at 1.
  rewrite overwrite_app by lia. reflexivity.
Qed.

Lemma be32_of_bytes (p : list byte) (i v : Z) :
  0 <= v < 4294967296 -> bytes_at p i (be32_bytes v) -> be32 p i = Some v.
Proof.
  intros Hv Hb. unfold be32_bytes in Hb.
  apply bytes_at_cons in Hb. destruct Hb as [E0 Hb].
  apply bytes_at_cons in Hb. destruct Hb as [E1 Hb].
  apply bytes_at_cons in Hb. destruct Hb as [E2 Hb].
  apply bytes_at_cons in Hb. destruct Hb as [E3 _].
  replace (i + 1 + 1) with (i + 2) in * by lia.
  replace (i + 2 + 1) with (i + 3) in * by lia.
  unfold be32. rewrite E0, E1, E2, E3, !u8_byte_of. f_equal.
  Z.div_mod_to_equations. lia.
Qed.

(* ------------------------------------------------------------------ *)
(** ** Well-formed questions and records *)

(** The decoders once the name is decoded and the fixed fields are known. *)
Lemma parse_question_fields (packet : list byte) (len offset : Z)
  (out : dnsasm_question_t) (c : Z) (name : list byte) (nl qt qc : Z) :
  dnsasm_decompress_name packet len offset (q_name out) (q_name_len out)
  = Done ({| res_error := DNSASM_OK; res_offset := c |}, name, nl) ->
  0 <= offset -> 0 <= c <= 65531 ->
  offset + c + 4 <= len -> len < 4294967296 ->
  be16 packet (offset + c) = Some qt ->
  be16 packet (offset + c + 2) = Some qc ->
  dnsasm_parse_question packet len offset out
  = Done ({| res_error := DNSASM_OK; res_offset := offset + c + 4 |},
          {| q_name := name; q_name_len := nl; q_qtype := qt;
             q_qclass := qc; q_wire_len := c + 4 |}).
Proof.
  intros Hd Hoff Hc Hroom Hmax Hqt Hqc.
  destruct (load16_bswap _ _ _ Hqt) as (w0 & L0 & S0 & _).
  destruct (load16_bswap _ _ _ Hqc) as (w1 & L1 & S1 & _).
  unfold dnsasm_parse_question. rewrite Hd. cbn [bind res_error res_offset].
  cbn [Z.eqb DNSASM_OK negb].
  rewrite (sz_small (offset + c)) by lia.
  rewrite (sz_small (offset + c + 4)) by lia.
  destruct (Z.gtb_spec (offset + c + 4) len) as [Hbad|_]; [lia|].
  rewrite L0, L1. cbn [bind]. rewrite S0, S1.
  rewrite (sz_small (c + 4)) by lia.
  rewrite u16_small, u32_small by lia. reflexivity.
Qed.

Lemma parse_rr_fields (packet : list byte) (len offset : Z)
  (out : dnsasm_rr_t) (c : Z) (name : list byte) (nl ty cl ttl rdl : Z) :
  dnsasm_decompress_name packet len offset (rr_name out) (rr_name_len out)
  = Done ({| res_error := DNSASM_OK; res_offset := c |}, name, nl) ->
  0 <= offset -> 0 <= c ->
  offset + c + 10 + rdl <= len -> len <= DNS_MAX_PACKET_SIZE ->
  be16 packet (offset + c) = Some ty ->
  be16 packet (offset + c + 2) = Some cl ->
  be32 packet (offset + c + 4) = Some ttl ->
  be16 packet (offset + c + 8) = Some rdl ->
  dnsasm_parse_rr packet len offset out
  = Done ({| res_error := DNSASM_OK; res_offset := offset + c + 10 + rdl |},
          {| rr_name := name; rr_name_len := nl; rr_rtype := ty;
             rr_rclass := cl; rr_ttl := ttl; rr_rdlength := rdl;
             rr_rdata := Some (offset + c + 10);
             rr_wire_len := c + 10 + rdl |}).
Proof.
  intros Hd Hoff Hc Hroom Hmax Hty Hcl Httl Hrdl.
  unfold DNS_MAX_PACKET_SIZE in Hmax.
  destruct (load16_bswap _ _ _ Hty) as (w0 & L0 & S0 & _).
  destruct (load16_bswap _ _ _ Hcl) as (w1 & L1 & S1 & _).
  destruct (load32_bswap _ _ _ Httl) as (w2 & L2 & S2 & _).
  destruct (load16_bswap _ _ _ Hrdl) as (w3 & L3 & S3 & Rrdl).
  unfold dnsasm_parse_rr. rewrite Hd. cbn [bind res_error res_offset].
  cbn [Z.eqb DNSASM_OK negb].
  rewrite (sz_small (offset + c)) by lia.
  rewrite (sz_small (offset + c + 10)) by lia.
  destruct (Z.gtb_spec (offset + c + 10) len) as [Hbad|_]; [lia|].
  rewrite L0, L1, L2, L3. cbn [bind]. cbv zeta. rewrite S0, S1, S2, S3.
  rewrite (sz_small (offset + c + 10 + rdl)) by lia.
  destruct (Z.gtb_spec (offset + c + 10 + rdl) len) as [Hbad|_]; [lia|].
  rewrite (sz_small (c + 10)) by lia.
  rewrite (sz_small (c + 10 + rdl)) by lia.
  rewrite u16_small, u32_small by lia. reflexivity.
Qed.

(** X13. A well-formed question decodes to its content. When the bytes at
    the offset are a name in wire format (labels and up to 127 backward
    compression pointers leading to a terminator, at most 255 bytes of
    labels) followed, behind the bytes the name occupies at the offset, by
    a type and a class of two bytes each inside the packet,
    [dnsasm_parse_question] succeeds: the name is the labels with the
    terminator, uncompressed, the type and class are the big-endian
    values, the wire length is the bytes of the name at the offset plus 4
    and the offset returned is the offset of the byte behind the class. *)
Theorem parse_question_well_formed (packet : list byte) (len offset : Z)
  (out : dnsasm_question_t) (q : Z) (hops : nat) (bs : list byte)
  (c qt qc : Z) :
  wire_path packet len offset q hops bs c ->
  terminator_at packet len q ->
  Z.of_nat (length bs) <= DNS_MAX_NAME_LEN ->
  (hops <= 127)%nat ->
  DNS_MAX_NAME_LEN + 1 <= Z.of_nat (length (q_name out)) ->
  0 <= offset -> len < 4294967296 ->
  0 <= qt < 65536 -> 0 <= qc < 65536 ->
  let used := match hops with O => c + 1 | S _ => c end in
  bytes_at packet (offset + used) (be16_bytes qt ++ be16_bytes qc) ->
  offset + used + 4 <= len ->
  dnsasm_parse_question packet len offset out
  = Done ({| res_error := DNSASM_OK; res_offset := offset + used + 4 |},
          {| q_name := overwrite (q_name out) 0 (bs ++ [x00]);
             q_name_len := Z.of_nat (length bs) + 1;
             q_qtype := qt; q_qclass := qc; q_wire_len := used + 4 |}).
Proof.
  intros Hpath Hterm Hbs Hhops Hname Hoff Hmax Hqt Hqc used Hb Hroom.
  pose proof (wire_path_c_bound _ _ _ _ _ _ _ Hpath) as Hc.
  unfold DNS_MAX_NAME_LEN in *.
  apply bytes_at_app in Hb. destruct Hb as [Hb0 Hb1]. cbn [length be16_bytes] in Hb1.
  apply parse_question_fields; try assumption.
  - apply decompress_path_ok with (q := q); unfold DNS_MAX_NAME_LEN;
      try assumption; lia.
  - subst used. destruct hops; lia.
  - apply be16_of_bytes; assumption.
  - apply be16_of_bytes; [assumption|].
    replace (offset + used + 2) with (offset + used + Z.of_nat 2) by lia.
    exact Hb1.
Qed.

(** X14. A well-formed resource record decodes to its content. When the
    bytes at the offset are a name in wire format (as above) followed by
    type, class, ttl and rdata length in big-endian order and by as many
    bytes of rdata, all inside a packet of at most [DNS_MAX_PACKET_SIZE]
    bytes, [dnsasm_parse_rr] succeeds: the fields are the values encoded,
    the rdata view is the rdata bytes, the wire length is the number of
    bytes the record occupies at the offset and the offset returned is
    that of the byte behind the rdata. *)
Theorem parse_rr_well_formed (packet : list byte) (len offset : Z)
  (out : dnsasm_rr_t) (q : Z) (hops : nat) (bs : list byte)
  (c ty cl ttl : Z) (rdata : list byte) :
  wire_path packet len offset q hops bs c ->
  terminator_at packet len q ->
  Z.of_nat (length bs) <= DNS_MAX_NAME_LEN ->
  (hops <= 127)%nat ->
  DNS_MAX_NAME_LEN + 1 <= Z.of_nat (length (rr_name out)) ->
  0 <= offset -> len <= DNS_MAX_PACKET_SIZE ->
  0 <= ty < 65536 -> 0 <= cl < 65536 -> 0 <= ttl < 4294967296 ->
  let used := match hops with O => c + 1 | S _ => c end in
  let rdl := Z.of_nat (length rdata) in
  bytes_at packet (offset + used)
    (be16_bytes ty ++ be16_bytes cl ++ be32_bytes ttl ++ be16_bytes rdl
     ++ rdata) ->
  offset + used + 10 + rdl <= len ->
  exists rr : dnsasm_rr_t,
    dnsasm_parse_rr packet len offset out
    = Done ({| res_error := DNSASM_OK;
               res_offset := offset + used + 10 + rdl |}, rr)
    /\ rr_name rr = overwrite (rr_name out) 0 (bs ++ [x00])
    /\ rr_name_len rr = Z.of_nat (length bs) + 1
    /\ rr_rtype rr = ty /\ rr_rclass rr = cl /\ rr_ttl rr = ttl
    /\ rr_rdlength rr = rdl
    /\ rdata_view packet rr = rdata
    /\ rr_wire_len rr = used + 10 + rdl.
Proof.
  intros Hpath Hterm Hbs Hhops Hname Hoff Hmax Hty Hcl Httl used rdl Hb
    Hroom.
  pose proof (wire_path_c_bound _ _ _ _ _ _ _ Hpath) as Hc.
  assert (Hused : 0 <= used) by (subst used; destruct hops; lia).
  assert (Hrdl : 0 <= rdl < 65536)
    by (unfold DNS_MAX_PACKET_SIZE in Hmax; subst rdl; lia).
  apply bytes_at_app in Hb. destruct Hb as [Hb0 Hb].
  apply bytes_at_app in Hb. destruct Hb as [Hb1 Hb].
  apply bytes_at_app in Hb. destruct Hb as [Hb2 Hb].
  apply bytes_at_app in Hb. destruct Hb as [Hb3 Hb4].
  cbn [length be16_bytes be32_bytes] in *.
  replace (offset + used + Z.of_nat 2) with (offset + used + 2) in * by lia.
  replace (offset + used + 2 + Z.of_nat 2) with (offset + used + 4) in *
    by lia.
  replace (offset + used + 4 + Z.of_nat 4) with (offset + used + 8) in *
    by lia.
  replace (offset + used + 8 + Z.of_nat 2) with (offset + used + 10) in *
    by lia.
  eexists. split.
  - apply parse_rr_fields with (ty := ty) (cl := cl) (ttl := ttl);
      try eassumption.
    + apply decompress_path_ok with (q := q) (bs := bs); try assumption;
        unfold DNS_MAX_NAME_LEN, DNS_MAX_PACKET_SIZE in *; lia.
    + apply be16_of_bytes; assumption.
    + apply be16_of_bytes; assumption.
    + apply be32_of_bytes; assumption.
    + apply be16_of_bytes; assumption.
  - cbn [rr_name rr_name_len rr_rtype rr_rclass rr_ttl rr_rdlength
         rr_wire_len].
    repeat (split; [reflexivity|]). split; [|reflexivity].
    unfold rdata_view. cbn [rr_rdata rr_rdlength].
    destruct Hb4 as [_ Hb4]. subst rdl. rewrite Nat2Z.id. exact Hb4.
Qed.

(* ------------------------------------------------------------------ *)
(** ** The builders *)

Lemma memcpy_take (dst src : list byte) (di si n : Z) :
  0 <= di -> 0 <= si -> 0 <= n ->
  di + n <= Z.of_nat (length dst) -> si + n <= Z.of_nat (length src) ->
  memcpy dst di src si n
  = Done (overwrite dst di (take (Z.to_nat n) (drop (Z.to_nat si) src))).
Proof.
  intros Hdi Hsi Hn Hd Hs. unfold memcpy, in_bounds.
  destruct (Z.leb_spec 0 di) as [_|Hbad]; [|lia].
  destruct (Z.leb_spec 0 si) as [_|Hbad]; [|lia].
  destruct (Z.leb_spec 0 n) as [_|Hbad]; [|lia].
  destruct (Z.leb_spec (di + n) (Z.of_nat (length dst))) as [_|Hbad]; [|lia].
  destruct (Z.leb_spec (si + n) (Z.of_nat (length src))) as [_|Hbad]; [|lia].
  cbn [andb negb]. unfold overwrite.
  rewrite length_take, length_drop.
  rewrite Z2Nat.inj_add by lia.
  replace (Z.to_nat n `min` (length src - Z.to_nat si))%nat
    with (Z.to_nat n) by lia.
  reflexivity.
Qed.

Lemma memcpy_next (out bs src : list byte) (k si n : Z) :
  k = Z.of_nat (length bs) -> 0 <= si -> 0 <= n ->
  k + n <= Z.of_nat (length out) -> si + n <= Z.of_nat (length src) ->
  memcpy (overwrite out 0 bs) k src si n
  = Done (overwrite out 0
            (bs ++ take (Z.to_nat n) (drop (Z.to_nat si) src))).
Proof.
  intros -> Hsi Hn Hk Hs.
  rewrite memcpy_take; try lia; [|rewrite length_overwrite; lia].
  change (Z.of_nat (length bs)) with (0 + Z.of_nat (length bs)) at 1.
  rewrite overwrite_app by lia. reflexivity.
Qed.


(** The stores of [dnsasm_build_a_record], one after the other. *)
Lemma build_a_record_run (out name : list byte) (name_len ttl : Z)
  (ip : list byte) :
  0 <= name_len <= Z.of_nat (length name) ->
  name_len + 14 <= Z.of_nat (length out) ->
  Z.of_nat (length out) < 18446744073709551616 ->
  4 <= Z.of_nat (length ip) ->
  0 <= ttl < 4294967296 ->
  dnsasm_build_a_record out name name_len ttl ip
  = Done (name_len + 14,
          overwrite out 0
            (take (Z.to_nat name_len) name ++ a_record_tail ttl ip)).
Proof.
  intros Hn Hout Hmax Hip Httl.
  assert (Hl0 : Z.of_nat (length (take (Z.to_nat name_len) name)) = name_len)
    by (rewrite length_take; lia).
  unfold dnsasm_build_a_record.
  rewrite memcpy_take by lia. cbn [bind]. change (Z.to_nat 0) with 0%nat.
  rewrite drop_0.
  set (nm := take (Z.to_nat name_len) name) in *.
  rewrite (sz_small (0 + name_len)) by lia.
  rewrite (store16_next out nm (0 + name_len) DNS_TYPE_A);
    [|lia|unfold DNS_TYPE_A; lia|lia].
  cbn [bind]. rewrite (sz_small (0 + name_len + 2)) by lia.
  rewrite (store16_next out _ (0 + name_len + 2) DNS_CLASS_IN);
    [|rewrite length_app; cbn [length be16_bytes]; lia
     |unfold DNS_CLASS_IN; lia|lia].
  cbn [bind]. rewrite (sz_small (0 + name_len + 2 + 2)) by lia.
  rewrite (store32_next out _ (0 + name_len + 2 + 2) ttl);
    [|rewrite !length_app; cbn [length be16_bytes]; lia|exact Httl|lia].
  cbn [bind]. rewrite (sz_small (0 + name_len + 2 + 2 + 4)) by lia.
  rewrite (store16_next out _ (0 + name_len + 2 + 2 + 4) 4);
    [|rewrite !length_app; cbn [length be16_bytes be32_bytes]; lia|lia|lia].
  cbn [bind]. rewrite (sz_small (0 + name_len + 2 + 2 + 4 + 2)) by lia.
  rewrite (memcpy_next out _ ip (0 + name_len + 2 + 2 + 4 + 2) 0 4);
    [|rewrite !length_app; cbn [length be16_bytes be32_bytes]; lia
     |lia|lia|lia|lia].
  cbn [bind]. rewrite (sz_small (0 + name_len + 2 + 2 + 4 + 2 + 4)) by lia.
  change (Z.to_nat 0) with 0%nat. rewrite drop_0.
  change (Z.to_nat 4) with 4%nat.
  unfold a_record_tail. rewrite <- !app_assoc.
  do 2 f_equal. lia.
Qed.

(** X16. [dnsasm_build_a_record] returns the name length plus 14 and
    writes, from the start of the output: the first [name_len] bytes of
    the name, type 1 and class 1, the ttl, an rdata length of 4 (all
    big-endian) and the first four bytes of the address; the bytes of the
    output behind those are left as they were. The output is a buffer of
    its own, it has room for the record, and the name and the address
    have the bytes that are read. *)
Theorem build_a_record_bytes (out name : list byte) (name_len ttl : Z)
  (ip : list byte) :
  0 <= name_len <= Z.of_nat (length name) ->
  name_len + 14 <= Z.of_nat (length out) ->
  Z.of_nat (length out) < 18446744073709551616 ->
  4 <= Z.of_nat (length ip) ->
  0 <= ttl < 4294967296 ->
  let record := take (Z.to_nat name_len) name ++ a_record_tail ttl ip in
  dnsasm_build_a_record out name name_len ttl ip
  = Done (name_len + 14, record ++ drop (length record) out)
  /\ Z.of_nat (length record) = name_len + 14.
Proof.
  intros Hn Hout Hmax Hip Httl record.
  assert (Hl0 : Z.of_nat (length (take (Z.to_nat name_len) name)) = name_len)
    by (rewrite length_take; lia).
  assert (Hl4 : length (take 4 ip) = 4%nat) by (rewrite length_take; lia).
  split.
  - change (record ++ drop (length record) out)
      with (overwrite out 0 record).
    apply build_a_record_run; assumption.
  - subst record. unfold a_record_tail. rewrite !length_app.
    cbn [length be16_bytes be32_bytes]. rewrite Hl4. lia.
Qed.

(** X17. An A record built by [dnsasm_build_a_record] from an uncompressed
    name (labels of 1 to 63 bytes, at most 255 bytes of labels, the
    terminator) is read back by [dnsasm_parse_rr]: parsing the bytes
    written, at offset 0, succeeds with the name given, type 1, class 1,
    the ttl given, rdata length 4, the four address bytes as rdata, and a
    wire length and an offset equal to the number of bytes built. *)
Theorem build_a_record_then_parse (out : list byte) (ls : list (list byte))
  (ttl : Z) (ip : list byte) (rr0 : dnsasm_rr_t) :
  Forall valid_label ls ->
  Z.of_nat (length (enc_labels ls)) <= DNS_MAX_NAME_LEN ->
  let name := enc_labels ls ++ [x00] in
  let name_len := Z.of_nat (length name) in
  name_len + 14 <= Z.of_nat (length out) ->
  Z.of_nat (length out) < 18446744073709551616 ->
  4 <= Z.of_nat (length ip) ->
  0 <= ttl < 4294967296 ->
  DNS_MAX_NAME_LEN + 1 <= Z.of_nat (length (rr_name rr0)) ->
  exists (built : list byte) (rr : dnsasm_rr_t),
    dnsasm_build_a_record out name name_len ttl ip
    = Done (name_len + 14, built)
    /\ dnsasm_parse_rr built (name_len + 14) 0 rr0
       = Done ({| res_error := DNSASM_OK; res_offset := name_len + 14 |}, rr)
    /\ rr_name rr = overwrite (rr_name rr0) 0 name
    /\ rr_name_len rr = name_len
    /\ rr_rtype rr = DNS_TYPE_A /\ rr_rclass rr = DNS_CLASS_IN
    /\ rr_ttl rr = ttl /\ rr_rdlength rr = 4
    /\ rdata_view built rr = take 4 ip
    /\ rr_wire_len rr = name_len + 14.
Proof.
  intros Hv Hfit name name_len Hout Hmax Hip Httl Hname.
  assert (Hn : name_len = Z.of_nat (length (enc_labels ls)) + 1).
  { subst name_len name. rewrite length_app. cbn [length]. lia. }
  assert (Hl4 : length (take 4 ip) = 4%nat) by (rewrite length_take; lia).
  unfold DNS_MAX_NAME_LEN in *.
  set (record := name ++ a_record_tail ttl ip).
  assert (Hrec : Z.of_nat (length record) = name_len + 14).
  { subst record. unfold a_record_tail. rewrite !length_app.
    cbn [length be16_bytes be32_bytes]. rewrite Hl4. subst name_len. lia. }
  assert (Hbuild : dnsasm_build_a_record out name name_len ttl ip
                   = Done (name_len + 14, overwrite out 0 record)).
  { rewrite build_a_record_run by lia.
    replace (take (Z.to_nat name_len) name) with name
      by (symmetry; apply take_ge; lia).
    reflexivity. }
  set (built := overwrite out 0 record) in *.
  assert (Hat : bytes_at built 0 record)
    by (apply bytes_at_overwrite; lia).
  subst record. unfold a_record_tail in Hat.
  apply bytes_at_app in Hat. destruct Hat as [Hat0 Hat].
  apply bytes_at_app in Hat. destruct Hat as [Hat1 Hat].
  apply bytes_at_app in Hat. destruct Hat as [Hat2 Hat].
  apply bytes_at_app in Hat. destruct Hat as [Hat3 Hat].
  apply bytes_at_app in Hat. destruct Hat as [Hat4 Hat5].
  cbn [length be16_bytes be32_bytes] in *. fold name_len in Hat1, Hat2, Hat3, Hat4, Hat5.
  replace (0 + name_len + Z.of_nat 2) with (0 + name_len + 2) in * by lia.
  replace (0 + name_len + 2 + Z.of_nat 2) with (0 + name_len + 4) in * by lia.
  replace (0 + name_len + 4 + Z.of_nat 4) with (0 + name_len + 8) in * by lia.
  replace (0 + name_len + 8 + Z.of_nat 2) with (0 + name_len + 10) in *
    by lia.
  exists built. eexists. split; [exact Hbuild|]. split.
  - replace (name_len + 14) with (0 + name_len + 10 + 4) at 2 by lia.
    apply parse_rr_fields with (ty := DNS_TYPE_A) (cl := DNS_CLASS_IN)
                               (ttl := ttl); try lia.
    + subst name name_len.
      apply decompress_labels_plain; unfold DNS_MAX_NAME_LEN;
        try assumption; lia.
    + unfold DNS_MAX_PACKET_SIZE. lia.
    + apply be16_of_bytes; [unfold DNS_TYPE_A; lia|assumption].
    + apply be16_of_bytes; [unfold DNS_CLASS_IN; lia|assumption].
    + apply be32_of_bytes; assumption.
    + apply be16_of_bytes; [lia|assumption].
  - cbn [rr_name rr_name_len rr_rtype rr_rclass rr_ttl rr_rdlength
         rr_wire_len].
    repeat (split; [reflexivity|]). split; [|lia].
    unfold rdata_view. cbn [rr_rdata rr_rdlength].
    destruct Hat5 as [_ Hat5]. rewrite Hl4 in Hat5. exact Hat5.
Qed.

(* ------------------------------------------------------------------ *)
(** ** Comparison of the first bytes of two buffers *)

Lemma peek_drop (p : list byte) (i : Z) (x : byte) :
  peek p i = Some x ->
  drop (Z.to_nat i) p = x :: drop (Z.to_nat (i + 1)) p.
Proof.
  intros Hp. pose proof (peek_Some _ _ _ Hp) as Hr.
  rewrite peek_lookup in Hp by lia.
  rewrite (drop_S _ _ _ Hp). f_equal. f_equal. lia.
Qed.

Lemma name_equal_loop_prefix (a b : list byte) (n : nat) :
  forall i : Z,
    0 <= i ->
    i + Z.of_nat n <= Z.of_nat (length a) ->
    i + Z.of_nat n <= Z.of_nat (length b) ->
    i + Z.of_nat n < 18446744073709551616 ->
    name_equal_loop n a b i
    = Done (if decide (map fold_case (take n (drop (Z.to_nat i) a))
                       = map fold_case (take n (drop (Z.to_nat i) b)))
            then 0 else 1).
Proof.
  induction n as [|n IH]; intros i Hi Ha Hb Hmax.
  - reflexivity.
  - destruct (peek_in_range a i) as [x Hx]; [lia|].
    destruct (peek_in_range b i) as [y Hy]; [lia|].
    cbn [name_equal_loop].
    rewrite (name_equal_body_fold _ _ _ x y Hx Hy). cbn [bind].
    rewrite (peek_drop _ _ _ Hx), (peek_drop _ _ _ Hy). cbn [take map].
    destruct (Z.eqb_spec (fold_case x) (fold_case y)) as [He|Hne].
    + rewrite sz_small by lia. rewrite IH by lia. rewrite He.
      set (ta := map fold_case (take n (drop (Z.to_nat (i + 1)) a))).
      set (tb := map fold_case (take n (drop (Z.to_nat (i + 1)) b))).
      destruct (decide (ta = tb)) as [Hm|Hm];
        destruct (decide (fold_case y :: ta = fold_case y :: tb)) as [Hc|Hc];
        try reflexivity.
      * contradiction Hc. rewrite Hm. reflexivity.
      * contradiction Hm. injection Hc as Hc. exact Hc.
    + destruct (decide (_ = _)) as [Hc|_]; [|reflexivity].
      injection Hc as Hc _. contradiction.
Qed.

(** The call on the first [n] bytes of [a] and the first [m] bytes of
    [b]. *)
Lemma name_equal_run (a : list byte) (n : Z) (b : list byte) (m : Z) :
  0 <= n <= Z.of_nat (length a) ->
  0 <= m <= Z.of_nat (length b) ->
  n < 18446744073709551616 ->
  dnsasm_name_equal a n b m
  = Done (if decide (n = m
                     /\ map fold_case (take (Z.to_nat n) a)
                        = map fold_case (take (Z.to_nat m) b))
          then 0 else 1).
Proof.
  intros Hn Hm Hmax. unfold dnsasm_name_equal.
  destruct (Z.eqb_spec n m) as [<-|Hne]; cbn [negb].
  - rewrite name_equal_loop_prefix by lia.
    change (Z.to_nat 0) with 0%nat. rewrite !drop_0.
    destruct (decide (map fold_case (take (Z.to_nat n) a)
                      = map fold_case (take (Z.to_nat n) b))) as [He|He];
      destruct (decide (n = n /\ _)) as [Hc|Hc]; try reflexivity.
    + contradiction Hc. split; [reflexivity|exact He].
    + destruct Hc as [_ Hc]. contradiction.
  - destruct (decide (n = m /\ _)) as [[Hc _]|_]; [contradiction|reflexivity].
Qed.

(** X18. [dnsasm_name_equal] on the first [n] bytes of one buffer and the
    first [m] bytes of another, the buffers having that many bytes: it
    reads nothing outside of them and returns 0 when [n = m] and the two
    prefixes agree at every position once each byte in ['A'-'Z'] is mapped
    to its lowercase form, 1 otherwise; the bytes of the buffers behind
    the prefixes have no influence. *)
Theorem name_equal_prefixes (a : list byte) (n : Z) (b : list byte) (m : Z) :
  0 <= n <= Z.of_nat (length a) ->
  0 <= m <= Z.of_nat (length b) ->
  n < 18446744073709551616 ->
  dnsasm_name_equal a n b m
  = Done (if decide (n = m
                     /\ map fold_case (take (Z.to_nat n) a)
                        = map fold_case (take (Z.to_nat m) b))
          then 0 else 1)
  /\ dnsasm_name_equal a n b m
     = dnsasm_name_equal (take (Z.to_nat n) a) n (take (Z.to_nat m) b) m.
Proof.
  intros Hn Hm Hmax. split; [apply name_equal_run; assumption|].
  rewrite (name_equal_run a n b m) by assumption.
  rewrite (name_equal_run (take (Z.to_nat n) a) n (take (Z.to_nat m) b) m)
    by (rewrite ?length_take; lia).
  rewrite !take_take, !Nat.min_id. reflexivity.
Qed.

(** X19. On buffers that have the bytes compared, [dnsasm_name_equal] is an
    equivalence: a name equals itself, the result does not depend on the
    order of the two names, and two names equal to a third one are equal
    to each other. *)
Theorem name_equal_equivalence (a : list byte) (n : Z) (b : list byte)
  (m : Z) (c : list byte) (k : Z) :
  0 <= n <= Z.of_nat (length a) ->
  0 <= m <= Z.of_nat (length b) ->
  0 <= k <= Z.of_nat (length c) ->
  n < 18446744073709551616 -> m < 18446744073709551616 ->
  dnsasm_name_equal a n a n = Done 0
  /\ dnsasm_name_equal a n b m = dnsasm_name_equal b m a n
  /\ (dnsasm_name_equal a n b m = Done 0 ->
      dnsasm_name_equal b m c k = Done 0 ->
      dnsasm_name_equal a n c k = Done 0).
Proof.
  intros Hn Hm Hk Hmaxn Hmaxm.
  rewrite (name_equal_run a n a n), (name_equal_run a n b m),
    (name_equal_run b m a n), (name_equal_run b m c k),
    (name_equal_run a n c k) by assumption.
  split; [|split].
  - destruct (decide _) as [_|Hc]; [reflexivity|].
    contradiction Hc. split; reflexivity.
  - destruct (decide (n = m /\ _)) as [[H1 H2]|H1];
      destruct (decide (m = n /\ _)) as [[H3 H4]|H3]; try reflexivity.
    + contradiction H3. split; [symmetry; exact H1|symmetry; exact H2].
    + contradiction H1. split; [symmetry; exact H3|symmetry; exact H4].
  - destruct (decide (n = m /\ _)) as [[H1 H2]|_]; [|discriminate].
    destruct (decide (m = k /\ _)) as [[H3 H4]|_]; [|discriminate].
    intros _ _. destruct (decide (n = k /\ _)) as [_|Hc]; [reflexivity|].
    contradiction Hc. split; [congruence|]. rewrite H2. exact H4.
Qed.

(* ------------------------------------------------------------------ *)
(** ** The search in an array of names *)

Lemma enc_labels_cons (lab : list byte) (ls : list (list byte)) :
  enc_labels (lab :: ls) = enc_label lab ++ enc_labels ls.
Proof. reflexivity. Qed.

Lemma enc_labels_count (ls : list (list byte)) :
  Forall valid_label ls -> (2 * length ls <= length (enc_labels ls))%nat.
Proof.
  induction 1 as [|lab ls Hlab _ IH]; [cbn; lia|].
  rewrite enc_labels_cons, length_app. unfold enc_label, valid_label in *.
  cbn [length]. lia.
Qed.

(** The [while] loop on an entry that holds a name stops at its
    terminator. *)
Lemma hay_length_labels (hay : list byte) (ls : list (list byte)) :
  forall (fuel : nat) (p : Z),
    Forall valid_label ls ->
    bytes_at hay p (enc_labels ls ++ [x00]) ->
    p + Z.of_nat (length (enc_labels ls)) <= DNS_MAX_NAME_LEN ->
    (length ls < fuel)%nat ->
    hay_length_loop fuel hay p = Done (p + Z.of_nat (length (enc_labels ls))).
Proof.
  unfold DNS_MAX_NAME_LEN.
  induction ls as [|lab ls IH]; intros fuel p Hv Hb Hfit Hfuel.
  - destruct fuel as [|fuel]; [cbn in Hfuel; lia|].
    cbn [enc_labels map concat app length] in *.
    apply bytes_at_peek in Hb.
    cbn [hay_length_loop]. unfold hay_length_body.
    rewrite (load8_peek _ _ _ Hb). cbn [bind].
    change (u8 x00) with 0. cbn [Z.eqb negb andb bind]. f_equal. lia.
  - destruct fuel as [|fuel]; [cbn in Hfuel; lia|].
    inversion Hv as [|? ? Hlab Hv']; subst.
    pose proof (enc_labels_count ls Hv') as Hcount.
    rewrite enc_labels_cons in *. rewrite <- app_assoc in Hb.
    rewrite length_app in *. unfold enc_label in Hb, Hfit |- *.
    cbn [length app] in Hb, Hfit |- *.
    pose proof Hlab as Hlab'. unfold valid_label in Hlab'.
    apply bytes_at_cons in Hb. destruct Hb as [Hpk Hb].
    apply bytes_at_app in Hb. destruct Hb as [_ Hb].
    cbn [hay_length_loop]. unfold hay_length_body.
    rewrite (load8_peek _ _ _ Hpk). cbn [bind].
    rewrite (u8_label_length lab Hlab).
    destruct (Z.eqb_spec (Z.of_nat (length lab)) 0) as [Hbad|_]; [lia|].
    unfold DNS_MAX_NAME_LEN.
    destruct (Z.ltb_spec p 255) as [_|Hbad]; [|lia].
    cbn [negb andb bind].
    assert (Hp : 0 <= p) by (apply peek_Some in Hpk; lia).
    rewrite sz_small by lia.
    replace (p + (1 + Z.of_nat (length lab)))
      with (p + 1 + Z.of_nat (length lab)) by lia.
    rewrite (IH fuel (p + 1 + Z.of_nat (length lab)) Hv' Hb);
      [f_equal; lia|lia|cbn [length] in Hfuel; lia].
Qed.

(** The [while] loop on any entry of 511 bytes: it stops, at an index
    below 511. *)
Lemma hay_length_total (hay : list byte) :
  511 <= Z.of_nat (length hay) ->
  forall (fuel : nat) (p : Z),
    0 <= p <= 510 ->
    (1 <= fuel)%nat -> 257 - p <= 2 * Z.of_nat fuel ->
    exists r : Z, hay_length_loop fuel hay p = Done r /\ p <= r <= 510.
Proof.
  intros Hlen. induction fuel as [|fuel IH]; intros p Hp H1 H2; [lia|].
  destruct (peek_in_range hay p) as [b Hb]; [lia|].
  cbn [hay_length_loop]. unfold hay_length_body.
  rewrite (load8_peek _ _ _ Hb). cbn [bind].
  pose proof (u8_range b) as Hr. unfold DNS_MAX_NAME_LEN.
  destruct (Z.eqb_spec (u8 b) 0) as [Hz|Hnz]; cbn [negb andb bind].
  - exists p. split; [reflexivity|lia].
  - destruct (Z.ltb_spec p 255) as [Hlt|Hge]; cbn [bind].
    + rewrite sz_small by lia.
      destruct (IH (p + (1 + u8 b))) as (r & Hrun & Hrr); [lia|lia|lia|].
      exists r. split; [exact Hrun|lia].
    + exists p. split; [reflexivity|lia].
Qed.

Lemma to_int_small (i : Z) : 0 <= i < 2147483648 -> to_int i = i.
Proof.
  intros Hi. unfold to_int. rewrite Z.mod_small by lia. lia.
Qed.

Lemma load_entry_lookup (haystack : list (list byte)) (i : Z)
  (hay : list byte) :
  0 <= i -> haystack !! Z.to_nat i = Some hay ->
  load_entry haystack i = Done hay.
Proof.
  intros Hi Hl. unfold load_entry.
  pose proof (lookup_lt_Some _ _ _ Hl) as Hlt.
  destruct (Z.leb_spec 0 i) as [_|Hbad]; [|lia].
  destruct (Z.ltb_spec i (Z.of_nat (length haystack))) as [_|Hbad]; [|lia].
  cbn [andb]. rewrite Hl. reflexivity.
Qed.

(** One pass of the [for] loop on an entry that holds a name. *)
Lemma name_find_body_name (needle : list byte) (needle_len : Z)
  (haystack : list (list byte)) (i : Z) (hay : list byte)
  (ls : list (list byte)) :
  0 <= i < 2147483648 ->
  haystack !! Z.to_nat i = Some hay ->
  holds_name hay ls ->
  0 <= needle_len <= Z.of_nat (length needle) ->
  needle_len < 18446744073709551616 ->
  name_find_body needle needle_len haystack i
  = Done (if decide (same_name needle needle_len ls) then Some i else None).
Proof.
  intros Hi Hl (Hv & Hfit & Hb) Hn Hmax. unfold name_find_body.
  rewrite (load_entry_lookup _ _ _ (proj1 Hi) Hl). cbn [bind].
  pose proof (enc_labels_count ls Hv) as Hcount.
  unfold DNS_MAX_NAME_LEN in Hfit. unfold enc_name in Hb.
  rewrite (hay_length_labels hay ls hay_length_fuel 0 Hv Hb);
    [|unfold DNS_MAX_NAME_LEN; lia|unfold hay_length_fuel; lia].
  cbn [bind]. rewrite sz_small by lia.
  assert (Hlen : Z.of_nat (length (enc_name ls))
                 = 0 + Z.of_nat (length (enc_labels ls)) + 1).
  { unfold enc_name. rewrite length_app. cbn [length]. lia. }
  pose proof (bytes_at_bound _ _ _ Hb) as Hbound.
  assert (Hne : enc_labels ls ++ [x00] <> [])
    by (destruct (enc_labels ls); discriminate).
  specialize (Hbound Hne). fold (enc_name ls) in Hbound, Hb.
  rewrite name_equal_run; [|lia|lia|lia].
  assert (Htake : take (Z.to_nat (0 + Z.of_nat (length (enc_labels ls)) + 1))
                    hay = enc_name ls).
  { destruct Hb as [_ Hb]. change (Z.to_nat 0) with 0%nat in Hb.
    rewrite drop_0 in Hb. rewrite <- Hlen, Nat2Z.id. exact Hb. }
  rewrite Htake. rewrite to_int_small by lia.
  unfold same_name. rewrite Hlen.
  destruct (decide (needle_len = 0 + Z.of_nat (length (enc_labels ls)) + 1
                    /\ _)) as [Hc|Hc]; reflexivity.
Qed.

(** The [for] loop from entry [i] on. *)
Lemma name_find_loop_names (needle : list byte) (needle_len : Z)
  (haystack : list (list byte)) (names : list (list (list byte))) :
  Forall2 holds_name haystack names ->
  0 <= needle_len <= Z.of_nat (length needle) ->
  needle_len < 18446744073709551616 ->
  Z.of_nat (length haystack) < 2147483648 ->
  forall (n : nat) (i : Z),
    0 <= i -> i + Z.of_nat n = Z.of_nat (length haystack) ->
    exists r : Z,
      name_find_loop n needle needle_len haystack i = Done r
      /\ (r = -1
          /\ (forall (j : nat) (ls : list (list byte)),
                 i <= Z.of_nat j -> names !! j = Some ls ->
                 ~ same_name needle needle_len ls)
          \/ i <= r
             /\ (exists ls : list (list byte),
                    names !! Z.to_nat r = Some ls
                    /\ same_name needle needle_len ls)
             /\ (forall (j : nat) (ls : list (list byte)),
                    i <= Z.of_nat j < r -> names !! j = Some ls ->
                    ~ same_name needle needle_len ls)).
Proof.
  intros Hall Hn Hmax Hcount.
  pose proof (Forall2_length _ _ _ Hall) as Hlen.
  induction n as [|n IH]; intros i Hi Hin.
  - exists (-1). split; [reflexivity|]. left. split; [reflexivity|].
    intros j ls Hj Hl. apply lookup_lt_Some in Hl. lia.
  - destruct (lookup_lt_is_Some_2 haystack (Z.to_nat i)) as [hay Hhay];
      [lia|].
    destruct (Forall2_lookup_l _ _ _ _ _ Hall Hhay) as (ls & Hls & Hholds).
    cbn [name_find_loop].
    rewrite (name_find_body_name _ _ _ _ hay ls); try assumption; [|lia].
    destruct (decide (same_name needle needle_len ls)) as [Hs|Hs];
      cbn [bind].
    + exists i. split; [reflexivity|]. right. split; [lia|]. split.
      * exists ls. split; assumption.
      * intros j ls' Hj. lia.
    + rewrite sz_small by lia.
      destruct (IH (i + 1)) as (r & Hrun & Hcases); [lia|lia|].
      exists r. split; [exact Hrun|].
      destruct Hcases as [[Hr Hnone]|(Hr & Hfound & Hnone)].
      * left. split; [exact Hr|]. intros j ls' Hj Hl.
        destruct (decide (Z.of_nat j = i)) as [He|Hne].
        -- subst i. rewrite Nat2Z.id in Hls. congruence.
        -- apply (Hnone j ls'); [lia|exact Hl].
      * right. split; [lia|]. split; [exact Hfound|].
        intros j ls' Hj Hl.
        destruct (decide (Z.of_nat j = i)) as [He|Hne].
        -- subst i. rewrite Nat2Z.id in Hls. congruence.
        -- apply (Hnone j ls'); [lia|exact Hl].
Qed.

(** X20. [dnsasm_name_find] on an array of [count] names, each entry
    holding an uncompressed name (labels of 1 to 63 bytes, at most 255
    bytes of labels, the terminator), with fewer than 2^31 entries: it
    returns the index of the first entry whose name has [needle_len] bytes
    and agrees with the first [needle_len] bytes of the needle up to the
    case of the letters, and -1 when there is no such entry. *)
Theorem name_find_first_match (needle : list byte) (needle_len : Z)
  (haystack : list (list byte)) (names : list (list (list byte))) :
  Forall2 holds_name haystack names ->
  0 <= needle_len <= Z.of_nat (length needle) ->
  needle_len < 18446744073709551616 ->
  Z.of_nat (length haystack) < 2147483648 ->
  exists r : Z,
    dnsasm_name_find needle needle_len haystack (Z.of_nat (length haystack))
    = Done r
    /\ (r = -1
        /\ (forall (j : nat) (ls : list (list byte)),
               names !! j = Some ls -> ~ same_name needle needle_len ls)
        \/ 0 <= r
           /\ (exists ls : list (list byte),
                  names !! Z.to_nat r = Some ls
                  /\ same_name needle needle_len ls)
           /\ (forall (j : nat) (ls : list (list byte)),
                  Z.of_nat j < r -> names !! j = Some ls ->
                  ~ same_name needle needle_len ls)).
Proof.
  intros Hall Hn Hmax Hcount. unfold dnsasm_name_find.
  destruct (name_find_loop_names needle needle_len haystack names Hall Hn
              Hmax Hcount (Z.to_nat (Z.of_nat (length haystack))) 0)
    as (r & Hrun & Hcases); [lia|lia|].
  exists r. split; [exact Hrun|].
  destruct Hcases as [[Hr Hnone]|(Hr & Hfound & Hnone)].
  - left. split; [exact Hr|]. intros j ls Hl. apply (Hnone j ls); [lia|exact Hl].
  - right. split; [exact Hr|]. split; [exact Hfound|].
    intros j ls Hj Hl. apply (Hnone j ls); [lia|exact Hl].
Qed.

(** X21. [dnsasm_name_find] on entries of any content: when the array has
    [count] entries of at least 511 bytes each and the needle has
    [needle_len] bytes, no read leaves a buffer, the search ends, and the
    result is -1 or an index below [count] ([count] below 2^31). *)
Theorem name_find_safe (needle : list byte) (needle_len : Z)
  (haystack : list (list byte)) (count : Z) :
  0 <= needle_len <= Z.of_nat (length needle) ->
  needle_len < 18446744073709551616 ->
  0 <= count <= Z.of_nat (length haystack) ->
  count < 2147483648 ->
  Forall (fun hay => 511 <= Z.of_nat (length hay)) haystack ->
  exists r : Z,
    dnsasm_name_find needle needle_len haystack count = Done r
    /\ (r = -1 \/ 0 <= r < count).
Proof.
  intros Hn Hmax Hc Hcount Hall. unfold dnsasm_name_find.
  assert (Hloop : forall (n : nat) (i : Z),
             0 <= i -> i + Z.of_nat n = count ->
             exists r : Z,
               name_find_loop n needle needle_len haystack i = Done r
               /\ (r = -1 \/ i <= r < count)).
  { induction n as [|n IH]; intros i Hi Hin.
    - exists (-1). split; [reflexivity|left; reflexivity].
    - destruct (lookup_lt_is_Some_2 haystack (Z.to_nat i)) as [hay Hhay];
        [lia|].
      pose proof (Forall_lookup_1 _ _ _ _ Hall Hhay) as Hbig.
      cbn beta in Hbig.
      destruct (hay_length_total hay Hbig hay_length_fuel 0) as
        (p & Hp & Hpr); [lia|unfold hay_length_fuel; lia
                        |unfold hay_length_fuel; lia|].
      cbn [name_find_loop]. unfold name_find_body.
      rewrite (load_entry_lookup _ _ _ Hi Hhay). cbn [bind].
      rewrite Hp. cbn [bind]. rewrite sz_small by lia.
      rewrite name_equal_run by lia.
      destruct (decide (needle_len = p + 1 /\ _)) as [_|_];
        cbn [Z.eqb bind].
      + exists (to_int i). split; [reflexivity|].
        rewrite to_int_small by lia. right. lia.
      + rewrite sz_small by lia.
        destruct (IH (i + 1)) as (r & Hrun & Hr); [lia|lia|].
        exists r. split; [exact Hrun|lia]. }
  destruct (Hloop (Z.to_nat count) 0) as (r & Hrun & Hr); [lia|lia|].
  exists r. split; [exact Hrun|lia].
Qed.

(* ------------------------------------------------------------------ *)
(** ** Byte swaps *)

(** X22. The byte swaps are involutions on their ranges: swapping the
    bytes of a 16-bit value twice, or those of a 32-bit value twice, gives
    the value back, and a swapped value is in the same range. *)
Theorem bswap_involutive (v w : Z) :
  0 <= v < 65536 -> 0 <= w < 4294967296 ->
  bswap16 (bswap16 v) = v /\ 0 <= bswap16 v < 65536
  /\ bswap32 (bswap32 w) = w /\ 0 <= bswap32 w < 4294967296.
Proof.
  intros Hv Hw.
  assert (A0 : 0 <= v mod 256 < 256) by (apply Z.mod_pos_bound; lia).
  assert (A1 : 0 <= v / 256 < 256)
    by (split; [apply Z.div_pos; lia|apply Z.div_lt_upper_bound; lia]).
  assert (R0 : 0 <= w mod 256 < 256) by (apply Z.mod_pos_bound; lia).
  assert (R1 : 0 <= w / 256 mod 256 < 256) by (apply Z.mod_pos_bound; lia).
  assert (R2 : 0 <= w / 65536 mod 256 < 256)
    by (apply Z.mod_pos_bound; lia).
  assert (R3 : 0 <= w / 16777216 < 256)
    by (split; [apply Z.div_pos; lia|apply Z.div_lt_upper_bound; lia]).
  rewrite (bswap16_value v Hv), (bswap32_value w Hw).
  split; [|split; [lia|split; [|lia]]].
  - rewrite Z.add_comm, Z.mul_comm. rewrite bswap16_bytes by assumption.
    pose proof (Z.div_mod v 256). lia.
  - replace (w mod 256 * 16777216 + w / 256 mod 256 * 65536
             + w / 65536 mod 256 * 256 + w / 16777216)
      with (w / 16777216 + 256 * (w / 65536 mod 256)
            + 65536 * (w / 256 mod 256) + 16777216 * (w mod 256)) by lia.
    rewrite bswap32_bytes by assumption.
    pose proof (Z.div_mod w 256).
    pose proof (Z.div_mod (w / 256) 256).
    pose proof (Z.div_mod (w / 65536) 256).
    assert (D1 : w / 256 / 256 = w / 65536)
      by (rewrite Z.div_div by lia; reflexivity).
    assert (D2 : w / 65536 / 256 = w / 16777216)
      by (rewrite Z.div_div by lia; reflexivity).
    lia.
Qed.

(* ------------------------------------------------------------------ *)
(** ** Decompressing a decompressed name *)

Lemma wire_path_labels (packet : list byte) (len p q : Z) (hops : nat)
  (bs : list byte) (c : Z) :
  wire_path packet len p q hops bs c ->
  exists ls : list (list byte), Forall valid_label ls /\ bs = enc_labels ls.
Proof.
  induction 1 as [p|p q lab hops bs c Hlab _ _ _ IH|p t q hops bs c _ _ _ IH].
  - exists []. split; [constructor|reflexivity].
  - destruct IH as (ls & Hv & ->). exists (lab :: ls).
    split; [constructor; assumption|reflexivity].
  - exact IH.
Qed.

(** X23. The output of a successful decompression is a name of its own: if
    the bytes at the offset are a name in wire format (labels and up to
    127 backward pointers leading to a terminator, at most 255 bytes of
    labels), the call succeeds, and decompressing the output, taken as a
    packet of the length returned, gives the same bytes and the same
    length again, and consumes all of them. *)
Theorem decompress_idempotent (packet : list byte) (len offset : Z)
  (out : list byte) (out_len : Z) (q : Z) (hops : nat) (bs : list byte)
  (c : Z) (out2 : list byte) (out_len2 : Z) :
  wire_path packet len offset q hops bs c ->
  terminator_at packet len q ->
  len < 18446744073709551616 ->
  Z.of_nat (length bs) <= DNS_MAX_NAME_LEN ->
  (hops <= 127)%nat ->
  DNS_MAX_NAME_LEN + 1 <= Z.of_nat (length out) ->
  DNS_MAX_NAME_LEN + 1 <= Z.of_nat (length out2) ->
  exists (r : dnsasm_result_t) (name : list byte) (nl : Z),
    dnsasm_decompress_name packet len offset out out_len = Done (r, name, nl)
    /\ res_error r = DNSASM_OK
    /\ take (Z.to_nat nl) name = bs ++ [x00]
    /\ dnsasm_decompress_name name nl 0 out2 out_len2
       = Done ({| res_error := DNSASM_OK; res_offset := nl |},
               overwrite out2 0 (take (Z.to_nat nl) name), nl).
Proof.
  intros Hpath Hterm Hmax Hbs Hhops Hout Hout2.
  destruct (wire_path_labels _ _ _ _ _ _ _ Hpath) as (ls & Hv & ->).
  unfold DNS_MAX_NAME_LEN in *.
  eexists _, _, _. split.
  - apply (decompress_path_ok packet len offset out out_len q hops
             (enc_labels ls) c Hpath Hterm Hmax);
      unfold DNS_MAX_NAME_LEN; try assumption; lia.
  - split; [reflexivity|].
    assert (Hl : Z.of_nat (length (enc_labels ls)) + 1
                 = Z.of_nat (length (enc_labels ls ++ [x00])))
      by (rewrite length_app; cbn [length]; lia).
    assert (Hat : bytes_at (overwrite out 0 (enc_labels ls ++ [x00])) 0
                    (enc_labels ls ++ [x00]))
      by (apply bytes_at_overwrite; lia).
    assert (Htake : take (Z.to_nat (Z.of_nat (length (enc_labels ls)) + 1))
                      (overwrite out 0 (enc_labels ls ++ [x00]))
                    = enc_labels ls ++ [x00]).
    { destruct Hat as [_ Hat]. change (Z.to_nat 0) with 0%nat in Hat.
      rewrite drop_0 in Hat. rewrite Hl, Nat2Z.id. exact Hat. }
    split; [exact Htake|]. rewrite Htake. rewrite Hl.
    apply decompress_labels_plain; unfold DNS_MAX_NAME_LEN;
      try assumption; lia.
Qed.

(* ------------------------------------------------------------------ *)
(** ** Walking a response *)

Lemma bytes_at_self (p : list byte) : bytes_at p 0 p.
Proof.
  split; [lia|]. change (Z.to_nat 0) with 0%nat. rewrite drop_0.
  apply take_ge. lia.
Qed.

(** X24. A response of a header, one question with an uncompressed name
    and one answer whose name is a pointer to the question name at offset
    12 is walked by the three decoders in turn: [dnsasm_parse_header]
    gives the header fields, [dnsasm_parse_question] at offset 12 gives
    the name, type and class and the offset of the answer, and
    [dnsasm_parse_rr] at that offset gives the same name again (through
    the pointer, for a wire length of 12 plus the rdata), the fields and
    the rdata of the answer, and the offset of the end of the message. *)
Theorem response_walk (id flags : Z) (ls : list (list byte)) (qt qc : Z)
  (ty cl ttl : Z) (rdata : list byte) (h0 : dnsasm_header_t)
  (q0 : dnsasm_question_t) (rr0 : dnsasm_rr_t) :
  0 <= id < 65536 -> 0 <= flags < 65536 ->
  0 <= qt < 65536 -> 0 <= qc < 65536 ->
  0 <= ty < 65536 -> 0 <= cl < 65536 -> 0 <= ttl < 4294967296 ->
  Forall valid_label ls ->
  Z.of_nat (length (enc_labels ls)) <= DNS_MAX_NAME_LEN ->
  DNS_MAX_NAME_LEN + 1 <= Z.of_nat (length (q_name q0)) ->
  DNS_MAX_NAME_LEN + 1 <= Z.of_nat (length (rr_name rr0)) ->
  let packet := response_bytes id flags ls qt qc ty cl ttl rdata in
  let len := Z.of_nat (length packet) in
  let qlen := Z.of_nat (length (question_bytes ls qt qc)) in
  len <= DNS_MAX_PACKET_SIZE ->
  dnsasm_parse_header packet len h0
  = Done (DNSASM_OK, header_of id flags 1 1 0 0 (hdr_pad h0))
  /\ dnsasm_parse_question packet len DNS_HEADER_SIZE q0
     = Done ({| res_error := DNSASM_OK;
                res_offset := DNS_HEADER_SIZE + qlen |},
             {| q_name := overwrite (q_name q0) 0 (enc_name ls);
                q_name_len := Z.of_nat (length (enc_name ls));
                q_qtype := qt; q_qclass := qc; q_wire_len := qlen |})
  /\ exists rr : dnsasm_rr_t,
       dnsasm_parse_rr packet len (DNS_HEADER_SIZE + qlen) rr0
       = Done ({| res_error := DNSASM_OK; res_offset := len |}, rr)
       /\ rr_name rr = overwrite (rr_name rr0) 0 (enc_name ls)
       /\ rr_name_len rr = Z.of_nat (length (enc_name ls))
       /\ rr_rtype rr = ty /\ rr_rclass rr = cl /\ rr_ttl rr = ttl
       /\ rr_rdlength rr = Z.of_nat (length rdata)
       /\ rdata_view packet rr = rdata
       /\ rr_wire_len rr = 12 + Z.of_nat (length rdata).
Proof.
  intros Hid Hfl Hqt Hqc Hty Hcl Httl Hv Hfit Hq0 Hrr0 packet len qlen Hmax.
  unfold DNS_MAX_NAME_LEN, DNS_MAX_PACKET_SIZE, DNS_HEADER_SIZE in *.
  assert (Hnl : Z.of_nat (length (enc_name ls))
                = Z.of_nat (length (enc_labels ls)) + 1).
  { unfold enc_name. rewrite length_app. cbn [length]. lia. }
  assert (Hql : qlen = Z.of_nat (length (enc_name ls)) + 4).
  { subst qlen. unfold question_bytes. rewrite !length_app.
    cbn [length be16_bytes]. lia. }
  assert (Hal : Z.of_nat (length (answer_bytes ty cl ttl rdata))
                = 12 + Z.of_nat (length rdata)).
  { unfold answer_bytes. rewrite !length_app.
    cbn [length be16_bytes be32_bytes]. lia. }
  assert (Hlen : len = 12 + qlen + 12 + Z.of_nat (length rdata)).
  { subst len packet qlen. unfold response_bytes. rewrite !length_app.
    change (length (header_bytes id flags 1 1 0 0)) with 12%nat. lia. }
  pose proof (bytes_at_self packet) as Hself.
  unfold packet at 2 in Hself. unfold response_bytes in Hself.
  apply bytes_at_app in Hself. destruct Hself as [Hhdr Hrest].
  change (length (header_bytes id flags 1 1 0 0)) with 12%nat in Hrest.
  change (0 + Z.of_nat 12) with 12 in Hrest.
  apply bytes_at_app in Hrest. destruct Hrest as [Hqb Hab].
  fold qlen in Hab.
  unfold question_bytes in Hqb.
  apply bytes_at_app in Hqb. destruct Hqb as [Hname Hqb].
  apply bytes_at_app in Hqb. destruct Hqb as [Hqtb Hqcb].
  cbn [length be16_bytes] in Hqcb.
  unfold answer_bytes in Hab.
  apply bytes_at_cons in Hab. destruct Hab as [Hp0 Hab].
  apply bytes_at_cons in Hab. destruct Hab as [Hp1 Hab].
  cbn [app] in Hab.
  apply bytes_at_app in Hab. destruct Hab as [Htyb Hab].
  apply bytes_at_app in Hab. destruct Hab as [Hclb Hab].
  apply bytes_at_app in Hab. destruct Hab as [Httlb Hab].
  apply bytes_at_app in Hab. destruct Hab as [Hrdlb Hrdb].
  cbn [length be16_bytes be32_bytes] in *.
  set (o1 := 12 + qlen) in *.
  replace (o1 + 1 + 1) with (o1 + 2) in * by lia.
  replace (o1 + 2 + Z.of_nat 2) with (o1 + 2 + 2) in * by lia.
  replace (o1 + 2 + 2 + Z.of_nat 2) with (o1 + 2 + 4) in * by lia.
  replace (o1 + 2 + 4 + Z.of_nat 4) with (o1 + 2 + 8) in * by lia.
  replace (o1 + 2 + 8 + Z.of_nat 2) with (o1 + 2 + 10) in * by lia.
  split; [|split].
  - apply parse_header_bytes; try assumption; unfold DNS_HEADER_SIZE; lia.
  - subst o1. rewrite Hql.
    replace (12 + (Z.of_nat (length (enc_name ls)) + 4))
      with (12 + Z.of_nat (length (enc_name ls)) + 4) by lia.
    apply parse_question_fields; try lia.
    + unfold enc_name in *.
      apply decompress_labels_plain; unfold DNS_MAX_NAME_LEN;
        try assumption; lia.
    + apply be16_of_bytes; assumption.
    + apply be16_of_bytes; [assumption|].
      replace (12 + Z.of_nat (length (enc_name ls)) + 2)
        with (12 + Z.of_nat (length (enc_name ls)) + Z.of_nat 2) by lia.
      exact Hqcb.
  - assert (Hpath : wire_path packet len o1
                      (12 + Z.of_nat (length (enc_labels ls))) 1
                      (enc_labels ls) 2).
    { apply (path_pointer packet len o1 12
               (12 + Z.of_nat (length (enc_labels ls))) 0 (enc_labels ls)
               (Z.of_nat (length (enc_labels ls)))).
      - unfold pointer_target. rewrite Hp0, Hp1.
        change (u8 xc0) with 192. change (u8 x0c) with 12.
        cbn [Z.leb Pos.compare Pos.compare_cont andb].
        destruct (Z.ltb_spec (o1 + 1) len) as [_|Hbad]; [reflexivity|lia].
      - lia.
      - unfold enc_name in Hname.
        apply bytes_at_app in Hname. destruct Hname as [Hlabs _].
        pose proof (labels_path packet len ls 12
                      (12 + Z.of_nat (length (enc_labels ls))) 0 [] 0 Hv
                      Hlabs ltac:(lia) (path_here _ _ _)) as Hp.
        rewrite app_nil_r, Z.add_0_r in Hp. exact Hp. }
    assert (Hterm : terminator_at packet len
                      (12 + Z.of_nat (length (enc_labels ls)))).
    { unfold enc_name in Hname.
      apply bytes_at_app in Hname. destruct Hname as [_ Hz].
      apply bytes_at_peek in Hz. split; [exact Hz|lia]. }
    eexists. split.
    + replace len with (o1 + 2 + 10 + Z.of_nat (length rdata)) at 2 by lia.
      apply parse_rr_fields with (ty := ty) (cl := cl) (ttl := ttl);
        try lia.
      * apply (decompress_path_ok packet len o1 (rr_name rr0)
                 (rr_name_len rr0) _ 1 (enc_labels ls) 2 Hpath Hterm);
          unfold DNS_MAX_NAME_LEN; lia.
      * unfold DNS_MAX_PACKET_SIZE. lia.
      * apply be16_of_bytes; assumption.
      * apply be16_of_bytes; assumption.
      * apply be32_of_bytes; assumption.
      * apply be16_of_bytes; [lia|assumption].
    + cbn [rr_name rr_name_len rr_rtype rr_rclass rr_ttl rr_rdlength
           rr_wire_len].
      split; [reflexivity|]. split; [lia|].
      repeat (split; [reflexivity|]). split; [|lia].
      unfold rdata_view. cbn [rr_rdata rr_rdlength].
      destruct Hrdb as [_ Hrdb]. rewrite Nat2Z.id. exact Hrdb.
Qed.

(* ------------------------------------------------------------------ *)
(** ** The dotted name *)

Lemma dotted_app_of (ls : list (list byte)) :
  Forall valid_label ls ->
  forall pre : list byte,
    dotted_app pre ls
    = match pre, ls with
      | _, [] => pre
      | [], _ => dotted_of ls
      | _ :: _, _ => pre ++ [char_dot] ++ dotted_of ls
      end.
Proof.
  induction 1 as [|lab ls Hlab Hv IH]; intros pre.
  - destruct pre; reflexivity.
  - cbn [dotted_app]. rewrite IH.
    assert (Hne : lab <> []).
    { unfold valid_label in Hlab. destruct lab; [cbn in Hlab; lia|].
      discriminate. }
    destruct pre as [|p pre]; destruct lab as [|x lab]; try contradiction;
      destruct ls as [|lab' ls]; cbn [dotted_of app]; try reflexivity.
    rewrite <- !app_assoc. reflexivity.
Qed.

Lemma dotted_app_length (ls : list (list byte)) :
  forall pre : list byte,
    (length (dotted_app pre ls) <= length pre + length (enc_labels ls))%nat.
Proof.
  induction ls as [|lab ls IH]; intros pre; [cbn; lia|].
  cbn [dotted_app]. rewrite enc_labels_cons, length_app. unfold enc_label.
  cbn [length]. etransitivity; [apply IH|].
  destruct pre; rewrite ?length_app; cbn [length]; lia.
Qed.

(** The loop along the labels of a name. *)
Lemma dotted_loop_labels (name : list byte) (name_len : Z) (d0 : list byte)
  (ls : list (list byte)) :
  forall (fuel : nat) (i : Z) (pre : list byte),
    Forall valid_label ls ->
    bytes_at name i (enc_labels ls) ->
    0 <= i ->
    i + Z.of_nat (length (enc_labels ls)) <= name_len ->
    name_len < 9223372036854775808 ->
    (name_len = i + Z.of_nat (length (enc_labels ls))
     \/ peek name (i + Z.of_nat (length (enc_labels ls))) = Some x00) ->
    Z.of_nat (length pre) + Z.of_nat (length (enc_labels ls))
    <= Z.of_nat (length d0) ->
    Z.of_nat (length d0) < 9223372036854775808 ->
    (length ls < fuel)%nat ->
    dotted_loop fuel name name_len
      {| d_di := Z.of_nat (length pre); d_i := i;
         d_dotted := overwrite d0 0 pre |}
    = Done {| d_di := Z.of_nat (length (dotted_app pre ls));
              d_i := i + Z.of_nat (length (enc_labels ls));
              d_dotted := overwrite d0 0 (dotted_app pre ls) |}.
Proof.
  induction ls as [|lab ls IH];
    intros fuel i pre Hv Hb Hi Hin Hmax Hend Hroom Hd Hfuel.
  - destruct fuel as [|fuel]; [cbn in Hfuel; lia|].
    cbn [enc_labels map concat length dotted_app] in *.
    cbn [dotted_loop]. unfold dotted_body. cbn [d_i].
    rewrite Z.add_0_r in *.
    destruct Hend as [He|He].
    + destruct (Z.ltb_spec i name_len) as [Hbad|_]; [lia|].
      cbn [negb bind]. reflexivity.
    + destruct (i <? name_len); cbn [negb bind]; [|reflexivity].
      rewrite (load8_peek _ _ _ He). cbn [bind].
      change (u8 x00) with 0. cbn [Z.eqb bind]. reflexivity.
  - destruct fuel as [|fuel]; [cbn in Hfuel; lia|].
    inversion Hv as [|? ? Hlab Hv']; subst.
    pose proof Hlab as Hlab'. unfold valid_label in Hlab'.
    rewrite enc_labels_cons in *. rewrite length_app in *.
    unfold enc_label in Hb, Hin, Hend, Hroom |- *.
    cbn [length app] in Hb, Hin, Hend, Hroom |- *.
    apply bytes_at_cons in Hb. destruct Hb as [Hpk Hb].
    apply bytes_at_app in Hb. destruct Hb as [Hlabb Hrest].
    cbn [dotted_loop]. unfold dotted_body. cbn [d_i d_di d_dotted].
    destruct (Z.ltb_spec i name_len) as [_|Hbad]; [|lia].
    cbn [negb]. rewrite (load8_peek _ _ _ Hpk). cbn [bind].
    rewrite (u8_label_length lab Hlab).
    destruct (Z.eqb_spec (Z.of_nat (length lab)) 0) as [Hbad|_]; [lia|].
    assert (Hlne : lab <> []) by (destruct lab; [cbn in Hlab'; lia|discriminate]).
    set (pre' := match pre with
                 | [] => lab
                 | _ :: _ => pre ++ [char_dot] ++ lab
                 end).
    assert (Hstep :
              (let* s1 :=
                 (if Z.of_nat (length pre) >? 0 then
                    let* d := store8 (overwrite d0 0 pre)
                                (Z.of_nat (length pre)) char_dot in
                    Done (sz (Z.of_nat (length pre) + 1), d)
                  else Done (Z.of_nat (length pre), overwrite d0 0 pre)) in
               let '(di, d) := s1 in
               let* d' := memcpy d di name (i + 1)
                            (Z.of_nat (length lab)) in
               Done (Some {| d_di := sz (di + Z.of_nat (length lab));
                             d_i := sz (i + (Z.of_nat (length lab) + 1));
                             d_dotted := d' |}))
              = Done (Some {| d_di := Z.of_nat (length pre');
                              d_i := i + 1 + Z.of_nat (length lab);
                              d_dotted := overwrite d0 0 pre' |})).
    { destruct pre as [|p pre]; subst pre'.
      - change (Z.of_nat (length (@nil byte))) with 0.
        change (0 >? 0) with false. cbn [bind].
        rewrite overwrite_nil.
        rewrite (memcpy_ok d0 name 0 (i + 1) lab); try assumption; [|lia|lia].
        cbn [bind]. rewrite !sz_small by lia.
        do 3 f_equal; lia.
      - destruct (Z.gtb_spec (Z.of_nat (length (p :: pre))) 0) as [_|Hbad];
          [|cbn [length] in Hbad; lia].
        rewrite store8_ok
          by (rewrite length_overwrite; cbn [length] in *; lia).
        cbn [bind].
        replace (Z.of_nat (length (p :: pre)))
          with (0 + Z.of_nat (length (p :: pre))) at 1 by lia.
        rewrite overwrite_app by (cbn [length] in *; lia).
        rewrite sz_small by (cbn [length] in *; lia).
        replace (Z.of_nat (length (p :: pre)) + 1)
          with (0 + Z.of_nat (length ((p :: pre) ++ [char_dot])))
          by (rewrite length_app; cbn [length]; lia).
        rewrite (memcpy_ok _ name _ (i + 1) lab); try assumption;
          [|lia
           |rewrite length_overwrite;
            rewrite ?length_app; cbn [length] in *; lia].
        cbn [bind].
        rewrite overwrite_app
          by (rewrite ?length_app; cbn [length] in *; lia).
        rewrite !sz_small
          by (rewrite ?length_app; cbn [length] in *; lia).
        rewrite <- app_assoc.
        do 3 f_equal.
        + rewrite !length_app. cbn [length]. lia.
        + lia. }
    rewrite Hstep. cbn [bind dotted_app]. fold pre'.
    assert (Hpl : Z.of_nat (length pre')
                  <= Z.of_nat (length pre) + 1 + Z.of_nat (length lab)).
    { subst pre'. destruct pre; rewrite ?length_app; cbn [length]; lia. }
    rewrite (IH fuel (i + 1 + Z.of_nat (length lab)) pre' Hv' Hrest);
      try lia.
    + do 2 f_equal. lia.
    + destruct Hend as [He|He]; [left; lia|right].
      replace (i + 1 + Z.of_nat (length lab)
               + Z.of_nat (length (enc_labels ls)))
        with (i + Z.of_nat (S (length lab + length (enc_labels ls))))
        by lia.
      exact He.
    + cbn [length] in Hfuel. lia.
Qed.

(** X25. The conversion to dotted notation in [print_question]
    (console/main.c): for a name of labels of 1 to 63 bytes, at most 255
    bytes on the wire, whether [name_len] counts its terminator or the
    name stops at [name_len] without one, the loop ends, every write goes
    into the 256 bytes of [dotted], and [dotted] then holds the labels
    joined by dots and a terminating zero, which take less than 256
    bytes. *)
Theorem print_question_dotted_labels (name : list byte) (name_len : Z)
  (dotted : list byte) (ls : list (list byte)) :
  Forall valid_label ls ->
  Z.of_nat (length (enc_labels ls)) <= DNS_MAX_NAME_LEN ->
  bytes_at name 0 (enc_labels ls) ->
  (name_len = Z.of_nat (length (enc_labels ls))
   \/ name_len = Z.of_nat (length (enc_labels ls)) + 1
      /\ peek name (Z.of_nat (length (enc_labels ls))) = Some x00) ->
  length dotted = 256%nat ->
  print_question_dotted name name_len dotted
  = Done (overwrite dotted 0 (dotted_of ls ++ [x00]))
  /\ Z.of_nat (length (dotted_of ls ++ [x00])) <= 256.
Proof.
  intros Hv Hfit Hb Hend Hd. unfold DNS_MAX_NAME_LEN in Hfit.
  pose proof (enc_labels_count ls Hv) as Hcount.
  pose proof (dotted_app_length ls []) as Hlen.
  rewrite (dotted_app_of ls Hv []) in Hlen. cbn [length] in Hlen.
  assert (Hdl : Z.of_nat (length (match ls with
                                  | [] => []
                                  | _ :: _ => dotted_of ls
                                  end)) = Z.of_nat (length (dotted_of ls)))
    by (destruct ls; reflexivity).
  assert (Hshort : ls <> [] ->
                   Z.of_nat (length (dotted_of ls))
                   < Z.of_nat (length (enc_labels ls))).
  { intros Hne. destruct ls as [|lab ls]; [contradiction|].
    inversion Hv as [|? ? Hlab Hv']; subst.
    pose proof (dotted_app_length ls lab) as Hl2.
    rewrite (dotted_app_of ls Hv' lab) in Hl2.
    unfold valid_label in Hlab.
    rewrite enc_labels_cons, length_app. unfold enc_label. cbn [length].
    destruct lab as [|x lab]; [cbn in Hlab; lia|].
    destruct ls as [|lab' ls]; cbn [dotted_of] in *.
    - cbn [enc_labels map concat length]. lia.
    - rewrite !length_app in *. cbn [length] in *. lia. }
  assert (Hsize : Z.of_nat (length (dotted_of ls)) + 1 <= 256).
  { destruct ls as [|lab ls]; [cbn; lia|].
    specialize (Hshort ltac:(discriminate)). lia. }
  split; [|rewrite length_app; cbn [length]; lia].
  unfold print_question_dotted.
  rewrite <- (overwrite_nil dotted 0) at 1.
  change 0 with (Z.of_nat (length (@nil byte))) at 1.
  rewrite (dotted_loop_labels name name_len dotted ls _ 0 [] Hv Hb);
    try lia.
  - cbn [bind d_dotted d_di]. rewrite (dotted_app_of ls Hv []).
    replace (match ls with [] => [] | _ :: _ => dotted_of ls end)
      with (dotted_of ls) by (destruct ls; reflexivity).
    rewrite store8_ok by (rewrite length_overwrite; lia).
    replace (Z.of_nat (length (dotted_of ls)))
      with (0 + Z.of_nat (length (dotted_of ls))) at 1 by lia.
    rewrite overwrite_app by lia. reflexivity.
  - destruct Hend as [He|[He Hz]]; [left; lia|right; exact Hz].
  - cbn [length]. lia.
Qed.

(* ------------------------------------------------------------------ *)
(** ** Termination of the other loops *)

Lemma load8_cases (p : list byte) (i : Z) :
  (exists b : byte, load8 p i = Done b) \/ load8 p i = Fault OobRead.
Proof.
  unfold load8. destruct (peek p i) as [b|]; [left; exists b|right];
    reflexivity.
Qed.

Lemma store8_cases (p : list byte) (i : Z) (v : byte) :
  (exists p' : list byte, store8 p i v = Done p')
  \/ store8 p i v = Fault OobWrite.
Proof.
  unfold store8. destruct (in_bounds p i 1); [left; eexists|right];
    reflexivity.
Qed.

Lemma memcpy_cases (dst : list byte) (di : Z) (src : list byte) (si n : Z) :
  (exists d' : list byte, memcpy dst di src si n = Done d')
  \/ (exists f : fault, memcpy dst di src si n = Fault f).
Proof.
  unfold memcpy. destruct (in_bounds dst di n); cbn [negb];
    [|right; eexists; reflexivity].
  destruct (in_bounds src si n); cbn [negb];
    [left|right]; eexists; reflexivity.
Qed.

(** The loop that measures an entry makes at most 128 passes, whatever
    the entry holds and however long it is. *)
Lemma hay_length_fuel_enough (hay : list byte) :
  forall (fuel : nat) (p : Z),
    0 <= p -> (1 <= fuel)%nat -> 257 - p <= 2 * Z.of_nat fuel ->
    hay_length_loop fuel hay p <> OutOfFuel.
Proof.
  induction fuel as [|fuel IH]; intros p Hp H1 H2; [lia|].
  cbn [hay_length_loop]. unfold hay_length_body.
  destruct (load8_cases hay p) as [[b Hb]|Hb]; rewrite Hb; cbn [bind];
    [|discriminate].
  pose proof (u8_range b) as Hr. unfold DNS_MAX_NAME_LEN.
  destruct (Z.eqb_spec (u8 b) 0) as [Hz|Hnz]; cbn [negb andb bind];
    [discriminate|].
  destruct (Z.ltb_spec p 255) as [Hlt|Hge]; cbn [bind]; [|discriminate].
  rewrite sz_small by lia. apply IH; lia.
Qed.

Lemma name_equal_loop_fuel (n : nat) (a b : list byte) :
  forall i : Z, name_equal_loop n a b i <> OutOfFuel.
Proof.
  induction n as [|n IH]; intros i; [discriminate|].
  cbn [name_equal_loop]. unfold name_equal_body.
  destruct (load8_cases a i) as [[x Hx]|Hx]; rewrite Hx; cbn [bind];
    [|discriminate].
  destruct (load8_cases b i) as [[y Hy]|Hy]; rewrite Hy; cbn [bind];
    [|discriminate].
  cbv zeta. destruct (negb _); cbn [bind]; [discriminate|apply IH].
Qed.

(** X26. [dnsasm_name_find] comes to an end on every input: whatever the
    needle, the array, its entries and the counts are, the scan of an
    entry stops after at most 128 passes and the call returns or stops at
    an access outside of a buffer; no input makes a loop run forever. *)
Theorem name_find_terminates (needle : list byte) (needle_len : Z)
  (haystack : list (list byte)) (count : Z) :
  dnsasm_name_find needle needle_len haystack count <> OutOfFuel
  /\ forall hay : list byte,
       hay_length_loop hay_length_fuel hay 0 <> OutOfFuel.
Proof.
  assert (Hscan : forall hay : list byte,
             hay_length_loop hay_length_fuel hay 0 <> OutOfFuel).
  { intros hay. apply hay_length_fuel_enough; unfold hay_length_fuel; lia. }
  split; [|exact Hscan].
  unfold dnsasm_name_find. generalize 0 at 1. generalize (Z.to_nat count).
  induction n as [|n IH]; intros i; [discriminate|].
  cbn [name_find_loop]. unfold name_find_body, load_entry.
  destruct ((0 <=? i) && (i <? Z.of_nat (length haystack)));
    cbn [bind]; [|discriminate].
  destruct (haystack !! Z.to_nat i) as [hay|]; cbn [bind]; [|discriminate].
  specialize (Hscan hay).
  destruct (hay_length_loop hay_length_fuel hay 0) as [p|f|];
    cbn [bind]; [|discriminate|contradiction].
  unfold dnsasm_name_equal.
  destruct (negb (needle_len =? sz (p + 1))); cbn [bind].
  - cbn [Z.eqb]. apply IH.
  - pose proof (name_equal_loop_fuel (Z.to_nat needle_len) needle hay 0)
      as Hne.
    destruct (name_equal_loop (Z.to_nat needle_len) needle hay 0)
      as [v|f|]; cbn [bind]; [|discriminate|contradiction].
    destruct (v =? 0); [discriminate|apply IH].
Qed.

Lemma dotted_fuel_enough (name : list byte) (name_len : Z) :
  name_len < 9223372036854775808 ->
  forall (fuel : nat) (s : dotted_state),
    0 <= d_i s -> (1 <= fuel)%nat -> name_len - d_i s < Z.of_nat fuel ->
    dotted_loop fuel name name_len s <> OutOfFuel.
Proof.
  intros Hmax. induction fuel as [|fuel IH]; intros s Hi H1 H2; [lia|].
  cbn [dotted_loop]. unfold dotted_body.
  destruct (Z.ltb_spec (d_i s) name_len) as [Hlt|Hge]; cbn [negb bind];
    [|discriminate].
  destruct (load8_cases name (d_i s)) as [[b Hb]|Hb]; rewrite Hb;
    cbn [bind]; [|discriminate].
  pose proof (u8_range b) as Hr.
  destruct (Z.eqb_spec (u8 b) 0) as [Hz|Hnz]; cbn [bind]; [discriminate|].
  assert (Hcopy : forall (di : Z) (d : list byte),
             (let* r :=
                (let* d' := memcpy d di name (d_i s + 1) (u8 b) in
                 Done (Some {| d_di := sz (di + u8 b);
                               d_i := sz (d_i s + (u8 b + 1));
                               d_dotted := d' |})) in
              match r with
              | Some s' => dotted_loop fuel name name_len s'
              | None => Done s
              end) <> OutOfFuel).
  { intros di d.
    destruct (memcpy_cases d di name (d_i s + 1) (u8 b)) as [[d' Hm]|[f Hm]];
      rewrite Hm; cbn [bind]; [|discriminate].
    apply IH; cbn [d_i]; rewrite ?sz_small by lia; lia. }
  destruct (d_di s >? 0).
  - destruct (store8_cases (d_dotted s) (d_di s) char_dot) as [[d Hs]|Hs];
      rewrite Hs; cbn [bind]; [|discriminate].
    apply Hcopy.
  - cbn [bind]. apply Hcopy.
Qed.

(** X27. The conversion to dotted notation in [print_question] comes to
    an end on every name and every [name_len] (a 16-bit value in the
    source): every pass moves [i] forward by at least two, so that the
    loop makes at most [name_len] passes; the call returns or stops at an
    access outside of a buffer. *)
Theorem print_question_dotted_terminates (name : list byte) (name_len : Z)
  (dotted : list byte) :
  name_len <= 65535 ->
  print_question_dotted name name_len dotted <> OutOfFuel.
Proof.
  intros Hmax. unfold print_question_dotted.
  pose proof (dotted_fuel_enough name name_len ltac:(lia)
                (S (Z.to_nat name_len))
                {| d_di := 0; d_i := 0; d_dotted := dotted |}) as Hloop.
  cbn [d_i] in Hloop. specialize (Hloop ltac:(lia) ltac:(lia) ltac:(lia)).
  destruct (dotted_loop (S (Z.to_nat name_len)) name name_len
              {| d_di := 0; d_i := 0; d_dotted := dotted |}) as [s|f|];
    cbn [bind]; [|discriminate|contradiction].
  destruct (store8_cases (d_dotted s) (d_di s) x00) as [[d Hs]|Hs];
    rewrite Hs; discriminate.
Qed.

(* ------------------------------------------------------------------ *)
(** ** The further properties on concrete inputs *)

Lemma labels_sample_valid : Forall valid_label labels_sample.
Proof. repeat constructor; vm_compute; lia. Qed.

(** The question name of the sample packet, from offset 12 to its
    terminator at offset 28. *)
Lemma sample_question_path :
  wire_path sample_packet 49 12 28 0 (enc_labels labels_sample) 16.
Proof.
  exact (labels_path sample_packet 49 labels_sample 12 28 0 [] 0
           labels_sample_valid ltac:(split; [lia|reflexivity]) ltac:(by_compute)
           (path_here sample_packet 49 28)).
Qed.

(** The answer name of the sample packet: a pointer to offset 12. *)
Lemma sample_answer_path :
  wire_path sample_packet 49 33 28 1 (enc_labels labels_sample) 2.
Proof. hop. exact sample_question_path. Qed.

Lemma sample_terminator : terminator_at sample_packet 49 28.
Proof. split; by_compute. Qed.

(** The question name of the sample packet decompresses to its 17
    bytes. *)
Lemma decompress_plain_name_witness :
  Forall valid_label labels_sample
  /\ bytes_at sample_packet 12 (enc_labels labels_sample ++ [x00])
  /\ dnsasm_decompress_name sample_packet 49 12 fresh_out 0
     = Done ({| res_error := DNSASM_OK; res_offset := 17 |},
             overwrite fresh_out 0 (enc_labels labels_sample ++ [x00]), 17).
Proof.
  assert (Hb : bytes_at sample_packet 12 (enc_labels labels_sample ++ [x00]))
    by (split; [lia|reflexivity]).
  split; [exact labels_sample_valid|]. split; [exact Hb|].
  apply (decompress_plain_name sample_packet 49 12 fresh_out 0 labels_sample
           ltac:(lia) ltac:(by_compute) labels_sample_valid Hb
           ltac:(by_compute) ltac:(by_compute)).
Defined.

Lemma one_label_path (packet : list byte) (len : Z) :
  bytes_at packet 0 [x01; x61] -> 2 <= len ->
  wire_path packet len 0 2 0 [x01; x61] 2.
Proof.
  intros Hb Hl.
  exact (path_label packet len 0 2 [x61] 0 [] 0 ltac:(vm_compute; lia) Hb Hl
           (path_here packet len 2)).
Qed.

(** A length byte of 64 behind the label [a]. *)
Lemma decompress_invalid_length_witness :
  wire_path bad_length_packet 3 0 2 0 [x01; x61] 2
  /\ peek bad_length_packet 2 = Some x40
  /\ dnsasm_decompress_name bad_length_packet 3 0 fresh_out 7
     = Done ({| res_error := DNSASM_ERR_NAME; res_offset := 0 |},
             overwrite fresh_out 0 [x01; x61], 7).
Proof.
  assert (Hp : wire_path bad_length_packet 3 0 2 0 [x01; x61] 2)
    by (apply one_label_path; [split; [lia|reflexivity]|lia]).
  split; [exact Hp|]. split; [reflexivity|].
  apply (decompress_invalid_length bad_length_packet 3 0 fresh_out 7 2 0
           [x01; x61] 2 x40 Hp); by_compute.
Defined.

(** A label of five bytes of which the packet has one. *)
Lemma decompress_cut_short_witness :
  wire_path cut_label_packet 4 0 2 0 [x01; x61] 2
  /\ peek cut_label_packet 2 = Some x05
  /\ dnsasm_decompress_name cut_label_packet 4 0 fresh_out 7
     = Done ({| res_error := DNSASM_ERR_SHORT; res_offset := 0 |},
             overwrite fresh_out 0 [x01; x61], 7).
Proof.
  assert (Hp : wire_path cut_label_packet 4 0 2 0 [x01; x61] 2)
    by (apply one_label_path; [split; [lia|reflexivity]|lia]).
  split; [exact Hp|]. split; [reflexivity|].
  apply (decompress_cut_short cut_label_packet 4 0 fresh_out 7 2 0
           [x01; x61] 2 x05 Hp); try by_compute.
  left. split; by_compute.
Defined.

Lemma overlong_path :
  wire_path overlong_name_packet 256 0 192 0
    (label_of_a 63 ++ label_of_a 63 ++ label_of_a 63) 192.
Proof.
  exact (labels_path overlong_name_packet 256
           [repeat x61 63; repeat x61 63; repeat x61 63] 0 192 0 [] 0
           ltac:(repeat constructor; vm_compute; lia)
           ltac:(split; [lia|reflexivity]) ltac:(by_compute)
           (path_here overlong_name_packet 256 192)).
Qed.

(** A fourth label of 63 bytes behind 192 bytes of labels. *)
Lemma decompress_overflow_witness :
  peek overlong_name_packet 192 = Some x3f
  /\ dnsasm_decompress_name overlong_name_packet 256 0 fresh_out 7
     = Done ({| res_error := DNSASM_ERR_OVERFLOW; res_offset := 0 |},
             overwrite fresh_out 0
               (label_of_a 63 ++ label_of_a 63 ++ label_of_a 63), 7).
Proof.
  split; [reflexivity|].
  apply (decompress_overflow overlong_name_packet 256 0 fresh_out 7 192 0
           _ 192 x3f overlong_path); by_compute.
Defined.

(** The answer name of the sample packet, and an offset far behind the
    packet. *)
Lemma decompress_memory_safe_witness :
  49 <= Z.of_nat (length sample_packet)
  /\ (exists (r : dnsasm_result_t) (name : list byte) (nl : Z),
         dnsasm_decompress_name sample_packet 49 33 fresh_out 7
         = Done (r, name, nl)
         /\ length name = length fresh_out
         /\ (res_error r = DNSASM_OK /\ 0 <= res_offset r <= 257
             /\ 0 <= nl <= 256
             \/ -5 <= res_error r <= -1 /\ res_offset r = 0 /\ nl = 7)).
Proof.
  assert (H1 : 49 <= Z.of_nat (length sample_packet)) by by_compute.
  split; [exact H1|].
  apply (decompress_memory_safe sample_packet 49 33 fresh_out 7 H1);
    by_compute.
Defined.

(** The answer name of the sample packet takes two bytes of it. *)
Lemma decompress_consumed_in_packet_witness :
  0 <= 33 <= 49
  /\ (exists (r : dnsasm_result_t) (name : list byte) (nl : Z),
         dnsasm_decompress_name sample_packet 49 33 fresh_out 7
         = Done (r, name, nl)
         /\ (res_error r = DNSASM_OK ->
             33 + res_offset r <= 49 /\ (33 < 49 -> 1 <= res_offset r))).
Proof.
  assert (H1 : 0 <= 33 <= 49) by lia.
  split; [exact H1|].
  apply (decompress_consumed_in_packet sample_packet 49 33 fresh_out 7
           ltac:(by_compute) ltac:(lia) H1 ltac:(by_compute)).
Defined.

(** The sample packet and the longer packet that starts with it. *)
Lemma decoders_read_below_len_witness :
  take (Z.to_nat 49) sample_packet = take (Z.to_nat 49) mail_packet
  /\ dnsasm_parse_rr sample_packet 49 33 fresh_rr
     = dnsasm_parse_rr mail_packet 49 33 fresh_rr.
Proof.
  assert (H1 : take (Z.to_nat 49) sample_packet
               = take (Z.to_nat 49) mail_packet) by reflexivity.
  split; [exact H1|].
  apply (decoders_read_below_len sample_packet mail_packet 49 33 H1
           ltac:(lia) ltac:(lia)).
Defined.

(** The header of the sample packet, and a packet of 11 bytes. *)
Lemma parse_header_decodes_witness :
  49 <= Z.of_nat (length sample_packet)
  /\ (exists id flags qd an ns ar : Z,
         be16 sample_packet 0 = Some id
         /\ be16 sample_packet 2 = Some flags
         /\ be16 sample_packet 4 = Some qd /\ be16 sample_packet 6 = Some an
         /\ be16 sample_packet 8 = Some ns
         /\ be16 sample_packet 10 = Some ar
         /\ dnsasm_parse_header sample_packet 49 (header_of 0 0 0 0 0 0 7)
            = Done (DNSASM_OK, header_of id flags qd an ns ar 7))
  /\ dnsasm_parse_header (take 11 sample_packet) 11 (header_of 0 0 0 0 0 0 7)
     = Done (DNSASM_ERR_SHORT, header_of 0 0 0 0 0 0 7).
Proof.
  assert (H1 : 49 <= Z.of_nat (length sample_packet)) by by_compute.
  split; [exact H1|]. split.
  - destruct (proj2 (parse_header_decodes sample_packet 49
                       (header_of 0 0 0 0 0 0 7) H1) ltac:(by_compute))
      as (id & fl & qd & an & ns & ar & E0 & E1 & E2 & E3 & E4 & E5 & Hp & _).
    exists id, fl, qd, an, ns, ar. repeat (split; [assumption|]). exact Hp.
  - apply (proj1 (parse_header_decodes (take 11 sample_packet) 11
                    (header_of 0 0 0 0 0 0 7) ltac:(by_compute)));
      by_compute.
Defined.

(** The header of the sample packet is parsed and built again. *)
Lemma header_parse_then_build_witness :
  DNS_HEADER_SIZE <= 49
  /\ exists h : dnsasm_header_t,
       dnsasm_parse_header sample_packet 49 (header_of 0 0 0 0 0 0 7)
       = Done (DNSASM_OK, h)
       /\ dnsasm_build_header (repeat xff 16) (hdr_id h) (hdr_flags h)
            (hdr_qdcount h) (hdr_ancount h) (hdr_nscount h) (hdr_arcount h)
          = Done (DNS_HEADER_SIZE,
                  take 12 sample_packet ++ drop 12 (repeat xff 16)).
Proof.
  assert (H1 : DNS_HEADER_SIZE <= 49) by by_compute.
  split; [exact H1|].
  apply (header_parse_then_build sample_packet 49 (header_of 0 0 0 0 0 0 7)
           (repeat xff 16) H1); by_compute.
Defined.

(** The question of the sample packet. *)
Lemma parse_question_decodes_witness :
  49 <= Z.of_nat (length sample_packet)
  /\ DNS_MAX_NAME_LEN + 1 <= Z.of_nat (length (q_name fresh_question))
  /\ exists (name : list byte) (qt qc : Z),
       be16 sample_packet 29 = Some qt /\ be16 sample_packet 31 = Some qc
       /\ dnsasm_parse_question sample_packet 49 12 fresh_question
          = Done ({| res_error := DNSASM_OK; res_offset := 33 |},
                  {| q_name := name; q_name_len := 17; q_qtype := qt;
                     q_qclass := qc; q_wire_len := 21 |}).
Proof.
  assert (H1 : 49 <= Z.of_nat (length sample_packet)) by by_compute.
  assert (H2 : DNS_MAX_NAME_LEN + 1
               <= Z.of_nat (length (q_name fresh_question))) by by_compute.
  split; [exact H1|]. split; [exact H2|].
  destruct (parse_question_decodes sample_packet 49 12 fresh_question H1
              ltac:(lia) ltac:(lia) H2)
    as (r & name & nl & Hd & _ & _ & Hok).
  assert (Hc : dnsasm_decompress_name sample_packet 49 12
                 (q_name fresh_question) (q_name_len fresh_question)
               = Done ({| res_error := DNSASM_OK; res_offset := 17 |},
                       overwrite fresh_out 0
                         (enc_labels labels_sample ++ [x00]), 17))
    by (vm_compute; reflexivity).
  rewrite Hc in Hd. injection Hd as <- <- <-.
  destruct (Hok eq_refl ltac:(by_compute))
    as (qt & qc & Hqt & Hqc & Hp & _).
  exists (overwrite fresh_out 0 (enc_labels labels_sample ++ [x00])), qt, qc.
  split; [exact Hqt|]. split; [exact Hqc|]. exact Hp.
Defined.

(** From the question of the sample packet to its answer. *)
Lemma parse_question_advances_witness :
  49 <= Z.of_nat (length sample_packet)
  /\ exists (r : dnsasm_result_t) (q : dnsasm_question_t),
       dnsasm_parse_question sample_packet 49 12 fresh_question = Done (r, q)
       /\ (res_error r = DNSASM_OK ->
           res_offset r = 12 + q_wire_len q
           /\ 5 <= q_wire_len q <= 261 /\ res_offset r <= 49)
       /\ (res_error r <> DNSASM_OK ->
           -5 <= res_error r <= -1 /\ res_offset r = 0).
Proof.
  assert (H1 : 49 <= Z.of_nat (length sample_packet)) by by_compute.
  split; [exact H1|].
  apply (parse_question_advances sample_packet 49 12 fresh_question H1);
    by_compute.
Defined.

(** From the answer of the sample packet to its end. *)
Lemma parse_rr_advances_witness :
  49 <= DNS_MAX_PACKET_SIZE
  /\ exists (r : dnsasm_result_t) (rr : dnsasm_rr_t),
       dnsasm_parse_rr sample_packet 49 33 fresh_rr = Done (r, rr)
       /\ (res_error r = DNSASM_OK ->
           res_offset r = 33 + rr_wire_len rr
           /\ 11 + rr_rdlength rr <= rr_wire_len rr
           /\ 0 <= rr_rdlength rr
           /\ res_offset r <= 49
           /\ exists p : Z,
                rr_rdata rr = Some p /\ p + rr_rdlength rr = res_offset r)
       /\ (res_error r <> DNSASM_OK ->
           -5 <= res_error r <= -1 /\ res_offset r = 0).
Proof.
  assert (H1 : 49 <= DNS_MAX_PACKET_SIZE) by by_compute.
  split; [exact H1|].
  apply (parse_rr_advances sample_packet 49 33 fresh_rr ltac:(by_compute) H1);
    by_compute.
Defined.

(** The question of the sample packet: [www.example.com], type 1,
    class 1. *)
Lemma parse_question_well_formed_witness :
  wire_path sample_packet 49 12 28 0 (enc_labels labels_sample) 16
  /\ terminator_at sample_packet 49 28
  /\ bytes_at sample_packet 29 (be16_bytes 1 ++ be16_bytes 1)
  /\ dnsasm_parse_question sample_packet 49 12 fresh_question
     = Done ({| res_error := DNSASM_OK; res_offset := 33 |},
             {| q_name := overwrite fresh_out 0
                            (enc_labels labels_sample ++ [x00]);
                q_name_len := 17; q_qtype := 1; q_qclass := 1;
                q_wire_len := 21 |}).
Proof.
  assert (Hb : bytes_at sample_packet 29 (be16_bytes 1 ++ be16_bytes 1))
    by (split; [lia|reflexivity]).
  split; [exact sample_question_path|]. split; [exact sample_terminator|].
  split; [exact Hb|].
  apply (parse_question_well_formed sample_packet 49 12 fresh_question 28 0
           (enc_labels labels_sample) 16 1 1 sample_question_path
           sample_terminator); by_compute.
Defined.

(** The answer of the sample packet: the name behind the pointer, type 1,
    class 1, ttl 300 and four bytes of rdata. *)
Lemma parse_rr_well_formed_witness :
  wire_path sample_packet 49 33 28 1 (enc_labels labels_sample) 2
  /\ bytes_at sample_packet 35
       (be16_bytes 1 ++ be16_bytes 1 ++ be32_bytes 300 ++ be16_bytes 4
        ++ sample_ip)
  /\ exists rr : dnsasm_rr_t,
       dnsasm_parse_rr sample_packet 49 33 fresh_rr
       = Done ({| res_error := DNSASM_OK; res_offset := 49 |}, rr)
       /\ rr_name rr
          = overwrite fresh_out 0 (enc_labels labels_sample ++ [x00])
       /\ rr_ttl rr = 300
       /\ rdata_view sample_packet rr = sample_ip
       /\ rr_wire_len rr = 16.
Proof.
  assert (Hb : bytes_at sample_packet 35
                 (be16_bytes 1 ++ be16_bytes 1 ++ be32_bytes 300
                  ++ be16_bytes 4 ++ sample_ip))
    by (split; [lia|reflexivity]).
  split; [exact sample_answer_path|]. split; [exact Hb|].
  destruct (parse_rr_well_formed sample_packet 49 33 fresh_rr 28 1
              (enc_labels labels_sample) 2 1 1 300 sample_ip
              sample_answer_path sample_terminator ltac:(by_compute)
              ltac:(lia) ltac:(by_compute) ltac:(lia) ltac:(by_compute)
              ltac:(lia) ltac:(lia) ltac:(lia) Hb ltac:(by_compute))
    as (rr & Hp & Hn & _ & _ & _ & Ht & _ & Hv & Hw).
  exists rr. split; [exact Hp|]. split; [exact Hn|]. split; [exact Ht|].
  split; [exact Hv|exact Hw].
Defined.


(** An A record for [www.example.com] with a ttl of 300. *)
Lemma build_a_record_bytes_witness :
  17 + 14 <= Z.of_nat (length (repeat xff 40))
  /\ dnsasm_build_a_record (repeat xff 40) (enc_name labels_sample) 17 300
       sample_ip
     = Done (31, enc_name labels_sample
                 ++ [x00; x01; x00; x01; x00; x00; x01; x2c; x00; x04]
                 ++ sample_ip ++ repeat xff 9).
Proof.
  assert (H1 : 17 + 14 <= Z.of_nat (length (repeat xff 40))) by by_compute.
  split; [exact H1|].
  apply (proj1 (build_a_record_bytes (repeat xff 40)
                  (enc_name labels_sample) 17 300 sample_ip
                  ltac:(by_compute) H1 ltac:(by_compute) ltac:(by_compute)
                  ltac:(lia))).
Defined.

(** The A record for [www.example.com] is built and read back. *)
Lemma build_a_record_then_parse_witness :
  Forall valid_label labels_sample
  /\ exists (built : list byte) (rr : dnsasm_rr_t),
       dnsasm_build_a_record (repeat xff 40) (enc_name labels_sample) 17
         300 sample_ip = Done (31, built)
       /\ dnsasm_parse_rr built 31 0 fresh_rr
          = Done ({| res_error := DNSASM_OK; res_offset := 31 |}, rr)
       /\ rr_name rr = overwrite fresh_out 0 (enc_name labels_sample)
       /\ rr_ttl rr = 300
       /\ rdata_view built rr = sample_ip.
Proof.
  split; [exact labels_sample_valid|].
  destruct (build_a_record_then_parse (repeat xff 40) labels_sample 300
              sample_ip fresh_rr labels_sample_valid ltac:(by_compute)
              ltac:(by_compute) ltac:(by_compute) ltac:(by_compute)
              ltac:(lia) ltac:(by_compute))
    as (built & rr & Hb & Hp & Hn & _ & _ & _ & Ht & _ & Hv & _).
  exists built, rr. split; [exact Hb|]. split; [exact Hp|].
  split; [exact Hn|]. split; [exact Ht|exact Hv].
Defined.

(** The first three bytes of two buffers of four bytes. *)
Lemma name_equal_prefixes_witness :
  0 <= 3 <= Z.of_nat (length (name_WWW ++ [x41]))
  /\ dnsasm_name_equal (name_WWW ++ [x41]) 3 (name_www ++ [x42]) 3 = Done 0
  /\ dnsasm_name_equal (name_WWW ++ [x41]) 3 (name_www ++ [x42]) 3
     = dnsasm_name_equal name_WWW 3 name_www 3.
Proof.
  assert (H1 : 0 <= 3 <= Z.of_nat (length (name_WWW ++ [x41])))
    by by_compute.
  split; [exact H1|].
  destruct (name_equal_prefixes (name_WWW ++ [x41]) 3 (name_www ++ [x42]) 3
              H1 ltac:(by_compute) ltac:(lia)) as [Hr Hp].
  split; [rewrite Hr; reflexivity|exact Hp].
Defined.

(** [WWW], [www] and [wWw]. *)
Lemma name_equal_equivalence_witness :
  0 <= 3 <= Z.of_nat (length name_WWW)
  /\ dnsasm_name_equal name_WWW 3 name_WWW 3 = Done 0
  /\ dnsasm_name_equal name_WWW 3 name_www 3
     = dnsasm_name_equal name_www 3 name_WWW 3
  /\ dnsasm_name_equal name_WWW 3 [x77; x57; x77] 3 = Done 0.
Proof.
  assert (H1 : 0 <= 3 <= Z.of_nat (length name_WWW)) by by_compute.
  split; [exact H1|].
  destruct (name_equal_equivalence name_WWW 3 name_www 3 [x77; x57; x77] 3
              H1 ltac:(by_compute) ltac:(by_compute) ltac:(lia) ltac:(lia))
    as (Hr & Hs & Ht).
  split; [exact Hr|]. split; [exact Hs|].
  apply Ht; reflexivity.
Defined.

Lemma sample_haystack_names :
  Forall2 holds_name sample_haystack [[label_com]; labels_sample].
Proof.
  unfold sample_haystack.
  repeat constructor; try (vm_compute; lia); try (vm_compute; discriminate).
Qed.

(** [WWW.example.com] is found at index 1 of the array of [com] and
    [www.example.com]. *)
Lemma name_find_first_match_witness :
  Forall2 holds_name sample_haystack [[label_com]; labels_sample]
  /\ dnsasm_name_find (enc_name labels_SAMPLE) 17 sample_haystack 2 = Done 1
  /\ same_name (enc_name labels_SAMPLE) 17 labels_sample
  /\ ~ same_name (enc_name labels_SAMPLE) 17 [label_com].
Proof.
  split; [exact sample_haystack_names|].
  destruct (name_find_first_match (enc_name labels_SAMPLE) 17 sample_haystack
              [[label_com]; labels_sample] sample_haystack_names
              ltac:(by_compute) ltac:(lia) ltac:(by_compute))
    as (r & Hrun & Hcases).
  assert (Hc : dnsasm_name_find (enc_name labels_SAMPLE) 17 sample_haystack
                 (Z.of_nat (length sample_haystack)) = Done 1)
    by (vm_compute; reflexivity).
  rewrite Hc in Hrun. injection Hrun as <-.
  split; [exact Hc|].
  destruct Hcases as [[Hbad _]|(_ & (ls & Hl & Hs) & Hnone)];
    [discriminate Hbad|].
  injection Hl as <-. split; [exact Hs|].
  apply (Hnone 0%nat [label_com]); [lia|reflexivity].
Defined.

(** A search among two entries of 511 bytes, the first without a
    terminator. *)
Lemma name_find_safe_witness :
  Forall (fun hay => 511 <= Z.of_nat (length hay)) wide_haystack
  /\ exists r : Z,
       dnsasm_name_find (enc_name [label_com]) 5 wide_haystack 2 = Done r
       /\ (r = -1 \/ 0 <= r < 2).
Proof.
  assert (H1 : Forall (fun hay => 511 <= Z.of_nat (length hay))
                 wide_haystack)
    by (repeat constructor; vm_compute; discriminate).
  split; [exact H1|].
  apply (name_find_safe (enc_name [label_com]) 5 wide_haystack 2
           ltac:(by_compute) ltac:(lia) ltac:(by_compute) ltac:(lia) H1).
Defined.

(** 0x1234 and 0x12345678. *)
Lemma bswap_involutive_witness :
  0 <= 0x1234 < 65536
  /\ bswap16 (bswap16 0x1234) = 0x1234
  /\ bswap32 (bswap32 0x12345678) = 0x12345678.
Proof.
  assert (H1 : 0 <= 0x1234 < 65536) by lia.
  split; [exact H1|].
  destruct (bswap_involutive 0x1234 0x12345678 H1 ltac:(lia))
    as (H16 & _ & H32 & _).
  split; [exact H16|exact H32].
Defined.

(** The answer name of the sample packet, decompressed twice. *)
Lemma decompress_idempotent_witness :
  wire_path sample_packet 49 33 28 1 (enc_labels labels_sample) 2
  /\ exists (r : dnsasm_result_t) (name : list byte) (nl : Z),
       dnsasm_decompress_name sample_packet 49 33 fresh_out 7
       = Done (r, name, nl)
       /\ res_error r = DNSASM_OK
       /\ take (Z.to_nat nl) name = enc_labels labels_sample ++ [x00]
       /\ dnsasm_decompress_name name nl 0 (repeat x00 256) 7
          = Done ({| res_error := DNSASM_OK; res_offset := nl |},
                  overwrite (repeat x00 256) 0 (take (Z.to_nat nl) name),
                  nl).
Proof.
  split; [exact sample_answer_path|].
  apply (decompress_idempotent sample_packet 49 33 fresh_out 7 28 1
           (enc_labels labels_sample) 2 (repeat x00 256) 7
           sample_answer_path sample_terminator); by_compute.
Defined.

(** A response to the question for [www.example.com]. *)
Lemma response_walk_witness :
  Forall valid_label labels_sample
  /\ dnsasm_parse_question
       (response_bytes 0x1234 0x8180 labels_sample 1 1 1 1 300 sample_ip)
       49 12 fresh_question
     = Done ({| res_error := DNSASM_OK; res_offset := 33 |},
             {| q_name := overwrite fresh_out 0 (enc_name labels_sample);
                q_name_len := 17; q_qtype := 1; q_qclass := 1;
                q_wire_len := 21 |})
  /\ exists rr : dnsasm_rr_t,
       dnsasm_parse_rr
         (response_bytes 0x1234 0x8180 labels_sample 1 1 1 1 300 sample_ip)
         49 33 fresh_rr
       = Done ({| res_error := DNSASM_OK; res_offset := 49 |}, rr)
       /\ rr_name rr = overwrite fresh_out 0 (enc_name labels_sample)
       /\ rdata_view
            (response_bytes 0x1234 0x8180 labels_sample 1 1 1 1 300
               sample_ip) rr = sample_ip.
Proof.
  split; [exact labels_sample_valid|].
  destruct (response_walk 0x1234 0x8180 labels_sample 1 1 1 1 300 sample_ip
              (header_of 0 0 0 0 0 0 7) fresh_question fresh_rr
              ltac:(lia) ltac:(lia) ltac:(lia) ltac:(lia) ltac:(lia)
              ltac:(lia) ltac:(lia) labels_sample_valid ltac:(by_compute)
              ltac:(by_compute) ltac:(by_compute) ltac:(by_compute))
    as (_ & Hq & rr & Hp & Hn & _ & _ & _ & _ & _ & Hv & _).
  split; [exact Hq|]. exists rr. split; [exact Hp|].
  split; [exact Hn|exact Hv].
Defined.

(** The name the question of the sample packet decodes to, in dotted
    notation: [www.example.com]. *)
Lemma print_question_dotted_labels_witness :
  bytes_at (overwrite fresh_out 0 (enc_name labels_sample)) 0
    (enc_labels labels_sample)
  /\ print_question_dotted (overwrite fresh_out 0 (enc_name labels_sample))
       17 fresh_out
     = Done ([x77; x77; x77; x2e; x65; x78; x61; x6d; x70; x6c; x65; x2e;
              x63; x6f; x6d; x00] ++ repeat xff 240).
Proof.
  assert (Hb : bytes_at (overwrite fresh_out 0 (enc_name labels_sample)) 0
                 (enc_labels labels_sample))
    by (split; [lia|reflexivity]).
  split; [exact Hb|].
  destruct (print_question_dotted_labels
              (overwrite fresh_out 0 (enc_name labels_sample)) 17 fresh_out
              labels_sample labels_sample_valid ltac:(by_compute) Hb
              ltac:(right; split; reflexivity) eq_refl) as [Hrun _].
  rewrite Hrun. reflexivity.
Defined.

(** A name whose only length byte claims 63 bytes, in a buffer of two. *)
Lemma print_question_dotted_terminates_witness :
  2 <= 65535
  /\ print_question_dotted [x3f; x61] 2 fresh_out <> OutOfFuel.
Proof.
  assert (H1 : 2 <= 65535) by lia.
  split; [exact H1|].
  apply (print_question_dotted_terminates [x3f; x61] 2 fresh_out H1).
Defined.
